(** * VisualClusters: leaf resolution, cluster building and the layout trigger

    A shallow embedding of [wwwroot/extensions/BaseExtension.js] and of
    [wwwroot/extensions/VisualClusters/{Cluster,VisualClusters}.js].

    The viewer runtime (instance tree, fragment list, property database) is
    the host: a [Model] is the record of the answers the host gives to the
    calls the extension makes.  The classes that live in other files of the
    extension (animation controller, gizmo controller, layout builder) are
    the methods of the class [Collaborators]. *)

From Stdlib Require Import ZArith String Ascii Bool Lia Permutation List.
From Stdlib Require Import DecimalString.
Import ListNotations.
Open Scope string_scope.
Open Scope list_scope.
Open Scope Z_scope.

Set Implicit Arguments.

(** ** JavaScript values that travel through the property database *)

Module Js.

(** Display values are strings, numbers, booleans, [null] or [undefined].
    Numbers are the integer-valued ones (dbIds, counts, levels): [Num n]
    stands for the number that holds the integer [n], which exists for every
    [n] from [- 2^53] to [2^53]. *)
Inductive value : Type :=
| Undefined
| Null
| Bool (b : bool)
| Num (n : Z)
| Str (s : string).

Definition value_eq_dec (a b : value) : {a = b} + {a <> b}.
Proof.
  decide equality;
    [ apply Bool.bool_dec | apply Z.eq_dec | apply String.string_dec ].
Defined.

(** [SameValueZero], the equality a [Set] uses for its members. *)
Definition sameValueZero (a b : value) : bool :=
  if value_eq_dec a b then true else false.

(** [ToBoolean]. *)
Definition truthy (v : value) : bool :=
  match v with
  | Undefined | Null => false
  | Bool b => b
  | Num n => negb (n =? 0)
  | Str s => negb (String.eqb s "")
  end.

(** [Number.MAX_SAFE_INTEGER], [2^53 - 1]. *)
Definition MAX_SAFE_INTEGER : Z := 9007199254740991.

(** The integers whose decimal form is what [Number::toString] prints: up to
    [2^53] in absolute value every integer is a number and is printed with
    all its digits. *)
Definition exactInteger (n : Z) : bool :=
  Z.abs n <=? MAX_SAFE_INTEGER + 1.

(** [Number::toString] of an integer with [exactInteger n]: its decimal
    digits.  (Beyond that range the language prints the shortest digits that
    read back as the same number, and from [10^21] on the exponent form;
    such numbers are outside of this definition.) *)
Definition numberToString (n : Z) : string :=
  NilZero.string_of_int (Z.to_int n).

(** [n++] on a number that holds an integer between [- 2^53] and [2^53]:
    the sum is exact up to [2^53]; [2^53 + 1] is not a number and rounds
    back to [2^53], so the increment leaves [2^53] as it is. *)
Definition increment (n : Z) : Z :=
  if n <=? MAX_SAFE_INTEGER then n + 1 else n.

(** [v?.toString()]: [undefined] for the two nullish values. *)
Definition toStringOpt (v : value) : option string :=
  match v with
  | Undefined | Null => None
  | Bool true => Some "true"
  | Bool false => Some "false"
  | Num n => Some (numberToString n)
  | Str s => Some s
  end.

(** [ToPropertyKey], used by [obj[v]]. *)
Definition toPropertyKey (v : value) : string :=
  match v with
  | Undefined => "undefined"
  | Null => "null"
  | Bool true => "true"
  | Bool false => "false"
  | Num n => numberToString n
  | Str s => s
  end.

Definition lowerAscii (c : ascii) : ascii :=
  let n := N_of_ascii c in
  if ((65 <=? n) && (n <=? 90))%N then ascii_of_N (n + 32) else c.

(** [String.prototype.toLowerCase] on the ASCII letters; the other bytes of
    the UTF-8 encoding are left as they are. *)
Fixpoint toLowerCase (s : string) : string :=
  match s with
  | EmptyString => EmptyString
  | String c r => String (lowerAscii c) (toLowerCase r)
  end.

(** [v != lit] for a string literal [lit] that does not denote a number:
    a string is compared by content, [ToNumber(lit)] is [NaN] against a
    number or a boolean, and the nullish values equal only each other. *)
Definition looseNeqLiteral (v : value) (lit : string) : bool :=
  match v with
  | Str s => negb (String.eqb s lit)
  | _ => true
  end.

End Js.

(** ** Completions, promises and host replies *)

Inductive Exn : Type :=
| TypeError (what : string)
| HostError (what : string).

(** How a synchronous piece of code ends. *)
Inductive Res (A : Type) : Type :=
| Ok (a : A)
| Throw (e : Exn).
Arguments Throw {A} e.

(** How a promise ends: [Pending] is a promise that is never settled. *)
Inductive Promise (A : Type) : Type :=
| Resolved (a : A)
| Rejected (e : Exn)
| Pending.
Arguments Rejected {A} e.
Arguments Pending {A}.

(** What the host does with the two callbacks of a query: it calls the
    success callback with a result, or the error callback with an error. *)
Inductive Reply (A : Type) : Type :=
| Answer (a : A)
| Failure (e : Exn).
Arguments Failure {A} e.

Definition bindRes {A B} (r : Res A) (k : A -> Res B) : Res B :=
  match r with
  | Ok a => k a
  | Throw e => Throw e
  end.

Notation "x <- c ;; k" := (bindRes c (fun x => k))
  (at level 61, c at next level, right associativity).

(** ** The host model *)

Record Property : Type := {
  displayName : string;
  displayValue : Js.value
}.

(** One element of a [getBulkProperties] result. *)
Record PropResult : Type := {
  item_dbId : Z;
  item_name : option string;
  item_properties : list Property
}.

Record InstanceTree : Type := {
  getRootId : Z;
  getChildCount : Z -> Z;
  (** the ids handed to the callback of [enumNodeChildren(dbId, cb, recursive)] *)
  enumNodeChildren : Z -> bool -> list Z;
  (** the ids handed to the callback of [enumNodeFragments(dbId, cb)] *)
  enumNodeFragments : Z -> list Z
}.

Record FragmentList : Type := {
  isNotLoaded : Z -> bool;
  isFragVisible : Z -> bool
}.

Record PropertyDb : Type := {
  isLoadDone : bool
}.

Record Model : Type := {
  model_id : Z;
  is3d : bool;
  getInstanceTree : option InstanceTree;
  getFragmentList : FragmentList;
  getPropertyDb : option PropertyDb;
  getObjectTree : Reply InstanceTree;
  (** [getBulkProperties(dbIds, {}, onSuccess, onError)] *)
  getBulkProperties : list Js.value -> Reply (list PropResult);
  (** [getBulkProperties2(dbIds, {ignoreHidden: false, propFilter}, onSuccess, onError)] *)
  getBulkProperties2 : list Js.value -> list string -> Reply (list PropResult)
}.

(** ** Cluster.js *)

Record ShapeId : Type := createShapeId {
  modelId : Z;
  dbId : Z
}.

Record Cluster : Type := {
  name : Js.value;
  shapeIds : list ShapeId
}.

Definition newCluster (category : Js.value) : Cluster :=
  {| name := category; shapeIds := [] |}.

(** The callback given to [enumNodeFragments]: it clears [allHidden] at the
    first fragment that is neither skipped nor hidden and returns [true],
    which ends the traversal. *)
Fixpoint enumNodeFragments_callback (fragList : FragmentList) (frags : list Z)
    (allHidden : bool) : bool :=
  match frags with
  | [] => allHidden
  | fragId :: rest =>
      let skipped := isNotLoaded fragList fragId in
      let hidden := negb (isFragVisible fragList fragId) in
      if negb skipped && negb hidden then false
      else enumNodeFragments_callback fragList rest allHidden
  end.

(** The same loop on a host that ignores the callback's return value. *)
Fixpoint enumNodeFragments_noStop (fragList : FragmentList) (frags : list Z)
    (allHidden : bool) : bool :=
  match frags with
  | [] => allHidden
  | fragId :: rest =>
      let skipped := isNotLoaded fragList fragId in
      let hidden := negb (isFragVisible fragList fragId) in
      enumNodeFragments_noStop fragList rest
        (if negb skipped && negb hidden then false else allHidden)
  end.

Definition hasVisibleFragments (model : Model) (dbId : Z) : Res bool :=
  match getInstanceTree model with
  | None => Throw (TypeError "it is null")
  | Some it =>
      let fragList := getFragmentList model in
      let allHidden :=
        enumNodeFragments_callback fragList (enumNodeFragments it dbId) true in
      Ok (negb allHidden)
  end.

(** [Array.from(new Set(a))]: the members in the order of their first
    insertion. *)
Fixpoint setAddAll (members : list Js.value) (a : list Js.value) : list Js.value :=
  match a with
  | [] => members
  | x :: rest =>
      setAddAll
        (if existsb (Js.sameValueZero x) members then members else members ++ [x])
        rest
  end.

Definition uniq (a : list Js.value) : list Js.value := setAddAll [] a.

(** ** BaseExtension.js *)

(** The fields of [BaseExtension] that leaf resolution reads and writes. *)
Record BaseExtension : Type := {
  cachedDbIds : option (list Js.value);
  geometryNames : list string
}.

(** The constructor. *)
Definition BaseExtension_new : BaseExtension :=
  {| cachedDbIds := None; geometryNames := ["mesh"; "body"] |}.

Definition set_cachedDbIds (ids : option (list Js.value)) (this : BaseExtension)
    : BaseExtension :=
  {| cachedDbIds := ids; geometryNames := geometryNames this |}.

Definition findLeafNodes (model : Model) : Promise (list Z) :=
  match getObjectTree model with
  | Failure e => Rejected e
  | Answer tree =>
      let leaves :=
        filter (fun dbid => getChildCount tree dbid =? 0)
               (enumNodeChildren tree (getRootId tree) true) in
      Resolved leaves
  end.

(** [for (i = 0; i < a.length; i += chunkSize) chunks.push(a.slice(i, i + chunkSize))];
    the loop runs at most [a.length] times, which is the fuel. *)
Fixpoint chunksOf (fuel : nat) (chunkSize : nat) (a : list Z) : list (list Z) :=
  match fuel with
  | O => []
  | S fuel' =>
      match a with
      | [] => []
      | _ => firstn chunkSize a :: chunksOf fuel' chunkSize (skipn chunkSize a)
      end
  end.

Definition chunkSize : nat := 1000.

(** [Promise.all] over the chunk queries: the first failure rejects the
    join, otherwise the results come in the order of the chunks. *)
Fixpoint promiseAll {A} (replies : list (Reply A)) : Reply (list A) :=
  match replies with
  | [] => Answer []
  | Failure e :: _ => Failure e
  | Answer a :: rest =>
      match promiseAll rest with
      | Answer r => Answer (a :: r)
      | Failure e => Failure e
      end
  end.

(** [names.includes(v)] where [v] may be [undefined]. *)
Definition includes (names : list string) (v : option string) : bool :=
  match v with
  | Some s => existsb (String.eqb s) names
  | None => false
  end.

Definition hasGeometryProperty (this : BaseExtension) (prop : PropResult) : bool :=
  existsb
    (fun property =>
       let displayValue' :=
         option_map Js.toLowerCase (Js.toStringOpt (displayValue property)) in
       includes (geometryNames this) displayValue')
    (item_properties prop).

(** [name && this.geometryNames.includes(name.toLowerCase())] *)
Definition hasGeometryName (this : BaseExtension) (prop : PropResult) : bool :=
  match item_name prop with
  | Some name' =>
      Js.truthy (Js.Str name')
      && includes (geometryNames this) (Some (Js.toLowerCase name'))
  | None => false
  end.

(** The body of the [forEach] of [findActualLeafNodes]: the value pushed to
    [dbIds] for one query result, or the [TypeError] of reading
    [displayValue] of [undefined] when [find] finds no "parent" property. *)
Definition actualLeaf (this : BaseExtension) (prop : PropResult) : Res Js.value :=
  if hasGeometryProperty this prop || hasGeometryName this prop then
    match find (fun subProp => String.eqb (displayName subProp) "parent")
               (item_properties prop) with
    | None => Throw (TypeError "displayProperty is undefined")
    | Some displayProperty =>
        if Js.truthy (displayValue displayProperty)
        then Ok (displayValue displayProperty)
        else Ok (Js.Num (item_dbId prop))
    end
  else Ok (Js.Num (item_dbId prop)).

Fixpoint forEach_actualLeaf (this : BaseExtension) (props : list PropResult)
    (dbIds : list Js.value) : Res (list Js.value) :=
  match props with
  | [] => Ok dbIds
  | prop :: rest =>
      v <- actualLeaf this prop ;;
      forEach_actualLeaf this rest (dbIds ++ [v])
  end.

(** The property queries of [findActualLeafNodes]: chunked and joined, or
    one query for all leaves. *)
Definition queryLeafProperties (model : Model) (useParallel : bool)
    (allDbIds : list Z) : Reply (list PropResult) :=
  if useParallel then
    let chunks := chunksOf (length allDbIds) chunkSize allDbIds in
    match promiseAll (map (fun chunk => getBulkProperties model (map Js.Num chunk))
                          chunks) with
    | Answer results => Answer (concat results)
    | Failure e => Failure e
    end
  else getBulkProperties model (map Js.Num allDbIds).

(** [findActualLeafNodes] after its test of the cache, for a call that
    missed: the queries, the loop over the records and, with [useCache],
    the write of the slot.  The slot is not tested again: the write happens
    at the settlement, on the extension as it is by then, whatever the slot
    holds. *)
Definition findActualLeafNodes_settle (model : Model) (useCache useParallel : bool)
    (this : BaseExtension) : Promise (list Js.value) * BaseExtension :=
  match findLeafNodes model with
  | Rejected e => (Rejected e, this)
  | Pending => (Pending, this)
  | Resolved allDbIds =>
      match queryLeafProperties model useParallel allDbIds with
      | Failure e => (Rejected e, this)
      | Answer props =>
          match forEach_actualLeaf this props [] with
          | Throw e => (Rejected e, this)
          | Ok dbIds =>
              let dbIds := uniq dbIds in
              (Resolved dbIds,
               if useCache then set_cachedDbIds (Some dbIds) this else this)
          end
      end
  end.

(** [findActualLeafNodes(model, useCache, useParallel)] from the call to
    the settlement of the returned promise, when no other code of the
    extension runs in between: the test of the cache, made when the call is
    made, and for a miss the rest of the body. *)
Definition findActualLeafNodes (model : Model) (useCache useParallel : bool)
    (this : BaseExtension) : Promise (list Js.value) * BaseExtension :=
  match (if useCache then cachedDbIds this else None) with
  | Some cached => (Resolved cached, this)
  | None => findActualLeafNodes_settle model useCache useParallel this
  end.

(** ** Cluster.js: building the clusters *)

(** [clustersByName]: the own properties of the object, in creation order. *)
Definition ClustersByName : Type := list (string * Cluster).

(** The properties every object literal inherits from [Object.prototype];
    all of them are truthy. *)
Definition objectPrototypeKeys : list string :=
  ["constructor"; "hasOwnProperty"; "isPrototypeOf"; "propertyIsEnumerable";
   "toLocaleString"; "toString"; "valueOf"; "__proto__";
   "__defineGetter__"; "__defineSetter__"; "__lookupGetter__"; "__lookupSetter__"].

Fixpoint ownProperty (o : ClustersByName) (key : string) : option Cluster :=
  match o with
  | [] => None
  | (k, c) :: rest => if String.eqb k key then Some c else ownProperty rest key
  end.

(** What [clustersByName[category]] evaluates to. *)
Inductive Slot : Type :=
| OwnCluster (c : Cluster)
| Inherited
| NoProperty.

Definition getProperty (o : ClustersByName) (key : string) : Slot :=
  match ownProperty o key with
  | Some c => OwnCluster c
  | None =>
      if existsb (String.eqb key) objectPrototypeKeys then Inherited else NoProperty
  end.

(** [cluster.shapeIds.push(shapeId)] for the cluster stored under [key]. *)
Fixpoint shapeIds_push (o : ClustersByName) (key : string) (shapeId : ShapeId)
    : ClustersByName :=
  match o with
  | [] => []
  | (k, c) :: rest =>
      if String.eqb k key
      then (k, {| name := name c; shapeIds := shapeIds c ++ [shapeId] |}) :: rest
      else (k, c) :: shapeIds_push rest key shapeId
  end.

(** The local [cluster] is the cluster stored under [key] when [own], and a
    member of [Object.prototype], which has no [shapeIds], otherwise. *)
Definition cluster_push (o : ClustersByName) (key : string) (own : bool)
    (shapeId : ShapeId) : Res ClustersByName :=
  if own then Ok (shapeIds_push o key shapeId)
  else Throw (TypeError "cluster.shapeIds is undefined").

(** The callback given to [tree.enumNodeChildren(item.dbId, cb, true)]. *)
Fixpoint enumNodeChildren_callback (model : Model) (children : list Z)
    (key : string) (own : bool) (o : ClustersByName) : Res ClustersByName :=
  match children with
  | [] => Ok o
  | child :: rest =>
      visible <- hasVisibleFragments model child ;;
      o' <- (if (visible : bool)
             then cluster_push o key own (createShapeId (model_id model) child)
             else Ok o) ;;
      enumNodeChildren_callback model rest key own o'
  end.

(** One turn of the loop of [onDone]. *)
Definition onDone_item (model : Model) (searchAncestors : bool)
    (item : PropResult) (o : ClustersByName) : Res ClustersByName :=
  match item_properties item with
  | [] => Throw (TypeError "item.properties[0] is undefined")
  | property0 :: _ =>
      let category := displayValue property0 in
      let key := Js.toPropertyKey category in
      let '(o, own) :=
        match getProperty o key with
        | OwnCluster _ => (o, true)
        | Inherited => (o, false)
        | NoProperty => (o ++ [(key, newCluster category)], true)
        end in
      if searchAncestors then
        match getInstanceTree model with
        | None => Throw (TypeError "tree is undefined")
        | Some tree =>
            enumNodeChildren_callback model
              (enumNodeChildren tree (item_dbId item) true) key own o
        end
      else
        cluster_push o key own (createShapeId (model_id model) (item_dbId item))
  end.

Fixpoint onDone (model : Model) (searchAncestors : bool)
    (result : list PropResult) (o : ClustersByName) : Res ClustersByName :=
  match result with
  | [] => Ok o
  | item :: rest =>
      o' <- onDone_item model searchAncestors item o ;;
      onDone model searchAncestors rest o'
  end.

(** A key is an array index when it is the decimal form of an integer
    between 0 and 2^32 - 2. *)
Definition arrayIndex (key : string) : option Z :=
  match NilZero.int_of_string key with
  | Some d =>
      let n := Z.of_int d in
      if String.eqb (Js.numberToString n) key && (0 <=? n) && (n <=? 4294967294)
      then Some n else None
  | None => None
  end.

Fixpoint insertByIndex (e : Z * Cluster) (sorted : list (Z * Cluster))
    : list (Z * Cluster) :=
  match sorted with
  | [] => [e]
  | h :: rest =>
      if fst e <? fst h then e :: h :: rest else h :: insertByIndex e rest
  end.

Fixpoint indexProperties (o : ClustersByName) : list (Z * Cluster) :=
  match o with
  | [] => []
  | (k, c) :: rest =>
      match arrayIndex k with
      | Some n => insertByIndex (n, c) (indexProperties rest)
      | None => indexProperties rest
      end
  end.

Definition isStringKey (entry : string * Cluster) : bool :=
  match arrayIndex (fst entry) with
  | Some _ => false
  | None => true
  end.

(** [Object.values(o)]: the array-index keys in ascending order, then the
    other keys in creation order. *)
Definition Object_values (o : ClustersByName) : list Cluster :=
  map snd (indexProperties o) ++ map snd (filter isStringKey o).

(** The [await context.findActualLeafNodes(model)] of the successive turns
    of the loop: the leaf ids of every model, or the first rejection, which
    ends the function. *)
Fixpoint awaitLeafNodes (models : list Model) (context : BaseExtension)
    : Promise (list (Model * list Js.value)) * BaseExtension :=
  match models with
  | [] => (Resolved [], context)
  | model :: rest =>
      match findActualLeafNodes model true true context with
      | (Resolved dbIds, context') =>
          match awaitLeafNodes rest context' with
          | (Resolved queries, context'') =>
              (Resolved ((model, dbIds) :: queries), context'')
          | other => other
          end
      | (Rejected e, context') => (Rejected e, context')
      | (Pending, context') => (Pending, context')
      end
  end.

(** The promises pushed by the loop, in the order of the models.  A promise
    is resolved at the end of [onDone]; [reject] is never called, so a query
    whose error callback would fire, or an [onDone] that throws, leaves the
    promise unsettled ([None]). *)
Fixpoint settleQueries (attribName : string) (searchAncestors : bool)
    (queries : list (Model * list Js.value)) (o : ClustersByName)
    : option ClustersByName :=
  match queries with
  | [] => Some o
  | (model, dbIds) :: rest =>
      match getBulkProperties2 model dbIds [attribName] with
      | Failure _ => None
      | Answer result =>
          match onDone model searchAncestors result o with
          | Throw _ => None
          | Ok o' => settleQueries attribName searchAncestors rest o'
          end
      end
  end.

(** A parameter with a default value takes it when the argument is
    [undefined]. *)
Definition defaultTo {A} (d : A) (arg : option A) : A :=
  match arg with
  | Some a => a
  | None => d
  end.

Definition buildClustersFromAttribute (models : list Model)
    (attribName : option string) (searchAncestors : option bool)
    (context : BaseExtension) : Promise (list Cluster) * BaseExtension :=
  let attribName := defaultTo "Category" attribName in
  let searchAncestors := defaultTo true searchAncestors in
  match awaitLeafNodes models context with
  | (Resolved queries, context') =>
      match settleQueries attribName searchAncestors queries [] with
      | Some clustersByName => (Resolved (Object_values clustersByName), context')
      | None => (Pending, context')
      end
  | (Rejected e, context') => (Rejected e, context')
  | (Pending, context') => (Pending, context')
  end.

(** ** VisualClusters.js: the default layout *)

(** [ModelAnimState] and [SceneAnimState], as far as the extension reads
    them: [sceneAnimState.animStates] has one entry per model id, possibly
    empty, and each entry has its own [animStates]. *)
Record ModelAnimState (O : Type) : Type := {
  model_animStates : list O
}.

Record SceneAnimState (O : Type) : Type := {
  scene_animStates : list (option (ModelAnimState O))
}.

(** The classes of the extension that are defined in the other files of
    [VisualClusters/]: [RowLayoutBuilder], [ShapeBoxes], [RotationAlignment],
    [AnimController] and [ClusterGizmoController].  Their methods are taken
    as they are called. *)
Class Collaborators : Type := {
  SceneLayout : Type;
  ObjectAnimState : Type;
  RotationAlignment : Type;
  ShapeBoxes : Type;
  AnimController : Type;
  ClusterGizmoController : Type;
  newRotationAlignment : list Model -> RotationAlignment;
  newShapeBoxes : list Model -> option RotationAlignment -> ShapeBoxes;
  createClusterSetLayout :
    list Cluster -> ShapeBoxes -> option RotationAlignment -> SceneLayout;
  createSceneState : SceneLayout -> list Model -> SceneAnimState ObjectAnimState;
  (** [name in animController.states] and [animController.states[name]] *)
  anim_states : AnimController -> string -> option (SceneAnimState ObjectAnimState);
  anim_registerState :
    string -> SceneAnimState ObjectAnimState -> AnimController -> AnimController;
  anim_animateTo : option string -> AnimController -> AnimController;
  anim_reset : AnimController -> AnimController;
  gizmo_onLayoutChanged :
    option SceneLayout -> ClusterGizmoController -> ClusterGizmoController;
  gizmo_reset : ClusterGizmoController -> ClusterGizmoController
}.

Definition ClusteredStateName : string := "ByCategory".

(** [model.is3d() && Boolean(model.getInstanceTree())] *)
Definition modelSupported (model : Model) : bool :=
  is3d model
  && match getInstanceTree model with
     | Some _ => true
     | None => false
     end.

(** [c.name != 'Revit Topography' && c.name != 'Revit Rooms' && c.name != 'Revit <Sketch>'];
    none of the three literals denotes a number. *)
Definition clusterFilter (c : Cluster) : bool :=
  Js.looseNeqLiteral (name c) "Revit Topography"
  && Js.looseNeqLiteral (name c) "Revit Rooms"
  && Js.looseNeqLiteral (name c) "Revit <Sketch>".

Section DefaultLayout.

Context `{C : Collaborators}.

Definition createDefaultLayout (models : list Model) (alignShapeRotation : bool)
    (attribName : option string) (searchAncestors : option bool)
    (context : BaseExtension) : Promise SceneLayout * BaseExtension :=
  let models := filter modelSupported models in
  match buildClustersFromAttribute models attribName searchAncestors context with
  | (Resolved clusters, context') =>
      let clusters := filter clusterFilter clusters in
      let rotationAlignment :=
        if alignShapeRotation then Some (newRotationAlignment models) else None in
      let shapeBoxes := newShapeBoxes models rotationAlignment in
      (Resolved (createClusterSetLayout clusters shapeBoxes rotationAlignment),
       context')
  | (Rejected e, context') => (Rejected e, context')
  | (Pending, context') => (Pending, context')
  end.

End DefaultLayout.

(** ** VisualClusters.js: the extension *)

Inductive ButtonState : Type := ACTIVE | INACTIVE | DISABLED.

(** What the extension sets on its toolbar button. *)
Record Button : Type := {
  button_visible : bool;
  button_toolTip : string;
  button_state : option ButtonState
}.

(** The [select] element: [style.display] and the values of its options. *)
Record Dropdown : Type := {
  style_display : string;
  dropdown_options : list string
}.

Record Options : Type := {
  skipDefaultListeners : bool;
  skipDefaultButton : bool;
  opt_searchAncestors : option bool
}.

Section Extension.

Context `{C : Collaborators}.

Inductive ViewerEvent : Type :=
| TRANSITION_STARTED (sceneAnimState : option (SceneAnimState ObjectAnimState))
| TRANSITION_ENDED (sceneAnimState : option (SceneAnimState ObjectAnimState)).

(** The viewer, as the extension sees it: the models it reports as visible
    and the events the extension has fired on it, latest first. *)
Record Viewer : Type := {
  getVisibleModels : list Model;
  fired : list ViewerEvent
}.

(** The fields of a [VisualClustersExtension]; [base] holds the fields it
    inherits from [BaseExtension].  [layoutTimeStamp] is a number that
    holds an integer: the constructor sets it to 0 and [applyLayout]
    increments it, see [Js.increment]. *)
Record VisualClustersExtension : Type := mkExtension {
  base : BaseExtension;
  viewer : Viewer;
  options : Options;
  layoutActive : bool;
  layoutTimeStamp : Z;
  animController : AnimController;
  gizmoController : ClusterGizmoController;
  chosenAttrib : string;
  dropdown : Dropdown;
  clusterButton : option Button;
  customSceneLayout : option SceneLayout;
  sceneLayout : option SceneLayout;
  sceneAnimState : option (SceneAnimState ObjectAnimState)
}.

(** The state the constructor leaves, given the viewer, the options and
    the two controllers it creates. *)
Definition VisualClustersExtension_new (v : Viewer) (o : Options)
    (ac : AnimController) (gc : ClusterGizmoController) : VisualClustersExtension :=
  {| base := BaseExtension_new; viewer := v; options := o;
     layoutActive := false; layoutTimeStamp := 0;
     animController := ac; gizmoController := gc;
     chosenAttrib := "";
     dropdown := {| style_display := "none"; dropdown_options := [] |};
     clusterButton := None; customSceneLayout := None;
     sceneLayout := None; sceneAnimState := None |}.

(** *** Field assignments *)

Definition set_base (x : BaseExtension) (this : VisualClustersExtension) :=
  let 'mkExtension _ b c d e f g h i j k l m := this in
  mkExtension x b c d e f g h i j k l m.
Definition set_viewer (x : Viewer) (this : VisualClustersExtension) :=
  let 'mkExtension a _ c d e f g h i j k l m := this in
  mkExtension a x c d e f g h i j k l m.
Definition set_layoutActive (x : bool) (this : VisualClustersExtension) :=
  let 'mkExtension a b c _ e f g h i j k l m := this in
  mkExtension a b c x e f g h i j k l m.
Definition set_layoutTimeStamp (x : Z) (this : VisualClustersExtension) :=
  let 'mkExtension a b c d _ f g h i j k l m := this in
  mkExtension a b c d x f g h i j k l m.
Definition set_animController (x : AnimController) (this : VisualClustersExtension) :=
  let 'mkExtension a b c d e _ g h i j k l m := this in
  mkExtension a b c d e x g h i j k l m.
Definition set_gizmoController (x : ClusterGizmoController)
    (this : VisualClustersExtension) :=
  let 'mkExtension a b c d e f _ h i j k l m := this in
  mkExtension a b c d e f x h i j k l m.
Definition set_chosenAttrib (x : string) (this : VisualClustersExtension) :=
  let 'mkExtension a b c d e f g _ i j k l m := this in
  mkExtension a b c d e f g x i j k l m.
Definition set_dropdown (x : Dropdown) (this : VisualClustersExtension) :=
  let 'mkExtension a b c d e f g h _ j k l m := this in
  mkExtension a b c d e f g h x j k l m.
Definition set_clusterButton (x : option Button) (this : VisualClustersExtension) :=
  let 'mkExtension a b c d e f g h i _ k l m := this in
  mkExtension a b c d e f g h i x k l m.
Definition set_customSceneLayout (x : option SceneLayout)
    (this : VisualClustersExtension) :=
  let 'mkExtension a b c d e f g h i j _ l m := this in
  mkExtension a b c d e f g h i j x l m.
Definition set_sceneLayout (x : option SceneLayout) (this : VisualClustersExtension) :=
  let 'mkExtension a b c d e f g h i j k _ m := this in
  mkExtension a b c d e f g h i j k x m.
Definition set_sceneAnimState (x : option (SceneAnimState ObjectAnimState))
    (this : VisualClustersExtension) :=
  let 'mkExtension a b c d e f g h i j k l _ := this in
  mkExtension a b c d e f g h i j k l x.

(** *** Methods: a state and exception monad over the extension *)

Definition M (A : Type) : Type :=
  VisualClustersExtension -> Res A * VisualClustersExtension.

Definition ret {A} (a : A) : M A := fun this => (Ok a, this).

Definition bindM {A B} (c : M A) (k : A -> M B) : M B :=
  fun this =>
    match c this with
    | (Ok a, this') => k a this'
    | (Throw e, this') => (Throw e, this')
    end.

Definition throw {A} (e : Exn) : M A := fun this => (Throw e, this).

Definition gets {A} (f : VisualClustersExtension -> A) : M A :=
  fun this => (Ok (f this), this).

Definition assign (f : VisualClustersExtension -> VisualClustersExtension) : M unit :=
  fun this => (Ok tt, f this).

(** Calling an [async] function: what it throws before its first [await]
    rejects its promise and does not reach the caller. *)
Definition async {A} (c : M A) : M (Res A) :=
  fun this =>
    match c this with
    | (r, this') => (Ok r, this')
    end.

End Extension.

Notation "x <~ c ;; k" := (bindM c (fun x => k))
  (at level 61, c at next level, right associativity).
Notation "c ;;> k" := (bindM c (fun _ => k))
  (at level 61, right associativity).

Section ExtensionMethods.

Context `{C : Collaborators}.

(** What one call of [applyLayout] captures before it suspends: the visible
    models, the value of the counter after its increment, and the arguments
    it passes to [createDefaultLayout]. *)
Record LayoutRun : Type := {
  run_models : list Model;
  run_layoutTimeStamp : Z;
  run_attribName : string;
  run_searchAncestors : option bool
}.

(** How a call of [applyLayout] returns to its caller: suspended at
    [await createDefaultLayout(...)], or run through to its end because
    [customSceneLayout] was set. *)
Inductive Launch : Type :=
| Awaiting (run : LayoutRun)
| Finished (run : LayoutRun) (completion : Res unit).

Definition fireEvent (ev : ViewerEvent) : M unit :=
  assign (fun this =>
    set_viewer {| getVisibleModels := getVisibleModels (viewer this);
                  fired := ev :: fired (viewer this) |} this).

Definition hasInstanceTree (model : Model) : bool :=
  match getInstanceTree model with
  | Some _ => true
  | None => false
  end.

Definition propDbLoading (model : Model) : bool :=
  match getPropertyDb model with
  | Some db => negb (isLoadDone db)
  | None => false
  end.

Definition propDbMissing (model : Model) : bool :=
  negb (propDbLoading model) && negb (hasInstanceTree model).

Definition updateButton : M unit :=
  fun this =>
    match clusterButton this with
    | None => (Ok tt, this)
    | Some button =>
        let models := getVisibleModels (viewer this) in
        let showButton := existsb is3d models in
        if negb showButton then
          (Ok tt,
           set_clusterButton
             (Some {| button_visible := showButton;
                      button_toolTip := button_toolTip button;
                      button_state := button_state button |}) this)
        else
          let waitForDb := existsb propDbLoading models in
          let noPropDb := existsb propDbMissing models in
          let disable := waitForDb || noPropDb in
          let tooltip :=
            if disable then
              if waitForDb then "Waiting for database to load"
              else "Visual Clustering can only be used if a database is available"
            else "Form Clusters by Category" in
          let state :=
            if disable then DISABLED
            else if layoutActive this then ACTIVE else INACTIVE in
          (Ok tt,
           set_clusterButton
             (Some {| button_visible := showButton;
                      button_toolTip := tooltip;
                      button_state := Some state |}) this)
    end.

(** [a.filter(Boolean)] on an array whose entries are objects or empty. *)
Definition filterBoolean {A} (a : list (option A)) : list A :=
  flat_map (fun x => match x with Some v => [v] | None => [] end) a.

(** The payload of the two transition events: the clustered state when it
    is registered and its first model state has objects, [null] otherwise.
    Reading [animStates] of the missing first model state throws. *)
Definition transitionPayload : M (option (SceneAnimState ObjectAnimState)) :=
  fun this =>
    match anim_states (animController this) ClusteredStateName with
    | None => (Ok None, this)
    | Some state =>
        match filterBoolean (scene_animStates state) with
        | [] => (Throw (TypeError "animStates.filter(Boolean)[0] is undefined"), this)
        | first :: _ =>
            if (0 <? length (model_animStates first))%nat
            then (Ok (Some state), this)
            else (Ok None, this)
        end
    end.

Definition onTransitionStarted : M unit :=
  payload <~ transitionPayload ;;
  fireEvent (TRANSITION_STARTED payload).

Definition onTransitionEnded : M unit :=
  payload <~ transitionPayload ;;
  fireEvent (TRANSITION_ENDED payload).

Definition reset : M unit :=
  assign (fun this => set_animController (anim_reset (animController this)) this) ;;>
  assign (fun this => set_gizmoController (gizmo_reset (gizmoController this)) this) ;;>
  assign (set_layoutActive false) ;;>
  updateButton.

Definition onModelAdded : M unit := updateButton.

Definition onModelRemoved : M unit :=
  updateButton ;;>
  models <~ gets (fun this => getVisibleModels (viewer this)) ;;
  let lastModelRemoved := (length models =? 0)%nat in
  if lastModelRemoved then reset else ret tt.

Definition onDbLoaded : M unit := updateButton.

(** [applyLayout] after its [await]: the staleness check, then the
    registration of the layout and the start of the animation. *)
Definition applyLayout_resume (run : LayoutRun) (sceneLayout' : SceneLayout)
    : M unit :=
  active <~ gets layoutActive ;;
  current <~ gets layoutTimeStamp ;;
  if negb active || negb (run_layoutTimeStamp run =? current) then ret tt
  else
    assign (set_sceneLayout (Some sceneLayout')) ;;>
    assign (set_sceneAnimState
              (Some (createSceneState sceneLayout' (run_models run)))) ;;>
    assign (fun this =>
      set_animController
        (anim_registerState ClusteredStateName
           (createSceneState sceneLayout' (run_models run))
           (animController this)) this) ;;>
    onTransitionStarted ;;>
    assign (fun this =>
      set_animController
        (anim_animateTo (Some ClusteredStateName) (animController this)) this) ;;>
    assign (fun this =>
      set_gizmoController
        (gizmo_onLayoutChanged (sceneLayout this) (gizmoController this)) this).

(** [applyLayout] up to its [await].  The argument is not used by the
    body, which passes [this.chosenAttrib]. *)
Definition applyLayout (attributeName : option string) : M Launch :=
  models <~ gets (fun this => getVisibleModels (viewer this)) ;;
  assign (fun this =>
    set_layoutTimeStamp (Js.increment (layoutTimeStamp this)) this) ;;>
  layoutTimeStamp' <~ gets layoutTimeStamp ;;
  attrib <~ gets chosenAttrib ;;
  search <~ gets (fun this => opt_searchAncestors (options this)) ;;
  let run := {| run_models := models;
                run_layoutTimeStamp := layoutTimeStamp';
                run_attribName := attrib;
                run_searchAncestors := search |} in
  custom <~ gets customSceneLayout ;;
  match custom with
  | Some sceneLayout' =>
      completion <~ async (applyLayout_resume run sceneLayout') ;;
      ret (Finished run completion)
  | None => ret (Awaiting run)
  end.

Definition setLayoutActive (active : bool) (attributeName : option string)
    : M (option Launch) :=
  current <~ gets layoutActive ;;
  if Bool.eqb current active then ret None
  else
    assign (set_layoutActive active) ;;>
    updateButton ;;>
    if negb active then
      onTransitionStarted ;;>
      assign (fun this =>
        set_animController (anim_animateTo None (animController this)) this) ;;>
      assign (fun this =>
        set_gizmoController
          (gizmo_onLayoutChanged None (gizmoController this)) this) ;;>
      ret None
    else
      launch <~ applyLayout attributeName ;;
      ret (Some launch).

(** [prepareDropdown] starts [enumAllProperties] and returns; the leaf
    resolutions and the filling of the options come as later steps. *)
Definition prepareDropdown : M unit := ret tt.

Definition set_display (d : string) : M unit :=
  assign (fun this =>
    set_dropdown {| style_display := d;
                    dropdown_options := dropdown_options (dropdown this) |} this).

Definition onStartAnimateClick : M (option Launch) :=
  display <~ gets (fun this => style_display (dropdown this)) ;;
  if String.eqb display "none" then
    updateButton ;;>
    opts <~ gets (fun this => dropdown_options (dropdown this)) ;;
    (if (length opts =? 0)%nat then prepareDropdown else ret tt) ;;>
    set_display "block" ;;>
    active <~ gets layoutActive ;;
    setLayoutActive (negb active) None
  else
    updateButton ;;>
    set_display "none" ;;>
    active <~ gets layoutActive ;;
    setLayoutActive (negb active) None.

(** [onDestinationChange] up to its [await] of the 500 ms timer. *)
Definition onDestinationChange (value : string) : M (option Launch) :=
  assign (set_chosenAttrib value) ;;>
  active <~ gets layoutActive ;;
  setLayoutActive (negb active) None.

(** [onDestinationChange] after the timer. *)
Definition onDestinationChange_resume : M (option Launch) :=
  active <~ gets layoutActive ;;
  setLayoutActive (negb active) None.

(** [_destroyUI]; the toolbar the button is removed from is the host's. *)
Definition _destroyUI : M (option Launch) :=
  assign (set_clusterButton None) ;;>
  setLayoutActive false None.

(** [unload]; the listener registrations are the host's.  Without
    [skipDefaultListeners] it reads [this.clusterButton.removeEventListener],
    which throws when the button was never created. *)
Definition unload : M (option Launch) :=
  skip <~ gets (fun this => skipDefaultListeners (options this)) ;;
  button <~ gets clusterButton ;;
  (match skip, button with
   | false, None => throw (TypeError "this.clusterButton is undefined")
   | _, _ => ret tt
   end) ;;>
  assign (fun this => set_animController (anim_reset (animController this)) this) ;;>
  _destroyUI.

(** The [then] callback of [prepareDropdown]: one option per name. *)
Definition dropdown_fill (names : list string) : M unit :=
  assign (fun this =>
    set_dropdown {| style_display := style_display (dropdown this);
                    dropdown_options := dropdown_options (dropdown this) ++ names |}
                 this).

(** The settlement of a call [this.findActualLeafNodes(model)] that missed
    the cache when it was made: the slot is written on the extension as it
    is now. *)
Definition leafNodes_resolve (model : Model) : M unit :=
  assign (fun this =>
    set_base (snd (findActualLeafNodes_settle model true true (base this))) this).

(** [onToolbarCreated]: unless [skipDefaultButton] is set, [clusterButton]
    becomes the button that [new avu.Button] makes, here [button]; the
    toolbar and the listeners are the host's.  [updateButton] is not
    called. *)
Definition onToolbarCreated (button : Button) : M unit :=
  skip <~ gets (fun this => skipDefaultButton (options this)) ;;
  if skip then ret tt else assign (set_clusterButton (Some button)).

(** *** The extension as a transition system *)

(** What can happen to a loaded extension: calls of its public methods,
    events of the viewer and of the page, and settlements of what it
    awaits.  [On_destinationTimer] is the timer of [onDestinationChange]
    running out; the timer exists only after a change whose first half has
    returned, which [timersArmed] checks for a sequence. *)
Inductive Event : Type :=
| Call_setLayoutActive (active : bool) (attributeName : option string)
| Call_applyLayout (attributeName : option string)
| Call_reset
| Call_unload
| On_modelAdded (visible : list Model)
| On_modelRemoved (visible : list Model)
| On_dbLoaded
| On_animEnded
| On_toolbarCreated (button : Button)
| On_startAnimateClick
| On_destinationChange (value : string)
| On_destinationTimer
| On_dropdownNames (names : list string)
| On_leafNodesSettled (model : Model)
| Set_customSceneLayout (layout : option SceneLayout)
| On_layoutSettled (run : LayoutRun) (outcome : Promise SceneLayout).

Definition set_visibleModels (visible : list Model) : M unit :=
  assign (fun this =>
    set_viewer {| getVisibleModels := visible; fired := fired (viewer this) |} this).

Definition noLaunch (c : M unit) : M (option Launch) :=
  c ;;> ret None.

Definition handle (ev : Event) : M (option Launch) :=
  match ev with
  | Call_setLayoutActive active attributeName => setLayoutActive active attributeName
  | Call_applyLayout attributeName =>
      launch <~ applyLayout attributeName ;; ret (Some launch)
  | Call_reset => noLaunch reset
  | Call_unload => unload
  | On_modelAdded visible => noLaunch (set_visibleModels visible ;;> onModelAdded)
  | On_modelRemoved visible => noLaunch (set_visibleModels visible ;;> onModelRemoved)
  | On_dbLoaded => noLaunch onDbLoaded
  | On_animEnded => noLaunch onTransitionEnded
  | On_toolbarCreated button => noLaunch (onToolbarCreated button)
  | On_startAnimateClick => onStartAnimateClick
  | On_destinationChange value => onDestinationChange value
  | On_destinationTimer => onDestinationChange_resume
  | On_dropdownNames names => noLaunch (dropdown_fill names)
  | On_leafNodesSettled model => noLaunch (leafNodes_resolve model)
  | Set_customSceneLayout layout => noLaunch (assign (set_customSceneLayout layout))
  | On_layoutSettled run (Resolved sceneLayout') =>
      noLaunch (applyLayout_resume run sceneLayout')
  | On_layoutSettled run _ => ret None
  end.

(** One step: the state after the handler, whether it returned or threw,
    and the call of [applyLayout] it made, if any. *)
Definition step (ev : Event) (this : VisualClustersExtension)
    : VisualClustersExtension * option Launch :=
  match handle ev this with
  | (Ok launch, this') => (this', launch)
  | (Throw _, this') => (this', None)
  end.

Fixpoint runEvents (evs : list Event) (this : VisualClustersExtension)
    : VisualClustersExtension :=
  match evs with
  | [] => this
  | ev :: rest => runEvents rest (fst (step ev this))
  end.

(** The sequences in which every [On_destinationTimer] belongs to an
    earlier [On_destinationChange] whose first half returned: [pending]
    counts the timers that are running. *)
Fixpoint timersArmedFrom (pending : nat) (evs : list Event)
    (this : VisualClustersExtension) : bool :=
  match evs with
  | [] => true
  | ev :: rest =>
      let this' := fst (step ev this) in
      match ev with
      | On_destinationChange _ =>
          match fst (handle ev this) with
          | Ok _ => timersArmedFrom (S pending) rest this'
          | Throw _ => timersArmedFrom pending rest this'
          end
      | On_destinationTimer =>
          match pending with
          | O => false
          | S pending' => timersArmedFrom pending' rest this'
          end
      | _ => timersArmedFrom pending rest this'
      end
  end.

Definition timersArmed (evs : list Event) (this : VisualClustersExtension) : bool :=
  timersArmedFrom 0 evs this.

(** Some event of the sequence called [applyLayout]. *)
Fixpoint triggeredDuring (evs : list Event) (this : VisualClustersExtension) : bool :=
  match evs with
  | [] => false
  | ev :: rest =>
      match snd (step ev this) with
      | Some _ => true
      | None => triggeredDuring rest (fst (step ev this))
      end
  end.

(** [layoutActive] was false at the start of the sequence or after one of
    its events. *)
Fixpoint inactiveDuring (evs : list Event) (this : VisualClustersExtension) : bool :=
  negb (layoutActive this)
  || match evs with
     | [] => false
     | ev :: rest => inactiveDuring rest (fst (step ev this))
     end.

End ExtensionMethods.

(** ** Vocabulary of the statements *)

(** A fragment that is loaded and not hidden. *)
Definition fragmentVisible (fragList : FragmentList) (fragId : Z) : bool :=
  negb (isNotLoaded fragList fragId) && isFragVisible fragList fragId.

(** Every shape id held by the clusters of [o], cluster after cluster. *)
Definition allShapeIds (o : ClustersByName) : list ShapeId :=
  flat_map (fun entry => shapeIds (snd entry)) o.

(** The shape ids that one item of a query result adds to its cluster. *)
Definition itemShapes (model : Model) (searchAncestors : bool) (item : PropResult)
    : list ShapeId :=
  if searchAncestors then
    match getInstanceTree model with
    | Some tree =>
        map (createShapeId (model_id model))
            (filter
               (fun child =>
                  existsb (fragmentVisible (getFragmentList model))
                          (enumNodeFragments tree child))
               (enumNodeChildren tree (item_dbId item) true))
    | None => []
    end
  else [createShapeId (model_id model) (item_dbId item)].

(** The items the attribute query of one source hands to [onDone]. *)
Definition queryResult (attribName : string) (query : Model * list Js.value)
    : list PropResult :=
  match getBulkProperties2 (fst query) (snd query) [attribName] with
  | Answer result => result
  | Failure _ => []
  end.

(** The shape ids that the queries of a build add, source after source. *)
Definition queryShapes (attribName : string) (searchAncestors : bool)
    (queries : list (Model * list Js.value)) : list ShapeId :=
  flat_map
    (fun query =>
       flat_map (itemShapes (fst query) searchAncestors)
                (queryResult attribName query))
    queries.



(** The category [onDone] reads from an item: the display value of its
    first property, when it has one. *)
Definition categoryOf (item : PropResult) : option Js.value :=
  match item_properties item with
  | property0 :: _ => Some (displayValue property0)
  | [] => None
  end.

Section TriggerVocabulary.

Context `{C : Collaborators}.

(** A method that leaves [layoutActive] and [layoutTimeStamp] as they are,
    whether it returns or throws. *)
Definition keepsLayoutState {A} (c : M A) : Prop :=
  forall this,
    layoutActive (snd (c this)) = layoutActive this
    /\ layoutTimeStamp (snd (c this)) = layoutTimeStamp this.

(** A method that leaves the counter as it is and does not activate the
    layout. *)
Definition neverActivates {A} (c : M A) : Prop :=
  forall this,
    layoutTimeStamp (snd (c this)) = layoutTimeStamp this
    /\ (layoutActive (snd (c this)) = true -> layoutActive this = true).

(** The value of the counter that a call of [applyLayout] captured. *)
Definition launchStamp (launch : Launch) : Z :=
  match launch with
  | Awaiting run => run_layoutTimeStamp run
  | Finished run _ => run_layoutTimeStamp run
  end.

(** What a step does to the counter and to [layoutActive]: a step that
    calls [applyLayout] increments the counter and captures the new value;
    any other step leaves the counter and does not activate the layout. *)
Definition stepEffect (this : VisualClustersExtension) (launch : option Launch)
    (this' : VisualClustersExtension) : Prop :=
  match launch with
  | Some l =>
      layoutTimeStamp this' = Js.increment (layoutTimeStamp this)
      /\ launchStamp l = layoutTimeStamp this'
  | None =>
      layoutTimeStamp this' = layoutTimeStamp this
      /\ (layoutActive this' = true -> layoutActive this = true)
  end.

Definition launchOf (r : Res (option Launch)) : option Launch :=
  match r with
  | Ok launch => launch
  | Throw _ => None
  end.

Definition handlerEffect (c : M (option Launch)) : Prop :=
  forall this, stepEffect this (launchOf (fst (c this))) (snd (c this)).

End TriggerVocabulary.

(** ** Scenes and collaborators used in the examples *)

(** A host that answers property queries from a table: the records of the
    queried ids, in the order of the query. *)
Definition propsOf (table : list PropResult) (dbIds : list Js.value)
    : list PropResult :=
  flat_map
    (fun v =>
       match v with
       | Js.Num n => filter (fun r => item_dbId r =? n) table
       | _ => []
       end)
    dbIds.

(** The record of an element reduced to the properties named by the filter. *)
Definition restrictTo (propFilter : list string) (r : PropResult) : PropResult :=
  {| item_dbId := item_dbId r;
     item_name := item_name r;
     item_properties :=
       filter (fun p => existsb (String.eqb (displayName p)) propFilter)
              (item_properties r) |}.

Definition prop (n : string) (v : Js.value) : Property :=
  {| displayName := n; displayValue := v |}.

Definition allLoadedVisible : FragmentList :=
  {| isNotLoaded := fun _ => false; isFragVisible := fun _ => true |}.

(** A door assembly: root 1, assembly 42 under it, and under 42 the panel 43
    and the raw mesh 44.  The panel and the mesh carry one fragment each. *)
Definition assemblyTree : InstanceTree :=
  {| getRootId := 1;
     getChildCount := fun d => if d =? 1 then 1 else if d =? 42 then 2 else 0;
     enumNodeChildren := fun d recursive =>
       if d =? 1 then (if recursive then [1; 42; 43; 44] else [42])
       else if d =? 42 then (if recursive then [42; 43; 44] else [43; 44])
       else if (d =? 43) || (d =? 44) then (if recursive then [d] else [])
       else [];
     enumNodeFragments := fun d =>
       if d =? 43 then [100] else if d =? 44 then [101] else [] |}.

Definition assemblyTable : list PropResult :=
  [ {| item_dbId := 42; item_name := Some "Door";
       item_properties := [prop "parent" (Js.Num 1);
                           prop "Category" (Js.Str "Assemblies")] |};
    {| item_dbId := 43; item_name := Some "Panel";
       item_properties := [prop "parent" (Js.Num 42);
                           prop "Category" (Js.Str "Doors")] |};
    {| item_dbId := 44; item_name := Some "Mesh";
       item_properties := [prop "parent" (Js.Num 42)] |} ].

Definition assemblyScene : Model :=
  {| model_id := 1;
     is3d := true;
     getInstanceTree := Some assemblyTree;
     getFragmentList := allLoadedVisible;
     getPropertyDb := Some {| isLoadDone := true |};
     getObjectTree := Answer assemblyTree;
     getBulkProperties := fun dbIds => Answer (propsOf assemblyTable dbIds);
     getBulkProperties2 := fun dbIds propFilter =>
       Answer (map (restrictTo propFilter) (propsOf assemblyTable dbIds)) |}.

(** The same scene on a host whose attribute query fails. *)
Definition failingQueryScene : Model :=
  {| model_id := 1;
     is3d := true;
     getInstanceTree := Some assemblyTree;
     getFragmentList := allLoadedVisible;
     getPropertyDb := Some {| isLoadDone := true |};
     getObjectTree := Answer assemblyTree;
     getBulkProperties := fun dbIds => Answer (propsOf assemblyTable dbIds);
     getBulkProperties2 := fun _ _ => Failure (HostError "property worker failed") |}.

(** Two leaves under root 1: the wall 5 and the body 7, whose record has no
    "parent" property. *)
Definition orphanTree : InstanceTree :=
  {| getRootId := 1;
     getChildCount := fun d => if d =? 1 then 2 else 0;
     enumNodeChildren := fun d recursive =>
       if d =? 1 then (if recursive then [1; 5; 7] else [5; 7])
       else if (d =? 5) || (d =? 7) then (if recursive then [d] else [])
       else [];
     enumNodeFragments := fun d =>
       if d =? 5 then [200] else if d =? 7 then [201] else [] |}.

Definition orphanItem : PropResult :=
  {| item_dbId := 7; item_name := Some "Body"; item_properties := [] |}.

Definition orphanTable : list PropResult :=
  [ {| item_dbId := 5; item_name := Some "Wall";
       item_properties := [prop "parent" (Js.Num 1);
                           prop "Category" (Js.Str "Walls")] |};
    orphanItem ].

Definition orphanScene : Model :=
  {| model_id := 2;
     is3d := true;
     getInstanceTree := Some orphanTree;
     getFragmentList := allLoadedVisible;
     getPropertyDb := Some {| isLoadDone := true |};
     getObjectTree := Answer orphanTree;
     getBulkProperties := fun dbIds => Answer (propsOf orphanTable dbIds);
     getBulkProperties2 := fun dbIds propFilter =>
       Answer (map (restrictTo propFilter) (propsOf orphanTable dbIds)) |}.

(** One wall 5 under root 1, with its category, and the beam 6, which has
    no "Category" property. *)
Definition beamTree : InstanceTree :=
  {| getRootId := 1;
     getChildCount := fun d => if d =? 1 then 2 else 0;
     enumNodeChildren := fun d recursive =>
       if d =? 1 then (if recursive then [1; 5; 6] else [5; 6])
       else if (d =? 5) || (d =? 6) then (if recursive then [d] else [])
       else [];
     enumNodeFragments := fun d =>
       if d =? 5 then [300] else if d =? 6 then [301] else [] |}.

Definition beamTable : list PropResult :=
  [ {| item_dbId := 5; item_name := Some "Wall";
       item_properties := [prop "parent" (Js.Num 1);
                           prop "Category" (Js.Str "Walls")] |};
    {| item_dbId := 6; item_name := Some "Beam";
       item_properties := [prop "parent" (Js.Num 1)] |} ].

Definition beamScene : Model :=
  {| model_id := 3;
     is3d := true;
     getInstanceTree := Some beamTree;
     getFragmentList := allLoadedVisible;
     getPropertyDb := Some {| isLoadDone := true |};
     getObjectTree := Answer beamTree;
     getBulkProperties := fun dbIds => Answer (propsOf beamTable dbIds);
     getBulkProperties2 := fun dbIds propFilter =>
       Answer (map (restrictTo propFilter) (propsOf beamTable dbIds)) |}.

(** The beam scene on a host that leaves out of a query result the elements
    that have none of the requested properties. *)
Definition beamSceneSkipping : Model :=
  {| model_id := 3;
     is3d := true;
     getInstanceTree := Some beamTree;
     getFragmentList := allLoadedVisible;
     getPropertyDb := Some {| isLoadDone := true |};
     getObjectTree := Answer beamTree;
     getBulkProperties := fun dbIds => Answer (propsOf beamTable dbIds);
     getBulkProperties2 := fun dbIds propFilter =>
       Answer (filter (fun r => negb (length (item_properties r) =? 0)%nat)
                      (map (restrictTo propFilter) (propsOf beamTable dbIds))) |}.

(** A sheet: not 3D and without instance tree. *)
Definition sheetScene : Model :=
  {| model_id := 9;
     is3d := false;
     getInstanceTree := None;
     getFragmentList := allLoadedVisible;
     getPropertyDb := None;
     getObjectTree := Failure (HostError "no object tree");
     getBulkProperties := fun _ => Failure (HostError "no property database");
     getBulkProperties2 := fun _ _ => Failure (HostError "no property database") |}.

(** Collaborators that record what they are asked: a layout is the list of
    clusters it was built from, the animation controller is its registry
    and its current target, the gizmo controller is the last layout it was
    told about. *)
Record RecordingAnim : Type := {
  rec_states : list (string * SceneAnimState ShapeId);
  rec_target : option string
}.

Fixpoint rec_lookup (states : list (string * SceneAnimState ShapeId)) (key : string)
    : option (SceneAnimState ShapeId) :=
  match states with
  | [] => None
  | (k, s) :: rest => if String.eqb k key then Some s else rec_lookup rest key
  end.

#[local] Instance recording : Collaborators :=
  {| SceneLayout := list Cluster;
     ObjectAnimState := ShapeId;
     RotationAlignment := list Z;
     ShapeBoxes := list Z;
     AnimController := RecordingAnim;
     ClusterGizmoController := option (list Cluster);
     newRotationAlignment := fun models => map model_id models;
     newShapeBoxes := fun models _ => map model_id models;
     createClusterSetLayout := fun clusters _ _ => clusters;
     createSceneState := fun layout _ =>
       {| scene_animStates :=
            [Some {| model_animStates := flat_map shapeIds layout |}] |};
     anim_states := fun ac key => rec_lookup (rec_states ac) key;
     anim_registerState := fun key s ac =>
       {| rec_states := (key, s) :: rec_states ac; rec_target := rec_target ac |};
     anim_animateTo := fun target ac =>
       {| rec_states := rec_states ac; rec_target := target |};
     anim_reset := fun ac => {| rec_states := rec_states ac; rec_target := None |};
     gizmo_onLayoutChanged := fun layout _ => layout;
     gizmo_reset := fun _ => None |}.

(** A freshly constructed extension on a viewer that shows the assembly. *)
Definition freshExtension : VisualClustersExtension :=
  VisualClustersExtension_new
    {| getVisibleModels := [assemblyScene]; fired := [] |}
    {| skipDefaultListeners := false; skipDefaultButton := false;
       opt_searchAncestors := None |}
    {| rec_states := []; rec_target := None |}
    None.

(** The extension in the middle of a first click on the toolbar button:
    [setLayoutActive(true)] has set the flag and is about to call
    [applyLayout]. *)
Definition clickedExtension : VisualClustersExtension :=
  set_layoutActive true freshExtension.

(** The run that this call of [applyLayout] starts, and the extension while
    the run awaits its default layout. *)
Definition firstRun : LayoutRun :=
  {| run_models := [assemblyScene]; run_layoutTimeStamp := 1;
     run_attribName := ""; run_searchAncestors := None |}.

Definition awaitingExtension : VisualClustersExtension :=
  set_layoutTimeStamp 1 clickedExtension.

(** The user picks an attribute in the dropdown: the layout is switched off
    and, after the timer, on again. *)
Definition attributeChosen : list Event :=
  [On_destinationChange "Category"; On_destinationTimer].

(** ** BaseExtension.js: the names of the properties *)

(** [propNames.add(name)]: a [Set] of strings keeps the first insertion. *)
Definition names_add (propNames : list string) (name' : string) : list string :=
  if existsb (String.eqb name') propNames then propNames else propNames ++ [name'].

(** [for (const prop of result.properties) propNames.add(prop.displayName)] *)
Fixpoint addProperties (properties : list Property) (propNames : list string)
    : list string :=
  match properties with
  | [] => propNames
  | property :: rest => addProperties rest (names_add propNames (displayName property))
  end.

(** [for (const result of results) ...] *)
Fixpoint addResults (results : list PropResult) (propNames : list string)
    : list string :=
  match results with
  | [] => propNames
  | result :: rest => addResults rest (addProperties (item_properties result) propNames)
  end.


(** ** VisualClusters.js: the names offered in the dropdown *)

(** The loop of [enumAllProperties], from the set collected so far.
    [is3D model] is the truthiness of the property [model.is3D], which the
    loop reads to skip a model.  Leaf resolution that is rejected is caught
    and logged, and the loop goes on; the property query has no error
    callback, so a query that fails leaves the loop suspended for ever. *)
Fixpoint enumAllProperties_from (is3D : Model -> bool) (models : list Model)
    (propertyDisplayNames : list string) (this : BaseExtension)
    : Promise (list string) * BaseExtension :=
  match models with
  | [] => (Resolved propertyDisplayNames, this)
  | model :: rest =>
      if is3D model then
        enumAllProperties_from is3D rest propertyDisplayNames this
      else
        match findActualLeafNodes model true true this with
        | (Resolved dbIds, this') =>
            match getBulkProperties model dbIds with
            | Answer results =>
                enumAllProperties_from is3D rest
                  (addResults results propertyDisplayNames) this'
            | Failure _ => (Pending, this')
            end
        | (Rejected _, this') =>
            enumAllProperties_from is3D rest propertyDisplayNames this'
        | (Pending, this') => (Pending, this')
        end
  end.

Definition enumAllProperties (is3D : Model -> bool) (models : list Model)
    (this : BaseExtension) : Promise (list string) * BaseExtension :=
  enumAllProperties_from is3D models [] this.

(** ** More vocabulary *)

(** The display names of all the properties of a query result. *)
Definition displayNamesOf (results : list PropResult) : list string :=
  flat_map (fun result => map displayName (item_properties result)) results.

(** A record is a geometry primitive for [findActualLeafNodes]. *)
Definition isGeometry (this : BaseExtension) (item : PropResult) : bool :=
  hasGeometryProperty this item || hasGeometryName this item.

(** The first property called "parent" of a record. *)
Definition parentProperty (item : PropResult) : option Property :=
  find (fun subProp => String.eqb (displayName subProp) "parent")
       (item_properties item).

(** The keys of a clusters object with the names of their clusters. *)
Definition keyNames (o : ClustersByName) : list (string * Js.value) :=
  map (fun entry => (fst entry, name (snd entry))) o.

(** The keys of the clusters object are distinct, each is the property key
    of the name of its cluster, and none is a property of
    [Object.prototype]. *)
Definition keysWellFormed (o : ClustersByName) : Prop :=
  NoDup (map fst (keyNames o))
  /\ Forall (fun kn => fst kn = Js.toPropertyKey (snd kn)
                       /\ ~ In (fst kn) objectPrototypeKeys)
            (keyNames o).

(** The display value is not a number, or a number whose property key is
    its decimal form. *)
Definition exactKey (v : Js.value) : bool :=
  match v with
  | Js.Num n => Js.exactInteger n
  | _ => true
  end.

(** Every category that the attribute queries of a build return has an
    exact key. *)
Definition categoriesExact (attribName : string)
    (queries : list (Model * list Js.value)) : bool :=
  forallb
    (fun query =>
       forallb (fun item =>
                  match categoryOf item with
                  | Some category => exactKey category
                  | None => true
                  end)
               (queryResult attribName query))
    queries.

Section MoreTriggerVocabulary.

Context `{C : Collaborators}.

(** A method that leaves the field (or any function of the state) [f]. *)
Definition keepsField {A B} (f : VisualClustersExtension -> B) (c : M A) : Prop :=
  forall this, f (snd (c this)) = f this.

(** The run of a call of [applyLayout]. *)
Definition launchRun (launch : Launch) : LayoutRun :=
  match launch with
  | Awaiting run => run
  | Finished run _ => run
  end.

(** The number of calls of [applyLayout] made by a sequence of events. *)
Fixpoint countTriggers (evs : list Event) (this : VisualClustersExtension) : nat :=
  match evs with
  | [] => O
  | ev :: rest =>
      (match snd (step ev this) with
       | Some _ => 1
       | None => 0
       end + countTriggers rest (fst (step ev this)))%nat
  end.

(** What the handlers read and the layout methods never write: the
    dropdown, the chosen attribute, the options, the custom layout and the
    visible models. *)
Definition uiInputs (this : VisualClustersExtension)
    : Dropdown * string * Options * option SceneLayout * list Model :=
  (dropdown this, chosenAttrib this, options this, customSceneLayout this,
   getVisibleModels (viewer this)).

(** The run that a call of [applyLayout] on [this] starts. *)
Definition runOf (this : VisualClustersExtension) : LayoutRun :=
  {| run_models := getVisibleModels (viewer this);
     run_layoutTimeStamp := Js.increment (layoutTimeStamp this);
     run_attribName := chosenAttrib this;
     run_searchAncestors := opt_searchAncestors (options this) |}.

(** A method that keeps the property [P] of the extension, whether it
    returns or throws. *)
Definition preserves {A} (P : VisualClustersExtension -> Prop) (c : M A) : Prop :=
  forall this, P this -> P (snd (c this)).

(** A method after which [P] holds, whether it returns or throws. *)
Definition establishes {A} (P : VisualClustersExtension -> Prop) (c : M A) : Prop :=
  forall this, P (snd (c this)).

(** The toolbar button agrees with [layoutActive]: a button that is shown
    is disabled, or pressed exactly when the layout is active. *)
Definition buttonShows (this : VisualClustersExtension) : bool :=
  match clusterButton this with
  | None => true
  | Some button =>
      negb (button_visible button)
      || match button_state button with
         | Some DISABLED => true
         | Some ACTIVE => layoutActive this
         | Some INACTIVE => negb (layoutActive this)
         | None => false
         end
  end.

Definition buttonOk (this : VisualClustersExtension) : Prop :=
  buttonShows this = true.

(** The extension has no toolbar button. *)
Definition noButton (this : VisualClustersExtension) : Prop :=
  clusterButton this = None.

(** The event is the creation of the toolbar. *)
Definition isToolbarCreated (ev : Event) : bool :=
  match ev with
  | On_toolbarCreated _ => true
  | _ => false
  end.

End MoreTriggerVocabulary.

(** A scene without any element: the object tree has a root that is not
    enumerated, and the property database does not answer. *)
Definition emptyTree : InstanceTree :=
  {| getRootId := 1;
     getChildCount := fun _ => 0;
     enumNodeChildren := fun _ _ => [];
     enumNodeFragments := fun _ => [] |}.

Definition emptyScene : Model :=
  {| model_id := 4;
     is3d := true;
     getInstanceTree := Some emptyTree;
     getFragmentList := allLoadedVisible;
     getPropertyDb := Some {| isLoadDone := true |};
     getObjectTree := Answer emptyTree;
     getBulkProperties := fun _ => Failure (HostError "no property database");
     getBulkProperties2 := fun _ _ => Failure (HostError "no property database") |}.


(** The orphan scene with a wall whose category is called "constructor". *)
Definition constructorTable : list PropResult :=
  [ {| item_dbId := 5; item_name := Some "Wall";
       item_properties := [prop "parent" (Js.Num 1);
                           prop "Category" (Js.Str "constructor")] |} ].

Definition constructorScene : Model :=
  {| model_id := 5;
     is3d := true;
     getInstanceTree := Some orphanTree;
     getFragmentList := allLoadedVisible;
     getPropertyDb := Some {| isLoadDone := true |};
     getObjectTree := Answer orphanTree;
     getBulkProperties := fun dbIds => Answer (propsOf constructorTable dbIds);
     getBulkProperties2 := fun dbIds propFilter =>
       Answer (map (restrictTo propFilter) (propsOf constructorTable dbIds)) |}.

(** The extension after [onToolbarCreated]: the button is there, as the
    toolkit made it. *)
Definition toolbarExtension : VisualClustersExtension :=
  set_clusterButton
    (Some {| button_visible := true; button_toolTip := "";
             button_state := Some INACTIVE |})
    freshExtension.

(** * Properties *)

Unset Implicit Arguments.

(** ** Visible fragments *)

Lemma enumNodeFragments_callback_existsb (fragList : FragmentList)
    (frags : list Z) (allHidden : bool) :
  enumNodeFragments_callback fragList frags allHidden
  = if existsb (fragmentVisible fragList) frags then false else allHidden.
Proof.
  induction frags as [|fragId rest IH]; simpl; [reflexivity|].
  unfold fragmentVisible at 1.
  destruct (isNotLoaded fragList fragId), (isFragVisible fragList fragId);
    simpl; auto.
Qed.

(** Whether the host honours the [true] returned by the callback or not,
    the flag ends the same. *)
Lemma enumNodeFragments_noStop_same (fragList : FragmentList)
    (frags : list Z) (allHidden : bool) :
  enumNodeFragments_noStop fragList frags allHidden
  = enumNodeFragments_callback fragList frags allHidden.
Proof.
  revert allHidden.
  induction frags as [|fragId rest IH]; intros allHidden; simpl; [reflexivity|].
  rewrite IH, !enumNodeFragments_callback_existsb.
  destruct (negb (isNotLoaded fragList fragId)
            && negb (negb (isFragVisible fragList fragId))); [|reflexivity].
  now destruct (existsb _ rest).
Qed.

Lemma hasVisibleFragments_existsb (model : Model) (it : InstanceTree) (d : Z) :
  getInstanceTree model = Some it ->
  hasVisibleFragments model d
  = Ok (existsb (fragmentVisible (getFragmentList model)) (enumNodeFragments it d)).
Proof.
  intros Hit. unfold hasVisibleFragments. rewrite Hit.
  rewrite enumNodeFragments_callback_existsb.
  now destruct (existsb _ _).
Qed.

(** ** The set of a list of ids *)

Lemma sameValueZero_true (a b : Js.value) :
  Js.sameValueZero a b = true <-> a = b.
Proof.
  unfold Js.sameValueZero. destruct (Js.value_eq_dec a b); split; congruence.
Qed.

Lemma existsb_sameValueZero (x : Js.value) (l : list Js.value) :
  existsb (Js.sameValueZero x) l = true <-> In x l.
Proof.
  rewrite existsb_exists. split.
  - intros (y & Hy & E). apply sameValueZero_true in E. now subst.
  - intros H. exists x. split; [assumption|]. now apply sameValueZero_true.
Qed.

Lemma setAddAll_In (a members : list Js.value) (x : Js.value) :
  In x (setAddAll members a) <-> In x members \/ In x a.
Proof.
  revert members.
  induction a as [|y rest IH]; intros members; simpl; [tauto|].
  rewrite IH.
  destruct (existsb (Js.sameValueZero y) members) eqn:E.
  - apply existsb_sameValueZero in E.
    split; [tauto|]. intros [H|[H|H]]; subst; auto.
  - rewrite in_app_iff. simpl. tauto.
Qed.

Lemma setAddAll_NoDup (a members : list Js.value) :
  NoDup members -> NoDup (setAddAll members a).
Proof.
  revert members.
  induction a as [|y rest IH]; intros members Hnd; simpl; [assumption|].
  apply IH.
  destruct (existsb (Js.sameValueZero y) members) eqn:E; [assumption|].
  apply NoDup_app; [assumption | repeat constructor; auto | ].
  intros x Hx [Hy|[]]. subst x.
  assert (existsb (Js.sameValueZero y) members = true)
    by now apply existsb_sameValueZero.
  congruence.
Qed.

Lemma uniq_In (a : list Js.value) (x : Js.value) : In x (uniq a) <-> In x a.
Proof. unfold uniq. rewrite setAddAll_In. simpl. tauto. Qed.

Lemma uniq_NoDup (a : list Js.value) : NoDup (uniq a).
Proof. apply setAddAll_NoDup. constructor. Qed.

(** ** The clusters object *)

Lemma ownProperty_app_new (o : ClustersByName) (key : string) (c : Cluster) :
  ownProperty o key = None -> ownProperty (o ++ [(key, c)]) key = Some c.
Proof.
  induction o as [|[k c'] rest IH]; simpl; intros H.
  - now rewrite String.eqb_refl.
  - destruct (String.eqb k key); [discriminate | auto].
Qed.

Lemma shapeIds_push_own (o : ClustersByName) (key : string) (shapeId : ShapeId) :
  ownProperty o key <> None ->
  ownProperty (shapeIds_push o key shapeId) key <> None.
Proof.
  induction o as [|[k c] rest IH]; simpl; intros H; [assumption|].
  destruct (String.eqb k key) eqn:E; simpl; rewrite E; [discriminate | auto].
Qed.

Lemma shapeIds_push_perm (o : ClustersByName) (key : string) (shapeId : ShapeId) :
  ownProperty o key <> None ->
  Permutation (allShapeIds (shapeIds_push o key shapeId))
              (allShapeIds o ++ [shapeId]).
Proof.
  unfold allShapeIds.
  induction o as [|[k c] rest IH]; simpl; intros H; [congruence|].
  destruct (String.eqb k key) eqn:E; simpl.
  - rewrite <- !app_assoc. apply Permutation_app_head, Permutation_app_comm.
  - rewrite <- app_assoc. apply Permutation_app_head. auto.
Qed.

Lemma getProperty_own (o : ClustersByName) (key : string) (category : Js.value) :
  match getProperty o key with
  | OwnCluster _ => ownProperty o key <> None
  | Inherited => True
  | NoProperty => ownProperty (o ++ [(key, newCluster category)]) key <> None
  end.
Proof.
  unfold getProperty.
  destruct (ownProperty o key) eqn:E; [discriminate|].
  destruct (existsb _ _); [exact I|].
  rewrite (ownProperty_app_new _ _ _ E). discriminate.
Qed.

Lemma enumNodeChildren_callback_perm (model : Model) (tree : InstanceTree)
    (key : string) (own : bool) (children : list Z) (o o' : ClustersByName) :
  getInstanceTree model = Some tree ->
  (own = true -> ownProperty o key <> None) ->
  enumNodeChildren_callback model children key own o = Ok o' ->
  Permutation
    (allShapeIds o')
    (allShapeIds o
     ++ map (createShapeId (model_id model))
          (filter (fun child =>
                     existsb (fragmentVisible (getFragmentList model))
                             (enumNodeFragments tree child))
                  children)).
Proof.
  intros Htree. revert o.
  induction children as [|child rest IH]; intros o Hown H; simpl in *.
  - injection H as <-. now rewrite app_nil_r.
  - rewrite (hasVisibleFragments_existsb _ _ child Htree) in H. simpl in H.
    destruct (existsb _ (enumNodeFragments tree child)); simpl in *.
    + unfold cluster_push in H. destruct own; simpl in H; [|discriminate].
      specialize (Hown eq_refl).
      apply IH in H; [| intros _; now apply shapeIds_push_own].
      rewrite H. rewrite (shapeIds_push_perm _ _ _ Hown).
      rewrite <- app_assoc. reflexivity.
    + now apply IH.
Qed.

Lemma onDone_item_perm (model : Model) (searchAncestors : bool)
    (item : PropResult) (o o' : ClustersByName) :
  onDone_item model searchAncestors item o = Ok o' ->
  Permutation (allShapeIds o')
              (allShapeIds o ++ itemShapes model searchAncestors item).
Proof.
  unfold onDone_item, itemShapes.
  destruct (item_properties item) as [|property0 rest]; [discriminate|].
  pose proof (getProperty_own o (Js.toPropertyKey (displayValue property0))
                (displayValue property0)) as Hown.
  assert (Hnew : forall k c, allShapeIds (o ++ [(k, newCluster c)]) = allShapeIds o).
  { intros k c. unfold allShapeIds. rewrite flat_map_app. simpl.
    now rewrite !app_nil_r. }
  destruct (getProperty o _); destruct searchAncestors;
    try (destruct (getInstanceTree model) as [tree|] eqn:Htree; [|discriminate]);
    intros H.
  - eapply enumNodeChildren_callback_perm; eauto.
  - unfold cluster_push in H. injection H as <-. now apply shapeIds_push_perm.
  - eapply enumNodeChildren_callback_perm; eauto. discriminate.
  - discriminate.
  - rewrite <- (Hnew (Js.toPropertyKey (displayValue property0))
                     (displayValue property0)).
    eapply enumNodeChildren_callback_perm; eauto.
  - unfold cluster_push in H. injection H as <-.
    rewrite (shapeIds_push_perm _ _ _ Hown). now rewrite Hnew.
Qed.

Lemma onDone_perm (model : Model) (searchAncestors : bool)
    (result : list PropResult) (o o' : ClustersByName) :
  onDone model searchAncestors result o = Ok o' ->
  Permutation (allShapeIds o')
              (allShapeIds o ++ flat_map (itemShapes model searchAncestors) result).
Proof.
  revert o.
  induction result as [|item rest IH]; intros o H; simpl in *.
  - injection H as <-. now rewrite app_nil_r.
  - destruct (onDone_item model searchAncestors item o) as [o1|] eqn:E;
      simpl in H; [|discriminate].
    rewrite (IH _ H), (onDone_item_perm _ _ _ _ _ E).
    now rewrite <- app_assoc.
Qed.

Lemma settleQueries_perm (attribName : string) (searchAncestors : bool)
    (queries : list (Model * list Js.value)) (o o' : ClustersByName) :
  settleQueries attribName searchAncestors queries o = Some o' ->
  Permutation (allShapeIds o')
              (allShapeIds o ++ queryShapes attribName searchAncestors queries).
Proof.
  revert o.
  induction queries as [|[model dbIds] rest IH]; intros o H; simpl in *.
  - injection H as <-. unfold queryShapes. simpl. now rewrite app_nil_r.
  - unfold queryShapes, queryResult. simpl.
    destruct (getBulkProperties2 model dbIds [attribName]) as [result|];
      [|discriminate].
    destruct (onDone model searchAncestors result o) as [o1|] eqn:E;
      [|discriminate].
    rewrite (IH _ H), (onDone_perm _ _ _ _ _ E).
    now rewrite <- app_assoc.
Qed.

Lemma settleQueries_answered (attribName : string) (searchAncestors : bool)
    (queries : list (Model * list Js.value)) (o o' : ClustersByName) :
  settleQueries attribName searchAncestors queries o = Some o' ->
  forall model dbIds,
    In (model, dbIds) queries ->
    exists result,
      getBulkProperties2 model dbIds [attribName] = Answer result
      /\ Forall (fun item => item_properties item <> []) result.
Proof.
  revert o.
  induction queries as [|[model dbIds] rest IH]; intros o H m ids Hin;
    simpl in *; [contradiction|].
  destruct (getBulkProperties2 model dbIds [attribName]) as [result|] eqn:Eq;
    [|discriminate].
  destruct (onDone model searchAncestors result o) as [o1|] eqn:E;
    [|discriminate].
  destruct Hin as [Hin|Hin]; [|eauto].
  injection Hin as <- <-. exists result. split; [assumption|].
  clear - E. revert o E.
  induction result as [|item more IHr]; intros o E; constructor; simpl in E.
  - unfold onDone_item in E. destruct (item_properties item); [discriminate|].
    discriminate.
  - destruct (onDone_item model searchAncestors item o) as [o2|];
      [eauto | discriminate].
Qed.

(** The callbacks of the sources may come in any order: the shape ids that
    end in the clusters are the same. *)
Lemma settleQueries_any_order (attribName : string) (searchAncestors : bool)
    (queries queries' : list (Model * list Js.value)) (o o' : ClustersByName) :
  Permutation queries queries' ->
  settleQueries attribName searchAncestors queries [] = Some o ->
  settleQueries attribName searchAncestors queries' [] = Some o' ->
  Permutation (allShapeIds o) (allShapeIds o').
Proof.
  intros Hp H H'.
  rewrite (settleQueries_perm _ _ _ _ _ H), (settleQueries_perm _ _ _ _ _ H').
  simpl. unfold queryShapes. now apply Permutation_flat_map.
Qed.

(** [Object.values] lists every own cluster once. *)
Lemma insertByIndex_perm (e : Z * Cluster) (sorted : list (Z * Cluster)) :
  Permutation (insertByIndex e sorted) (e :: sorted).
Proof.
  induction sorted as [|h rest IH]; simpl; [reflexivity|].
  destruct (fst e <? fst h); [reflexivity|].
  rewrite IH. apply perm_swap.
Qed.

Lemma Object_values_perm (o : ClustersByName) :
  Permutation (Object_values o) (map snd o).
Proof.
  unfold Object_values.
  induction o as [|[k c] rest IH]; simpl; [reflexivity|].
  unfold isStringKey at 1. simpl.
  destruct (arrayIndex k) as [n|]; simpl.
  - rewrite (Permutation_map snd (insertByIndex_perm (n, c) _)). simpl.
    now apply perm_skip.
  - rewrite <- Permutation_middle. now apply perm_skip.
Qed.

Lemma Object_values_shapeIds (o : ClustersByName) :
  Permutation (flat_map shapeIds (Object_values o)) (allShapeIds o).
Proof.
  rewrite (Permutation_flat_map shapeIds (Object_values_perm o)).
  unfold allShapeIds. rewrite flat_map_concat_map, map_map.
  now rewrite <- flat_map_concat_map.
Qed.

(** ** What a build that completes has done *)

Lemma awaitLeafNodes_models (models : list Model) (context context' : BaseExtension)
    (queries : list (Model * list Js.value)) :
  awaitLeafNodes models context = (Resolved queries, context') ->
  map fst queries = models.
Proof.
  revert context queries.
  induction models as [|model rest IH]; intros context queries H; simpl in H.
  - now injection H as <- <-.
  - destruct (findActualLeafNodes model true true context) as [[dbIds|e|] c1];
      try discriminate.
    destruct (awaitLeafNodes rest c1) as [[qs|e|] c2] eqn:E; try discriminate.
    injection H as <- <-. simpl. f_equal. eauto.
Qed.

Lemma buildClusters_resolved (models : list Model) (attribName : option string)
    (searchAncestors : option bool) (context context' : BaseExtension)
    (clusters : list Cluster) :
  buildClustersFromAttribute models attribName searchAncestors context
  = (Resolved clusters, context') ->
  exists queries o,
    awaitLeafNodes models context = (Resolved queries, context')
    /\ settleQueries (defaultTo "Category" attribName)
         (defaultTo true searchAncestors) queries [] = Some o
    /\ clusters = Object_values o
    /\ Permutation (flat_map shapeIds clusters)
         (queryShapes (defaultTo "Category" attribName)
            (defaultTo true searchAncestors) queries).
Proof.
  unfold buildClustersFromAttribute.
  destruct (awaitLeafNodes models context) as [[queries|e|] c1]; try discriminate.
  destruct (settleQueries _ _ queries []) as [o|] eqn:E; [|discriminate].
  intros H. injection H as <- <-.
  exists queries, o. repeat split; try assumption.
  rewrite Object_values_shapeIds.
  now rewrite (settleQueries_perm _ _ _ _ _ E).
Qed.

Lemma queryShapes_In (attribName : string) (searchAncestors : bool)
    (queries : list (Model * list Js.value)) (shapeId : ShapeId) :
  In shapeId (queryShapes attribName searchAncestors queries) <->
  exists model dbIds item,
    In (model, dbIds) queries
    /\ In item (queryResult attribName (model, dbIds))
    /\ In shapeId (itemShapes model searchAncestors item).
Proof.
  unfold queryShapes. rewrite in_flat_map. split.
  - intros ([model dbIds] & Hq & H). apply in_flat_map in H.
    destruct H as (item & Hitem & H). now exists model, dbIds, item.
  - intros (model & dbIds & item & Hq & Hitem & H).
    exists (model, dbIds). split; [assumption|].
    apply in_flat_map. now exists item.
Qed.

Lemma In_map_fst {A B} (l : list (A * B)) (a : A) (b : B) :
  In (a, b) l -> In a (map fst l).
Proof. intros H. now apply (in_map fst) in H. Qed.

Lemma NoDup_map_same {A B} (f : A -> B) (l : list A) (a b : A) :
  NoDup (map f l) -> In a l -> In b l -> f a = f b -> a = b.
Proof.
  induction l as [|x rest IH]; simpl; intros Hnd Ha Hb E; [contradiction|].
  inversion Hnd as [|? ? Hnotin Hnd']; subst.
  destruct Ha as [->|Ha], Hb as [->|Hb]; auto.
  - exfalso. apply Hnotin. rewrite E. now apply in_map.
  - exfalso. apply Hnotin. rewrite <- E. now apply in_map.
Qed.

(** Under descendant expansion every member of a cluster is an element
    with a visible fragment, in the model whose id it carries. *)
Lemma expanded_members_visible (models : list Model) (attribName : option string)
    (searchAncestors : option bool) (context context' : BaseExtension)
    (clusters : list Cluster) (c : Cluster) (shapeId : ShapeId) :
  defaultTo true searchAncestors = true ->
  buildClustersFromAttribute models attribName searchAncestors context
  = (Resolved clusters, context') ->
  In c clusters -> In shapeId (shapeIds c) ->
  exists model,
    In model models
    /\ model_id model = modelId shapeId
    /\ hasVisibleFragments model (dbId shapeId) = Ok true.
Proof.
  intros Hsa Hbuild Hc Hs.
  destruct (buildClusters_resolved _ _ _ _ _ _ Hbuild)
    as (queries & o & Hq & _ & _ & Hperm).
  rewrite Hsa in Hperm.
  assert (Hin : In shapeId (flat_map shapeIds clusters))
    by (apply in_flat_map; eauto).
  apply (Permutation_in _ Hperm), queryShapes_In in Hin.
  destruct Hin as (model & dbIds & item & Hquery & _ & Hshape).
  exists model. split.
  - rewrite <- (awaitLeafNodes_models _ _ _ _ Hq). eapply In_map_fst; eauto.
  - unfold itemShapes in Hshape.
    destruct (getInstanceTree model) as [tree|] eqn:Htree; [|contradiction].
    apply in_map_iff in Hshape. destruct Hshape as (child & <- & Hchild).
    apply filter_In in Hchild. destruct Hchild as [_ Hvis]. simpl.
    split; [reflexivity|].
    now rewrite (hasVisibleFragments_existsb _ _ child Htree), Hvis.
Qed.

(** C9, as the code has it. For a model with an instance tree,
    [hasVisibleFragments] returns a boolean, and it returns [true] exactly
    when some fragment of the element is loaded and not hidden; an element
    for which it returns [false] (no fragment, or only skipped or hidden
    ones) is a member of no cluster of a build that expands to
    descendants. *)
Theorem hasVisibleFragments_iff_visible_fragment :
  forall (model : Model) (it : InstanceTree) (d : Z),
    getInstanceTree model = Some it ->
    (exists b, hasVisibleFragments model d = Ok b)
    /\ (hasVisibleFragments model d = Ok true <->
        exists fragId,
          In fragId (enumNodeFragments it d)
          /\ isNotLoaded (getFragmentList model) fragId = false
          /\ isFragVisible (getFragmentList model) fragId = true)
    /\ (enumNodeFragments it d = [] -> hasVisibleFragments model d = Ok false)
    /\ (forall models attribName searchAncestors context clusters context',
          In model models ->
          NoDup (map model_id models) ->
          defaultTo true searchAncestors = true ->
          buildClustersFromAttribute models attribName searchAncestors context
          = (Resolved clusters, context') ->
          hasVisibleFragments model d = Ok false ->
          forall c, In c clusters ->
                    ~ In (createShapeId (model_id model) d) (shapeIds c)).
Proof.
  intros model it d Hit.
  rewrite (hasVisibleFragments_existsb _ _ d Hit).
  split; [eauto|]. split; [|split].
  - split.
    + intros H. injection H as H. apply existsb_exists in H.
      destruct H as (fragId & Hin & Hvis). exists fragId.
      unfold fragmentVisible in Hvis. apply andb_true_iff in Hvis.
      destruct Hvis as [Hl Hv]. apply negb_true_iff in Hl. auto.
    + intros (fragId & Hin & Hl & Hv). f_equal. apply existsb_exists.
      exists fragId. split; [assumption|].
      unfold fragmentVisible. now rewrite Hl, Hv.
  - intros ->. reflexivity.
  - intros models attribName searchAncestors context clusters context'
      Hmodel Hnd Hsa Hbuild Hfalse c Hc Hs.
    destruct (expanded_members_visible _ _ _ _ _ _ _ _ Hsa Hbuild Hc Hs)
      as (model' & Hin' & Hid & Hvis). simpl in Hid, Hvis.
    assert (model' = model) by (eapply NoDup_map_same; eauto).
    subst model'.
    rewrite (hasVisibleFragments_existsb _ _ d Hit) in Hvis. congruence.
Qed.

Lemma hasVisibleFragments_iff_visible_fragment_witness :
  hasVisibleFragments assemblyScene 42 = Ok false
  /\ ~ In (createShapeId 1 42) [createShapeId 1 43; createShapeId 1 44].
Proof.
  split; [reflexivity|].
  exact (proj2 (proj2 (proj2
    (hasVisibleFragments_iff_visible_fragment assemblyScene assemblyTree 42
       eq_refl)))
    [assemblyScene] (Some "Category") None BaseExtension_new _ _
    (or_introl eq_refl)
    (NoDup_cons 1 (fun H : In 1 [] => H) (NoDup_nil Z))
    eq_refl eq_refl eq_refl
    {| name := Js.Str "Assemblies";
       shapeIds := [createShapeId 1 43; createShapeId 1 44] |}
    (or_intror (or_introl eq_refl))).
Defined.

(** C9, as stated, fails for a model without instance tree: no element of
    the sheet has a fragment that is loaded and not hidden, and
    [hasVisibleFragments] does not return [false] for it but throws when it
    reads the tree. *)
Lemma hasVisibleFragments_throws_without_instance_tree :
  getInstanceTree sheetScene = None
  /\ hasVisibleFragments sheetScene 1 = Throw (TypeError "it is null")
  /\ ~ (exists b, hasVisibleFragments sheetScene 1 = Ok b).
Proof.
  split; [reflexivity|]. split; [reflexivity|].
  intros [b H]. discriminate.
Qed.

(** ** Leaf resolution *)

(** A geometry primitive whose "parent" property has a truthy value gives
    way to that value. *)
Lemma actualLeaf_parent (this : BaseExtension) (item : PropResult)
    (displayProperty : Property) :
  hasGeometryProperty this item || hasGeometryName this item = true ->
  find (fun subProp => String.eqb (displayName subProp) "parent")
       (item_properties item) = Some displayProperty ->
  Js.truthy (displayValue displayProperty) = true ->
  actualLeaf this item = Ok (displayValue displayProperty).
Proof. intros Hg Hf Ht. unfold actualLeaf. now rewrite Hg, Hf, Ht. Qed.

(** A geometry primitive whose "parent" property has a falsy value is kept. *)
Lemma actualLeaf_parent_falsy (this : BaseExtension) (item : PropResult)
    (displayProperty : Property) :
  hasGeometryProperty this item || hasGeometryName this item = true ->
  find (fun subProp => String.eqb (displayName subProp) "parent")
       (item_properties item) = Some displayProperty ->
  Js.truthy (displayValue displayProperty) = false ->
  actualLeaf this item = Ok (Js.Num (item_dbId item)).
Proof. intros Hg Hf Ht. unfold actualLeaf. now rewrite Hg, Hf, Ht. Qed.

(** A leaf that is not a geometry primitive is kept. *)
Lemma actualLeaf_other (this : BaseExtension) (item : PropResult) :
  hasGeometryProperty this item || hasGeometryName this item = false ->
  actualLeaf this item = Ok (Js.Num (item_dbId item)).
Proof. intros Hg. unfold actualLeaf. now rewrite Hg. Qed.

(** A geometry primitive without "parent" property ends the loop with a
    [TypeError]. *)
Lemma actualLeaf_no_parent (this : BaseExtension) (item : PropResult) :
  hasGeometryProperty this item || hasGeometryName this item = true ->
  find (fun subProp => String.eqb (displayName subProp) "parent")
       (item_properties item) = None ->
  actualLeaf this item = Throw (TypeError "displayProperty is undefined").
Proof. intros Hg Hf. unfold actualLeaf. now rewrite Hg, Hf. Qed.

Lemma forEach_actualLeaf_throw (this : BaseExtension) (props : list PropResult)
    (item : PropResult) (e : Exn) (dbIds : list Js.value) :
  In item props -> actualLeaf this item = Throw e ->
  exists e', forEach_actualLeaf this props dbIds = Throw e'.
Proof.
  revert dbIds.
  induction props as [|p rest IH]; intros dbIds Hin Hthrow; [contradiction|].
  simpl. destruct Hin as [->|Hin].
  - rewrite Hthrow. simpl. eauto.
  - destruct (actualLeaf this p); simpl; eauto.
Qed.

(** The mesh 44 of the assembly, whose "parent" property is 42, resolves
    to 42; the panel 43 stays. *)
Example assembly_leaves :
  fst (findActualLeafNodes assemblyScene true true BaseExtension_new)
  = Resolved [Js.Num 43; Js.Num 42].
Proof. reflexivity. Qed.

(** C6. The body 7 of [orphanScene] is a geometry primitive by its name, and
    its record has no "parent" property.  The loop of [findActualLeafNodes]
    does not keep it as itself: it throws on it, after the wall 5, and the
    leaves 5 and 7 of the scene give no result. *)
Theorem leaf_without_parent_is_not_kept :
  hasGeometryName BaseExtension_new orphanItem = true
  /\ find (fun subProp => String.eqb (displayName subProp) "parent")
          (item_properties orphanItem) = None
  /\ actualLeaf BaseExtension_new orphanItem
     = Throw (TypeError "displayProperty is undefined")
  /\ findLeafNodes orphanScene = Resolved [5; 7]
  /\ getBulkProperties orphanScene [Js.Num 5; Js.Num 7] = Answer orphanTable
  /\ forEach_actualLeaf BaseExtension_new orphanTable []
     = Throw (TypeError "displayProperty is undefined").
Proof. repeat split. Qed.

(** C7. Leaf resolution of [orphanScene], whose body 7 matches the geometry
    names and has no "parent" property, fails: the promise is rejected with
    the [TypeError] and nothing is cached, on the chunked path and on the
    single-query path. *)
Theorem missing_parent_rejects_resolution :
  forall useCache useParallel,
    findActualLeafNodes orphanScene useCache useParallel BaseExtension_new
    = (Rejected (TypeError "displayProperty is undefined"), BaseExtension_new).
Proof. intros [] []; reflexivity. Qed.



(** Without [useCache] the slot is neither read nor written. *)
Lemma findActualLeafNodes_noCache (model : Model) (useParallel : bool)
    (this : BaseExtension) :
  snd (findActualLeafNodes model false useParallel this) = this.
Proof.
  unfold findActualLeafNodes, findActualLeafNodes_settle.
  destruct (findLeafNodes model); try reflexivity.
  destruct (queryLeafProperties model useParallel a); try reflexivity.
  now destruct (forEach_actualLeaf this a0 []).
Qed.

(** C5, as the code has it. The cache is one slot of the extension: once a
    call with [useCache] has resolved, every later call with [useCache]
    resolves to the same array and leaves the slot as it is, whether it is
    made for the same source or for another one. *)
Theorem cached_leaves_are_returned_to_every_source :
  forall (model model' : Model) (useParallel useParallel' : bool)
         (this this' : BaseExtension) (dbIds : list Js.value),
    findActualLeafNodes model true useParallel this = (Resolved dbIds, this') ->
    findActualLeafNodes model' true useParallel' this' = (Resolved dbIds, this').
Proof.
  intros model model' useParallel useParallel' this this' dbIds.
  unfold findActualLeafNodes at 1. unfold findActualLeafNodes_settle.
  destruct (cachedDbIds this) as [cached|] eqn:Ec.
  - intros H. injection H as <- <-.
    unfold findActualLeafNodes, findActualLeafNodes_settle. now rewrite Ec.
  - destruct (findLeafNodes model); try discriminate.
    destruct (queryLeafProperties model useParallel a); try discriminate.
    destruct (forEach_actualLeaf this a0 []); try discriminate.
    intros H. injection H as <- <-. reflexivity.
Qed.

Lemma cached_leaves_are_returned_to_every_source_witness :
  findActualLeafNodes beamScene true true
    (set_cachedDbIds (Some [Js.Num 43; Js.Num 42]) BaseExtension_new)
  = (Resolved [Js.Num 43; Js.Num 42],
     set_cachedDbIds (Some [Js.Num 43; Js.Num 42]) BaseExtension_new).
Proof.
  exact (cached_leaves_are_returned_to_every_source
           assemblyScene beamScene true true BaseExtension_new _ _ eq_refl).
Defined.

(** C5, as stated, fails: the beam scene, resolved after the assembly, gets
    the leaves of the assembly, not its own leaves 5 and 6. *)
Lemma cache_is_not_per_source :
  model_id assemblyScene <> model_id beamScene
  /\ fst (findActualLeafNodes beamScene true true BaseExtension_new)
     = Resolved [Js.Num 5; Js.Num 6]
  /\ fst (findActualLeafNodes assemblyScene true true BaseExtension_new)
     = Resolved [Js.Num 43; Js.Num 42]
  /\ fst (findActualLeafNodes beamScene true true
            (snd (findActualLeafNodes assemblyScene true true BaseExtension_new)))
     = Resolved [Js.Num 43; Js.Num 42].
Proof. repeat split. discriminate. Qed.

(** ** Failing queries *)

Lemma settleQueries_failure (attribName : string) (searchAncestors : bool)
    (queries : list (Model * list Js.value)) (o : ClustersByName)
    (model : Model) (dbIds : list Js.value) (e : Exn) :
  In (model, dbIds) queries ->
  getBulkProperties2 model dbIds [attribName] = Failure e ->
  settleQueries attribName searchAncestors queries o = None.
Proof.
  revert o.
  induction queries as [|[m ids] rest IH]; intros o Hin Hfail; [contradiction|].
  simpl. destruct Hin as [Hin|Hin].
  - injection Hin as -> ->. now rewrite Hfail.
  - destruct (getBulkProperties2 m ids [attribName]); [|reflexivity].
    destruct (onDone m searchAncestors a o); [eauto | reflexivity].
Qed.

(** When the attribute query of a source fails, the promise of the build
    is never settled: it is neither resolved nor rejected. *)
Lemma attribute_query_failure_never_settles (models : list Model)
    (attribName : option string) (searchAncestors : option bool)
    (context context' : BaseExtension) (queries : list (Model * list Js.value))
    (model : Model) (dbIds : list Js.value) (e : Exn) :
  awaitLeafNodes models context = (Resolved queries, context') ->
  In (model, dbIds) queries ->
  getBulkProperties2 model dbIds [defaultTo "Category" attribName] = Failure e ->
  buildClustersFromAttribute models attribName searchAncestors context
  = (Pending, context').
Proof.
  intros Hq Hin Hfail. unfold buildClustersFromAttribute. rewrite Hq.
  now rewrite (settleQueries_failure _ (defaultTo true searchAncestors) _ []
                 _ _ _ Hin Hfail).
Qed.

(** When a property query of leaf resolution fails, the resolution is
    rejected. *)
Lemma leaf_query_failure_rejects (model : Model) (useCache useParallel : bool)
    (this : BaseExtension) (leaves : list Z) (e : Exn) :
  (if useCache then cachedDbIds this else None) = None ->
  findLeafNodes model = Resolved leaves ->
  queryLeafProperties model useParallel leaves = Failure e ->
  findActualLeafNodes model useCache useParallel this = (Rejected e, this).
Proof.
  intros Hc Hl Hq. unfold findActualLeafNodes, findActualLeafNodes_settle. now rewrite Hc, Hl, Hq.
Qed.

(** When leaf resolution is rejected for a source, the build is rejected. *)
Lemma leaf_rejection_rejects_build (models : list Model)
    (attribName : option string) (searchAncestors : option bool)
    (context context' : BaseExtension) (e : Exn) :
  awaitLeafNodes models context = (Rejected e, context') ->
  buildClustersFromAttribute models attribName searchAncestors context
  = (Rejected e, context').
Proof. intros H. unfold buildClustersFromAttribute. now rewrite H. Qed.

(** C2. On [failingQueryScene] leaf resolution succeeds and the attribute
    query of the build fails.  The promise pushed for the source has no
    error callback to give to the host: the build is left pending, it is not
    rejected, and so is the default layout that awaits it. *)
Theorem failed_attribute_query_leaves_build_pending :
  fst (findActualLeafNodes failingQueryScene true true BaseExtension_new)
  = Resolved [Js.Num 43; Js.Num 42]
  /\ getBulkProperties2 failingQueryScene [Js.Num 43; Js.Num 42] ["Category"]
     = Failure (HostError "property worker failed")
  /\ (forall searchAncestors,
        fst (buildClustersFromAttribute [failingQueryScene] (Some "Category")
               searchAncestors BaseExtension_new)
        = Pending)
  /\ (forall (C : Collaborators) alignShapeRotation searchAncestors,
        fst (createDefaultLayout [failingQueryScene] alignShapeRotation
               (Some "Category") searchAncestors BaseExtension_new)
        = Pending).
Proof.
  split; [reflexivity|]. split; [reflexivity|]. split.
  - intros searchAncestors. reflexivity.
  - intros C alignShapeRotation searchAncestors. reflexivity.
Qed.

(** ** Items without the attribute *)

Lemma onDone_empty_properties (model : Model) (searchAncestors : bool)
    (result : list PropResult) (o : ClustersByName) (item : PropResult) :
  In item result -> item_properties item = [] ->
  exists e, onDone model searchAncestors result o = Throw e.
Proof.
  revert o.
  induction result as [|first rest IH]; intros o Hin Hempty; [contradiction|].
  simpl. destruct Hin as [->|Hin].
  - unfold onDone_item. rewrite Hempty. simpl. eauto.
  - destruct (onDone_item model searchAncestors first o); simpl; eauto.
Qed.

Lemma settleQueries_empty_properties (attribName : string)
    (searchAncestors : bool) (queries : list (Model * list Js.value))
    (o : ClustersByName) (query : Model * list Js.value) (item : PropResult) :
  In query queries ->
  In item (queryResult attribName query) ->
  item_properties item = [] ->
  settleQueries attribName searchAncestors queries o = None.
Proof.
  revert o.
  induction queries as [|[m ids] rest IH]; intros o Hq Hitem Hempty;
    [contradiction|].
  simpl. destruct Hq as [<-|Hq].
  - unfold queryResult in Hitem. simpl in Hitem.
    destruct (getBulkProperties2 m ids [attribName]) as [result|];
      [|reflexivity].
    destruct (onDone_empty_properties m searchAncestors result o item Hitem Hempty)
      as [e ->].
    reflexivity.
  - destruct (getBulkProperties2 m ids [attribName]); [|reflexivity].
    destruct (onDone m searchAncestors a o); [eauto | reflexivity].
Qed.

Lemma shapeIds_push_names (o : ClustersByName) (key : string) (shapeId : ShapeId) :
  map (fun entry => name (snd entry)) (shapeIds_push o key shapeId)
  = map (fun entry => name (snd entry)) o.
Proof.
  induction o as [|[k c] rest IH]; simpl; [reflexivity|].
  destruct (String.eqb k key); simpl; [reflexivity | now rewrite IH].
Qed.

Lemma enumNodeChildren_callback_names (model : Model) (key : string) (own : bool)
    (children : list Z) (o o' : ClustersByName) :
  enumNodeChildren_callback model children key own o = Ok o' ->
  map (fun entry => name (snd entry)) o' = map (fun entry => name (snd entry)) o.
Proof.
  revert o.
  induction children as [|child rest IH]; intros o H; simpl in H.
  - now injection H as <-.
  - destruct (hasVisibleFragments model child) as [[]|]; simpl in H;
      try discriminate.
    + unfold cluster_push in H. destruct own; simpl in H; [|discriminate].
      rewrite (IH _ H). apply shapeIds_push_names.
    + eauto.
Qed.

Lemma onDone_item_names (model : Model) (searchAncestors : bool)
    (item : PropResult) (o o' : ClustersByName) (n : Js.value) :
  onDone_item model searchAncestors item o = Ok o' ->
  In n (map (fun entry => name (snd entry)) o') ->
  In n (map (fun entry => name (snd entry)) o) \/ categoryOf item = Some n.
Proof.
  unfold onDone_item, categoryOf.
  destruct (item_properties item) as [|property0 rest]; [discriminate|].
  assert (Hnew : forall k,
    In n (map (fun entry => name (snd entry))
              (o ++ [(k, newCluster (displayValue property0))])) ->
    In n (map (fun entry => name (snd entry)) o)
    \/ Some (displayValue property0) = Some n).
  { intros k. rewrite map_app, in_app_iff. simpl.
    intros [H|[H|[]]]; [now left | right; now f_equal]. }
  destruct (getProperty o _); destruct searchAncestors;
    try (destruct (getInstanceTree model); [|discriminate]);
    intros H Hin;
    try (apply enumNodeChildren_callback_names in H; rewrite H in Hin);
    try (unfold cluster_push in H; simpl in H; try discriminate;
         injection H as <-; rewrite shapeIds_push_names in Hin);
    eauto.
Qed.

Lemma onDone_names (model : Model) (searchAncestors : bool)
    (result : list PropResult) (o o' : ClustersByName) (n : Js.value) :
  onDone model searchAncestors result o = Ok o' ->
  In n (map (fun entry => name (snd entry)) o') ->
  In n (map (fun entry => name (snd entry)) o)
  \/ exists item, In item result /\ categoryOf item = Some n.
Proof.
  revert o.
  induction result as [|item rest IH]; intros o H Hin; simpl in H.
  - injection H as <-. now left.
  - destruct (onDone_item model searchAncestors item o) as [o1|] eqn:E;
      simpl in H; [|discriminate].
    destruct (IH _ H Hin) as [Hin1|(it & Hit & Hc)].
    + destruct (onDone_item_names _ _ _ _ _ _ E Hin1) as [?|?];
        [now left | right; exists item; simpl; auto].
    + right. exists it. simpl. auto.
Qed.

Lemma settleQueries_names (attribName : string) (searchAncestors : bool)
    (queries : list (Model * list Js.value)) (o o' : ClustersByName)
    (n : Js.value) :
  settleQueries attribName searchAncestors queries o = Some o' ->
  In n (map (fun entry => name (snd entry)) o') ->
  In n (map (fun entry => name (snd entry)) o)
  \/ exists query item,
       In query queries
       /\ In item (queryResult attribName query)
       /\ categoryOf item = Some n.
Proof.
  revert o.
  induction queries as [|[m ids] rest IH]; intros o H Hin; simpl in H.
  - injection H as <-. now left.
  - destruct (getBulkProperties2 m ids [attribName]) as [result|] eqn:Eq;
      [|discriminate].
    destruct (onDone m searchAncestors result o) as [o1|] eqn:E; [|discriminate].
    destruct (IH _ H Hin) as [Hin1|(q & it & Hq & Hit & Hc)].
    + destruct (onDone_names _ _ _ _ _ _ E Hin1) as [?|(it & Hit & Hc)];
        [now left|].
      right. exists (m, ids), it. simpl. repeat split; auto.
      unfold queryResult. simpl. now rewrite Eq.
    + right. exists q, it. simpl. auto.
Qed.

(** C4, as the code has it. The build has no cluster for elements without
    the attribute: the clusters of a completed build are named after display
    values that the attribute query returned, and a build whose query
    returns an item without any property does not complete. *)
Theorem build_requires_the_attribute :
  forall (models : list Model) (attribName : option string)
         (searchAncestors : option bool) (context context' : BaseExtension)
         (queries : list (Model * list Js.value)),
    awaitLeafNodes models context = (Resolved queries, context') ->
    ((exists query item,
         In query queries
         /\ In item (queryResult (defaultTo "Category" attribName) query)
         /\ item_properties item = []) ->
     forall clusters,
       fst (buildClustersFromAttribute models attribName searchAncestors context)
       <> Resolved clusters)
    /\ (forall clusters c,
          fst (buildClustersFromAttribute models attribName searchAncestors context)
          = Resolved clusters ->
          In c clusters ->
          exists query item,
            In query queries
            /\ In item (queryResult (defaultTo "Category" attribName) query)
            /\ categoryOf item = Some (name c)).
Proof.
  intros models attribName searchAncestors context context' queries Hq.
  unfold buildClustersFromAttribute. rewrite Hq. split.
  - intros (query & item & Hin & Hitem & Hempty) clusters.
    now rewrite (settleQueries_empty_properties _
                   (defaultTo true searchAncestors) _ [] _ _ Hin Hitem Hempty).
  - intros clusters c.
    destruct (settleQueries _ _ queries []) as [o|] eqn:E; [|discriminate].
    simpl. intros H Hc. injection H as <-.
    apply (Permutation_in _ (Object_values_perm o)) in Hc.
    apply (in_map name) in Hc. rewrite map_map in Hc.
    destruct (settleQueries_names _ _ _ _ _ _ E Hc) as [[]|H]. exact H.
Qed.

Lemma build_requires_the_attribute_witness :
  awaitLeafNodes [beamScene] BaseExtension_new
  = (Resolved [(beamScene, [Js.Num 5; Js.Num 6])],
     set_cachedDbIds (Some [Js.Num 5; Js.Num 6]) BaseExtension_new)
  /\ fst (buildClustersFromAttribute [beamScene] (Some "Category") (Some false)
            BaseExtension_new)
     <> Resolved [].
Proof.
  split; [reflexivity|].
  refine (proj1 (build_requires_the_attribute [beamScene] (Some "Category")
                   (Some false) BaseExtension_new _ _ eq_refl) _ []).
  exists (beamScene, [Js.Num 5; Js.Num 6]).
  exists {| item_dbId := 6; item_name := Some "Beam"; item_properties := [] |}.
  split; [left; reflexivity|].
  split; [right; left; reflexivity | reflexivity].
Defined.

(** C4, as stated, fails.  The beam 6 is among the resolved leaves and has
    no "Category".  When the query returns its item without property, the
    build does not complete; when the query leaves the element out, the
    build completes with the one cluster "Walls" and the beam is in no
    cluster. *)
Lemma missing_attribute_is_not_uncategorized :
  fst (findActualLeafNodes beamScene true true BaseExtension_new)
  = Resolved [Js.Num 5; Js.Num 6]
  /\ queryResult "Category" (beamScene, [Js.Num 5; Js.Num 6])
     = [ {| item_dbId := 5; item_name := Some "Wall";
            item_properties := [prop "Category" (Js.Str "Walls")] |};
         {| item_dbId := 6; item_name := Some "Beam"; item_properties := [] |} ]
  /\ (forall searchAncestors,
        fst (buildClustersFromAttribute [beamScene] (Some "Category")
               searchAncestors BaseExtension_new)
        = Pending)
  /\ (forall searchAncestors,
        fst (buildClustersFromAttribute [beamSceneSkipping] (Some "Category")
               searchAncestors BaseExtension_new)
        = Resolved [ {| name := Js.Str "Walls"; shapeIds := [createShapeId 3 5] |} ]).
Proof.
  repeat split; intros [[]|]; reflexivity.
Qed.

(** ** Clusters and resolved leaves *)


Lemma itemShapes_modelId (model : Model) (searchAncestors : bool)
    (item : PropResult) (shapeId : ShapeId) :
  In shapeId (itemShapes model searchAncestors item) ->
  modelId shapeId = model_id model.
Proof.
  unfold itemShapes. destruct searchAncestors.
  - destruct (getInstanceTree model); [|contradiction].
    intros H. apply in_map_iff in H. now destruct H as (child & <- & _).
  - intros [<-|[]]. reflexivity.
Qed.







(** ** The default layout *)

Lemma looseNeqLiteral_true (v : Js.value) (lit : string) :
  Js.looseNeqLiteral v lit = true <-> v <> Js.Str lit.
Proof.
  destruct v; simpl; try (split; [discriminate | reflexivity]).
  rewrite negb_true_iff. split.
  - intros H E. injection E as ->. now rewrite String.eqb_refl in H.
  - intros H. destruct (String.eqb s lit) eqn:E; [|reflexivity].
    apply String.eqb_eq in E. now subst.
Qed.

Lemma clusterFilter_true (c : Cluster) :
  clusterFilter c = true <->
  name c <> Js.Str "Revit Topography"
  /\ name c <> Js.Str "Revit Rooms"
  /\ name c <> Js.Str "Revit <Sketch>".
Proof.
  unfold clusterFilter.
  rewrite !andb_true_iff, !looseNeqLiteral_true. tauto.
Qed.

Lemma modelSupported_true (model : Model) :
  modelSupported model = true <->
  is3d model = true /\ getInstanceTree model <> None.
Proof.
  unfold modelSupported. rewrite andb_true_iff.
  destruct (getInstanceTree model); split; intros [H1 H2];
    (split; [assumption|]); congruence.
Qed.

(** Every member of a cluster carries the id of one of the models of the
    build. *)
Lemma members_come_from_the_models (models : list Model)
    (attribName : option string) (searchAncestors : option bool)
    (context context' : BaseExtension) (clusters : list Cluster)
    (c : Cluster) (shapeId : ShapeId) :
  buildClustersFromAttribute models attribName searchAncestors context
  = (Resolved clusters, context') ->
  In c clusters -> In shapeId (shapeIds c) ->
  exists model, In model models /\ model_id model = modelId shapeId.
Proof.
  intros Hbuild Hc Hs.
  destruct (buildClusters_resolved _ _ _ _ _ _ Hbuild)
    as (queries & o & Hq & _ & _ & Hperm).
  assert (Hin : In shapeId (flat_map shapeIds clusters))
    by (apply in_flat_map; eauto).
  apply (Permutation_in _ Hperm), queryShapes_In in Hin.
  destruct Hin as (model & dbIds & item & Hquery & _ & Hshape).
  exists model. split.
  - rewrite <- (awaitLeafNodes_models _ _ _ _ Hq). eapply In_map_fst; eauto.
  - symmetry. eapply itemShapes_modelId; eauto.
Qed.

(** C10. A default layout is the layout of the clusters built from the
    models that are 3D and have an instance tree, without the clusters named
    'Revit Topography', 'Revit Rooms' or 'Revit <Sketch>'; the shape boxes
    and the rotation alignment are made from the same models, and every
    member of a cluster that reaches the layout belongs to one of them. *)
Theorem default_layout_of_supported_models_and_kept_clusters :
  forall (C : Collaborators) (models : list Model) (alignShapeRotation : bool)
         (attribName : option string) (searchAncestors : option bool)
         (context context' : BaseExtension) (layout : SceneLayout),
    createDefaultLayout models alignShapeRotation attribName searchAncestors context
    = (Resolved layout, context') ->
    exists supported built kept rotationAlignment,
      buildClustersFromAttribute supported attribName searchAncestors context
      = (Resolved built, context')
      /\ rotationAlignment
         = (if alignShapeRotation then Some (newRotationAlignment supported)
            else None)
      /\ layout = createClusterSetLayout kept
                    (newShapeBoxes supported rotationAlignment) rotationAlignment
      /\ (forall model,
            In model supported <->
            In model models /\ is3d model = true /\ getInstanceTree model <> None)
      /\ (forall c,
            In c kept <->
            In c built
            /\ name c <> Js.Str "Revit Topography"
            /\ name c <> Js.Str "Revit Rooms"
            /\ name c <> Js.Str "Revit <Sketch>")
      /\ (forall c shapeId,
            In c kept -> In shapeId (shapeIds c) ->
            exists model, In model supported /\ model_id model = modelId shapeId).
Proof.
  intros C models alignShapeRotation attribName searchAncestors context context'
    layout.
  unfold createDefaultLayout.
  destruct (buildClustersFromAttribute (filter modelSupported models) attribName
              searchAncestors context) as [[built|e|] c1] eqn:Hbuild;
    try discriminate.
  intros H. injection H as <- <-.
  exists (filter modelSupported models), built, (filter clusterFilter built).
  eexists. split; [exact Hbuild|]. split; [reflexivity|]. split; [reflexivity|].
  split; [|split].
  - intros model. now rewrite filter_In, modelSupported_true.
  - intros c. now rewrite filter_In, clusterFilter_true.
  - intros c shapeId Hc Hs. apply filter_In in Hc. destruct Hc as [Hc _].
    eapply members_come_from_the_models; eauto.
Qed.

Lemma default_layout_of_supported_models_and_kept_clusters_witness :
  exists supported built kept rotationAlignment,
    buildClustersFromAttribute supported (Some "Category") (Some false)
      BaseExtension_new
    = (Resolved built,
       set_cachedDbIds (Some [Js.Num 43; Js.Num 42]) BaseExtension_new)
    /\ rotationAlignment = Some (newRotationAlignment supported)
    /\ [ {| name := Js.Str "Doors"; shapeIds := [createShapeId 1 43] |};
         {| name := Js.Str "Assemblies"; shapeIds := [createShapeId 1 42] |} ]
       = createClusterSetLayout kept
           (newShapeBoxes supported rotationAlignment) rotationAlignment
    /\ (forall model,
          In model supported <->
          In model [sheetScene; assemblyScene]
          /\ is3d model = true /\ getInstanceTree model <> None)
    /\ (forall c,
          In c kept <->
          In c built
          /\ name c <> Js.Str "Revit Topography"
          /\ name c <> Js.Str "Revit Rooms"
          /\ name c <> Js.Str "Revit <Sketch>")
    /\ (forall c shapeId,
          In c kept -> In shapeId (shapeIds c) ->
          exists model, In model supported /\ model_id model = modelId shapeId).
Proof.
  exact (default_layout_of_supported_models_and_kept_clusters recording
           [sheetScene; assemblyScene] true (Some "Category") (Some false)
           BaseExtension_new _ _ eq_refl).
Defined.

(** ** The extension: field assignments *)

Section ExtensionFacts.

Context `{C : Collaborators}.

Lemma layoutActive_set_base x (this : VisualClustersExtension) :
  layoutActive (set_base x this) = layoutActive this.
Proof. now destruct this. Qed.

Lemma layoutActive_set_viewer x (this : VisualClustersExtension) :
  layoutActive (set_viewer x this) = layoutActive this.
Proof. now destruct this. Qed.

Lemma layoutActive_set_layoutActive x (this : VisualClustersExtension) :
  layoutActive (set_layoutActive x this) = x.
Proof. now destruct this. Qed.

Lemma layoutActive_set_layoutTimeStamp x (this : VisualClustersExtension) :
  layoutActive (set_layoutTimeStamp x this) = layoutActive this.
Proof. now destruct this. Qed.

Lemma layoutActive_set_animController x (this : VisualClustersExtension) :
  layoutActive (set_animController x this) = layoutActive this.
Proof. now destruct this. Qed.

Lemma layoutActive_set_gizmoController x (this : VisualClustersExtension) :
  layoutActive (set_gizmoController x this) = layoutActive this.
Proof. now destruct this. Qed.

Lemma layoutActive_set_chosenAttrib x (this : VisualClustersExtension) :
  layoutActive (set_chosenAttrib x this) = layoutActive this.
Proof. now destruct this. Qed.

Lemma layoutActive_set_dropdown x (this : VisualClustersExtension) :
  layoutActive (set_dropdown x this) = layoutActive this.
Proof. now destruct this. Qed.

Lemma layoutActive_set_clusterButton x (this : VisualClustersExtension) :
  layoutActive (set_clusterButton x this) = layoutActive this.
Proof. now destruct this. Qed.

Lemma layoutActive_set_customSceneLayout x (this : VisualClustersExtension) :
  layoutActive (set_customSceneLayout x this) = layoutActive this.
Proof. now destruct this. Qed.

Lemma layoutActive_set_sceneLayout x (this : VisualClustersExtension) :
  layoutActive (set_sceneLayout x this) = layoutActive this.
Proof. now destruct this. Qed.

Lemma layoutActive_set_sceneAnimState x (this : VisualClustersExtension) :
  layoutActive (set_sceneAnimState x this) = layoutActive this.
Proof. now destruct this. Qed.

Lemma layoutTimeStamp_set_base x (this : VisualClustersExtension) :
  layoutTimeStamp (set_base x this) = layoutTimeStamp this.
Proof. now destruct this. Qed.

Lemma layoutTimeStamp_set_viewer x (this : VisualClustersExtension) :
  layoutTimeStamp (set_viewer x this) = layoutTimeStamp this.
Proof. now destruct this. Qed.

Lemma layoutTimeStamp_set_layoutActive x (this : VisualClustersExtension) :
  layoutTimeStamp (set_layoutActive x this) = layoutTimeStamp this.
Proof. now destruct this. Qed.

Lemma layoutTimeStamp_set_layoutTimeStamp x (this : VisualClustersExtension) :
  layoutTimeStamp (set_layoutTimeStamp x this) = x.
Proof. now destruct this. Qed.

Lemma layoutTimeStamp_set_animController x (this : VisualClustersExtension) :
  layoutTimeStamp (set_animController x this) = layoutTimeStamp this.
Proof. now destruct this. Qed.

Lemma layoutTimeStamp_set_gizmoController x (this : VisualClustersExtension) :
  layoutTimeStamp (set_gizmoController x this) = layoutTimeStamp this.
Proof. now destruct this. Qed.

Lemma layoutTimeStamp_set_chosenAttrib x (this : VisualClustersExtension) :
  layoutTimeStamp (set_chosenAttrib x this) = layoutTimeStamp this.
Proof. now destruct this. Qed.

Lemma layoutTimeStamp_set_dropdown x (this : VisualClustersExtension) :
  layoutTimeStamp (set_dropdown x this) = layoutTimeStamp this.
Proof. now destruct this. Qed.

Lemma layoutTimeStamp_set_clusterButton x (this : VisualClustersExtension) :
  layoutTimeStamp (set_clusterButton x this) = layoutTimeStamp this.
Proof. now destruct this. Qed.

Lemma layoutTimeStamp_set_customSceneLayout x (this : VisualClustersExtension) :
  layoutTimeStamp (set_customSceneLayout x this) = layoutTimeStamp this.
Proof. now destruct this. Qed.

Lemma layoutTimeStamp_set_sceneLayout x (this : VisualClustersExtension) :
  layoutTimeStamp (set_sceneLayout x this) = layoutTimeStamp this.
Proof. now destruct this. Qed.

Lemma layoutTimeStamp_set_sceneAnimState x (this : VisualClustersExtension) :
  layoutTimeStamp (set_sceneAnimState x this) = layoutTimeStamp this.
Proof. now destruct this. Qed.

Create Rewrite HintDb fields.

#[local] Hint Rewrite
  layoutActive_set_base
  layoutActive_set_viewer
  layoutActive_set_layoutActive
  layoutActive_set_layoutTimeStamp
  layoutActive_set_animController
  layoutActive_set_gizmoController
  layoutActive_set_chosenAttrib
  layoutActive_set_dropdown
  layoutActive_set_clusterButton
  layoutActive_set_customSceneLayout
  layoutActive_set_sceneLayout
  layoutActive_set_sceneAnimState
  layoutTimeStamp_set_base
  layoutTimeStamp_set_viewer
  layoutTimeStamp_set_layoutActive
  layoutTimeStamp_set_layoutTimeStamp
  layoutTimeStamp_set_animController
  layoutTimeStamp_set_gizmoController
  layoutTimeStamp_set_chosenAttrib
  layoutTimeStamp_set_dropdown
  layoutTimeStamp_set_clusterButton
  layoutTimeStamp_set_customSceneLayout
  layoutTimeStamp_set_sceneLayout
  layoutTimeStamp_set_sceneAnimState
  : fields.

(** ** The extension: what the methods keep *)

Lemma keepsLayoutState_ret {A} (a : A) : keepsLayoutState (ret a).
Proof. intros this. now split. Qed.

Lemma keepsLayoutState_throw {A} (e : Exn) : keepsLayoutState (@throw _ A e).
Proof. intros this. now split. Qed.

Lemma keepsLayoutState_gets {A} (f : VisualClustersExtension -> A) :
  keepsLayoutState (gets f).
Proof. intros this. now split. Qed.

Lemma keepsLayoutState_assign (f : VisualClustersExtension -> VisualClustersExtension) :
  (forall this, layoutActive (f this) = layoutActive this
                /\ layoutTimeStamp (f this) = layoutTimeStamp this) ->
  keepsLayoutState (assign f).
Proof. intros H this. exact (H this). Qed.

Lemma keepsLayoutState_bind {A B} (c : M A) (k : A -> M B) :
  keepsLayoutState c -> (forall a, keepsLayoutState (k a)) ->
  keepsLayoutState (bindM c k).
Proof.
  intros Hc Hk this. unfold bindM.
  specialize (Hc this). destruct (c this) as [[a|e] this1]; simpl in *.
  - specialize (Hk a this1). destruct Hk as [-> ->]. exact Hc.
  - exact Hc.
Qed.

Lemma keepsLayoutState_async {A} (c : M A) :
  keepsLayoutState c -> keepsLayoutState (async c).
Proof.
  intros Hc this. unfold async. specialize (Hc this).
  now destruct (c this).
Qed.

Create HintDb keeps.

#[local] Hint Resolve keepsLayoutState_ret keepsLayoutState_throw
  keepsLayoutState_gets keepsLayoutState_async keepsLayoutState_bind : keeps.

#[local] Hint Extern 1 (keepsLayoutState (assign _)) =>
  apply keepsLayoutState_assign; intros ?;
  autorewrite with fields; split; reflexivity : keeps.

Lemma fireEvent_keeps (ev : ViewerEvent) : keepsLayoutState (fireEvent ev).
Proof. unfold fireEvent. auto with keeps. Qed.

Lemma updateButton_keeps : keepsLayoutState updateButton.
Proof.
  intros this. unfold updateButton.
  destruct (clusterButton this); [|now split].
  destruct (negb (existsb is3d (getVisibleModels (viewer this)))); simpl;
    autorewrite with fields; now split.
Qed.

Lemma updateButton_returns (this : VisualClustersExtension) :
  fst (updateButton this) = Ok tt.
Proof.
  unfold updateButton. destruct (clusterButton this); [|reflexivity].
  now destruct (negb (existsb is3d (getVisibleModels (viewer this)))).
Qed.

Lemma transitionPayload_keeps : keepsLayoutState transitionPayload.
Proof.
  intros this. unfold transitionPayload.
  destruct (anim_states (animController this) ClusteredStateName); [|now split].
  destruct (filterBoolean (scene_animStates s)); [now split|].
  now destruct (0 <? length (model_animStates m))%nat.
Qed.

#[local] Hint Resolve fireEvent_keeps updateButton_keeps transitionPayload_keeps
  : keeps.

Lemma onTransitionStarted_keeps : keepsLayoutState onTransitionStarted.
Proof. unfold onTransitionStarted. auto with keeps. Qed.

Lemma onTransitionEnded_keeps : keepsLayoutState onTransitionEnded.
Proof. unfold onTransitionEnded. auto with keeps. Qed.

#[local] Hint Resolve onTransitionStarted_keeps onTransitionEnded_keeps : keeps.

Lemma applyLayout_resume_keeps (run : LayoutRun) (sceneLayout' : SceneLayout) :
  keepsLayoutState (applyLayout_resume run sceneLayout').
Proof.
  unfold applyLayout_resume.
  apply keepsLayoutState_bind; [auto with keeps|]. intros active.
  apply keepsLayoutState_bind; [auto with keeps|]. intros current.
  destruct (negb active || negb (run_layoutTimeStamp run =? current));
    auto 10 with keeps.
Qed.

#[local] Hint Resolve applyLayout_resume_keeps : keeps.

Lemma keeps_neverActivates {A} (c : M A) : keepsLayoutState c -> neverActivates c.
Proof. intros H this. destruct (H this) as [-> ->]. now split. Qed.

Lemma neverActivates_bind {A B} (c : M A) (k : A -> M B) :
  neverActivates c -> (forall a, neverActivates (k a)) ->
  neverActivates (bindM c k).
Proof.
  intros Hc Hk this. unfold bindM.
  specialize (Hc this). destruct (c this) as [[a|e] this1]; simpl in *.
  - specialize (Hk a this1). destruct Hk as [-> Hk], Hc as [-> Hc]. auto.
  - exact Hc.
Qed.

Lemma reset_neverActivates : neverActivates reset.
Proof.
  unfold reset.
  apply neverActivates_bind; [apply keeps_neverActivates; auto with keeps|].
  intros _.
  apply neverActivates_bind; [apply keeps_neverActivates; auto with keeps|].
  intros _.
  apply neverActivates_bind; [|intros _; apply keeps_neverActivates; auto with keeps].
  intros this. unfold assign. simpl. autorewrite with fields.
  split; [reflexivity | discriminate].
Qed.

Lemma onModelRemoved_neverActivates : neverActivates onModelRemoved.
Proof.
  unfold onModelRemoved.
  apply neverActivates_bind; [apply keeps_neverActivates; auto with keeps|].
  intros _.
  apply neverActivates_bind; [apply keeps_neverActivates; auto with keeps|].
  intros models.
  destruct (length models =? 0)%nat;
    [apply reset_neverActivates | apply keeps_neverActivates; auto with keeps].
Qed.

Lemma increment_ge (n : Z) : n <= Js.increment n.
Proof. unfold Js.increment. destruct (n <=? Js.MAX_SAFE_INTEGER); lia. Qed.

(** Below [2^53] the increment is strict; it also passes every value below
    [2^53] that the counter had reached. *)
Lemma increment_gt (s n : Z) :
  s <= Js.MAX_SAFE_INTEGER -> s <= n -> s < Js.increment n.
Proof.
  intros Hs Hn. unfold Js.increment.
  destruct (n <=? Js.MAX_SAFE_INTEGER) eqn:E; [lia|].
  apply Z.leb_gt in E. lia.
Qed.

(** [applyLayout] always returns; it increments the counter, captures the
    new value and leaves [layoutActive]. *)
Lemma applyLayout_effect (attributeName : option string)
    (this : VisualClustersExtension) :
  exists launch,
    fst (applyLayout attributeName this) = Ok launch
    /\ launchStamp launch = Js.increment (layoutTimeStamp this)
    /\ layoutTimeStamp (snd (applyLayout attributeName this))
       = Js.increment (layoutTimeStamp this)
    /\ layoutActive (snd (applyLayout attributeName this)) = layoutActive this.
Proof.
  unfold applyLayout, bindM, gets, assign, ret. simpl.
  destruct (customSceneLayout _) as [sceneLayout'|].
  - unfold async.
    match goal with
    | |- context [applyLayout_resume ?r ?l ?s] =>
        destruct (applyLayout_resume_keeps r l s) as [Ha Ht];
        destruct (applyLayout_resume r l s) as [completion this2]
    end.
    simpl in *. eexists. split; [reflexivity|]. simpl.
    rewrite Ha, Ht. autorewrite with fields. auto.
  - eexists. split; [reflexivity|]. simpl. autorewrite with fields. auto.
Qed.

Lemma handlerEffect_applyLayout (attributeName : option string) :
  handlerEffect (launch <~ applyLayout attributeName ;; ret (Some launch)).
Proof.
  intros this. unfold bindM.
  destruct (applyLayout_effect attributeName this) as (launch & Hl & Hs & Ht & _).
  destruct (applyLayout attributeName this) as [r this1]. simpl in *. subst r.
  simpl. split; congruence.
Qed.

Lemma handlerEffect_bind_keeps {A} (c : M A) (k : A -> M (option Launch)) :
  keepsLayoutState c -> (forall a, handlerEffect (k a)) ->
  handlerEffect (bindM c k).
Proof.
  intros Hc Hk this. unfold bindM.
  destruct (Hc this) as [Ha Ht]. destruct (c this) as [[a|e] this1]; simpl in *.
  - specialize (Hk a this1). unfold stepEffect in *.
    destruct (launchOf (fst (k a this1))); rewrite <- ?Ha, <- ?Ht; exact Hk.
  - split; [assumption | congruence].
Qed.

Lemma handlerEffect_noLaunch (c : M unit) :
  neverActivates c -> handlerEffect (noLaunch c).
Proof.
  intros Hc this. unfold noLaunch, bindM, ret.
  specialize (Hc this). now destruct (c this) as [[[]|e] this1].
Qed.

Lemma handlerEffect_setLayoutActive (active : bool) (attributeName : option string) :
  handlerEffect (setLayoutActive active attributeName).
Proof.
  intros this.
  destruct (setLayoutActive active attributeName this) as [r this'] eqn:E.
  simpl. revert E. unfold setLayoutActive.
  unfold bindM at 1. unfold gets at 1. cbv beta iota.
  destruct (Bool.eqb (layoutActive this) active).
  { unfold ret. intros E. injection E as <- <-. simpl. now split. }
  unfold bindM at 1. unfold assign at 1. cbv beta iota.
  unfold bindM at 1.
  destruct (updateButton_keeps (set_layoutActive active this)) as [Ha Ht].
  pose proof (updateButton_returns (set_layoutActive active this)) as Hr.
  destruct (updateButton (set_layoutActive active this)) as [r1 this1].
  simpl in Ha, Ht, Hr. subst r1. autorewrite with fields in Ha, Ht.
  cbv beta iota. destruct active; simpl; intros E.
  - destruct (applyLayout_effect attributeName this1)
      as (launch & Hl & Hs & Ht' & _).
    revert E. unfold bindM, ret.
    destruct (applyLayout attributeName this1) as [r2 this2]. simpl in *.
    subst r2. intros E. injection E as <- <-. simpl.
    split; congruence.
  - assert (Hn : neverActivates
                   (onTransitionStarted ;;>
                    assign (fun this =>
                      set_animController
                        (anim_animateTo None (animController this)) this) ;;>
                    assign (fun this =>
                      set_gizmoController
                        (gizmo_onLayoutChanged None (gizmoController this)) this) ;;>
                    ret (@None Launch))).
    { apply keeps_neverActivates. auto 10 with keeps. }
    specialize (Hn this1). rewrite E in Hn. simpl in Hn.
    assert (Hl : launchOf r = None).
    { revert E. unfold bindM, assign, ret.
      destruct (onTransitionStarted this1) as [[[]|?] ?];
        intros E; injection E as <- <-; reflexivity. }
    rewrite Hl. simpl.
    split; [now rewrite <- Ht | intros H; apply Hn in H; congruence].
Qed.

Lemma onToolbarCreated_keeps (button : Button) :
  keepsLayoutState (onToolbarCreated button).
Proof.
  unfold onToolbarCreated.
  apply keepsLayoutState_bind; [auto with keeps|].
  intros skip. destruct skip; auto with keeps.
Qed.

#[local] Hint Resolve onToolbarCreated_keeps : keeps.

Lemma handle_effect (ev : Event) : handlerEffect (handle ev).
Proof.
  destruct ev; simpl;
    try solve [ apply handlerEffect_noLaunch; apply keeps_neverActivates;
                unfold onModelAdded, onDbLoaded, set_visibleModels,
                  dropdown_fill, leafNodes_resolve;
                auto 10 with keeps ].
  - apply handlerEffect_setLayoutActive.
  - apply handlerEffect_applyLayout.
  - apply handlerEffect_noLaunch, reset_neverActivates.
  - unfold unload, _destroyUI.
    apply handlerEffect_bind_keeps; [auto with keeps|]. intros skip.
    apply handlerEffect_bind_keeps; [auto with keeps|]. intros button.
    apply handlerEffect_bind_keeps;
      [destruct skip, button; auto with keeps|]. intros _.
    apply handlerEffect_bind_keeps; [auto with keeps|]. intros _.
    apply handlerEffect_bind_keeps; [auto with keeps|]. intros _.
    apply handlerEffect_setLayoutActive.
  - apply handlerEffect_noLaunch.
    apply neverActivates_bind;
      [apply keeps_neverActivates; unfold set_visibleModels; auto with keeps|].
    intros _. apply onModelRemoved_neverActivates.
  - unfold onStartAnimateClick.
    apply handlerEffect_bind_keeps; [auto with keeps|]. intros display.
    destruct (String.eqb display "none").
    + apply handlerEffect_bind_keeps; [auto with keeps|]. intros _.
      apply handlerEffect_bind_keeps; [auto with keeps|]. intros opts.
      apply handlerEffect_bind_keeps;
        [destruct (length opts =? 0)%nat; unfold prepareDropdown;
         auto with keeps|].
      intros _.
      apply handlerEffect_bind_keeps; [unfold set_display; auto with keeps|].
      intros _.
      apply handlerEffect_bind_keeps; [auto with keeps|]. intros active.
      apply handlerEffect_setLayoutActive.
    + apply handlerEffect_bind_keeps; [auto with keeps|]. intros _.
      apply handlerEffect_bind_keeps; [unfold set_display; auto with keeps|].
      intros _.
      apply handlerEffect_bind_keeps; [auto with keeps|]. intros active.
      apply handlerEffect_setLayoutActive.
  - unfold onDestinationChange.
    apply handlerEffect_bind_keeps; [auto with keeps|]. intros _.
    apply handlerEffect_bind_keeps; [auto with keeps|]. intros active.
    apply handlerEffect_setLayoutActive.
  - unfold onDestinationChange_resume.
    apply handlerEffect_bind_keeps; [auto with keeps|]. intros active.
    apply handlerEffect_setLayoutActive.
  - destruct outcome; try (intros this; now split).
    apply handlerEffect_noLaunch, keeps_neverActivates. auto with keeps.
Qed.

Lemma step_effect (ev : Event) (this : VisualClustersExtension) :
  stepEffect this (snd (step ev this)) (fst (step ev this)).
Proof.
  pose proof (handle_effect ev this) as H. unfold step.
  now destruct (handle ev this) as [[launch|e] this1].
Qed.

(** ** Traces *)

Lemma runEvents_monotone (evs : list Event) (this : VisualClustersExtension) :
  layoutTimeStamp this <= layoutTimeStamp (runEvents evs this).
Proof.
  revert this. induction evs as [|ev rest IH]; intros this; simpl; [lia|].
  pose proof (step_effect ev this) as H. unfold stepEffect in H.
  specialize (IH (fst (step ev this))).
  pose proof (increment_ge (layoutTimeStamp this)) as Hi.
  destruct (snd (step ev this)); lia.
Qed.

(** A call of [applyLayout] during the sequence takes the counter past
    every value below [2^53] that it had reached before. *)
Lemma triggered_advances (s : Z) (evs : list Event)
    (this : VisualClustersExtension) :
  s <= Js.MAX_SAFE_INTEGER -> s <= layoutTimeStamp this ->
  triggeredDuring evs this = true ->
  s < layoutTimeStamp (runEvents evs this).
Proof.
  intros Hs. revert this.
  induction evs as [|ev rest IH]; intros this Hle; simpl; [discriminate|].
  pose proof (step_effect ev this) as H. unfold stepEffect in H.
  pose proof (runEvents_monotone rest (fst (step ev this))) as Hm.
  pose proof (increment_gt s (layoutTimeStamp this) Hs Hle) as Hi.
  destruct (snd (step ev this)).
  - intros _. lia.
  - intros Ht. apply IH in Ht; lia.
Qed.

Lemma inactiveDuring_start (evs : list Event) (this : VisualClustersExtension) :
  layoutActive this = false -> inactiveDuring evs this = true.
Proof. intros H. destruct evs; simpl; now rewrite H. Qed.

(** Once [layoutActive] has been false, it is false at the end or the
    counter has advanced: only [setLayoutActive(true)] sets it again, and
    that calls [applyLayout]. *)
Lemma inactive_stays_or_advances (s : Z) (evs : list Event)
    (this : VisualClustersExtension) :
  s <= Js.MAX_SAFE_INTEGER -> s <= layoutTimeStamp this ->
  inactiveDuring evs this = true ->
  layoutActive (runEvents evs this) = false
  \/ s < layoutTimeStamp (runEvents evs this).
Proof.
  intros Hs. revert this.
  induction evs as [|ev rest IH]; intros this Hle; simpl.
  - rewrite orb_false_r, negb_true_iff. now left.
  - pose proof (step_effect ev this) as H. unfold stepEffect in H.
    pose proof (runEvents_monotone rest (fst (step ev this))) as Hm.
    pose proof (increment_gt s (layoutTimeStamp this) Hs Hle) as Hi.
    intros Hin.
    assert (Hle' : s <= layoutTimeStamp (fst (step ev this))).
    { destruct (snd (step ev this)); lia. }
    assert (Hrest : inactiveDuring rest (fst (step ev this)) = true
                    \/ s < layoutTimeStamp (runEvents rest (fst (step ev this)))).
    { apply orb_true_iff in Hin. destruct Hin as [Hin|Hin]; [|now left].
      apply negb_true_iff in Hin.
      destruct (snd (step ev this)); [right; lia|].
      left. apply inactiveDuring_start.
      destruct (layoutActive (fst (step ev this))) eqn:E; [|reflexivity].
      destruct H as [_ H]. rewrite (H eq_refl) in Hin. discriminate. }
    destruct Hrest as [Hrest|Hrest]; [|now right].
    exact (IH _ Hle' Hrest).
Qed.

(** The check after the [await]: a result whose captured counter value is
    not the current one, or that arrives while the layout is inactive, is
    dropped and the extension is left as it is. *)
Lemma applyLayout_resume_stale (run : LayoutRun) (sceneLayout' : SceneLayout)
    (this : VisualClustersExtension) :
  layoutActive this = false
  \/ run_layoutTimeStamp run <> layoutTimeStamp this ->
  applyLayout_resume run sceneLayout' this = (Ok tt, this).
Proof.
  intros H. unfold applyLayout_resume, bindM, gets. cbv beta iota.
  assert (G : negb (layoutActive this)
              || negb (run_layoutTimeStamp run =? layoutTimeStamp this) = true).
  { destruct H as [->|H]; [reflexivity|].
    apply Z.eqb_neq in H. rewrite H. apply orb_true_r. }
  now rewrite G.
Qed.

Lemma stale_after_events (attributeName : option string)
    (this0 this1 : VisualClustersExtension) (run : LayoutRun)
    (evs : list Event) :
  layoutTimeStamp this0 < Js.MAX_SAFE_INTEGER ->
  applyLayout attributeName this0 = (Ok (Awaiting run), this1) ->
  triggeredDuring evs this1 = true \/ inactiveDuring evs this1 = true ->
  layoutActive (runEvents evs this1) = false
  \/ run_layoutTimeStamp run <> layoutTimeStamp (runEvents evs this1).
Proof.
  intros Hbound Hstart Hbetween.
  destruct (applyLayout_effect attributeName this0) as (launch & Hl & Hs & Ht & _).
  rewrite Hstart in Hl, Ht. simpl in Hl, Ht. injection Hl as <-. simpl in Hs.
  assert (Hi : Js.increment (layoutTimeStamp this0) = layoutTimeStamp this0 + 1).
  { unfold Js.increment.
    destruct (layoutTimeStamp this0 <=? Js.MAX_SAFE_INTEGER) eqn:E;
      [reflexivity | apply Z.leb_gt in E; lia]. }
  assert (Hsafe : layoutTimeStamp this1 <= Js.MAX_SAFE_INTEGER) by lia.
  destruct Hbetween as [H|H].
  - apply (triggered_advances _ _ _ Hsafe (Z.le_refl _)) in H. right. lia.
  - apply (inactive_stays_or_advances _ _ _ Hsafe (Z.le_refl _)) in H.
    destruct H as [H|H]; [now left | right; lia].
Qed.

(** A result that is applied comes from the latest call of [applyLayout],
    and the layout has been active ever since. *)
Lemma applied_result_is_latest (attributeName : option string)
    (this0 this1 : VisualClustersExtension) (run : LayoutRun)
    (evs : list Event) (sceneLayout' : SceneLayout) :
  layoutTimeStamp this0 < Js.MAX_SAFE_INTEGER ->
  applyLayout attributeName this0 = (Ok (Awaiting run), this1) ->
  applyLayout_resume run sceneLayout' (runEvents evs this1)
  <> (Ok tt, runEvents evs this1) ->
  triggeredDuring evs this1 = false /\ inactiveDuring evs this1 = false.
Proof.
  intros Hbound Hstart Happlied.
  destruct (triggeredDuring evs this1) eqn:Et;
    [exfalso; apply Happlied, applyLayout_resume_stale;
     eapply stale_after_events; eauto|].
  destruct (inactiveDuring evs this1) eqn:Ei;
    [exfalso; apply Happlied, applyLayout_resume_stale;
     eapply stale_after_events; eauto|].
  now split.
Qed.

(** C1. Take a call of [applyLayout] that suspends on
    [createDefaultLayout], made while the counter is at least 0 and below
    [2^53 - 1], so that the value the call captures is one that a later
    increment passes.  Take any sequence of events after it.  If one of
    the events called [applyLayout] again, or [layoutActive] was false at
    some point of the sequence, then the continuation run with any resolved
    layout returns at its check and leaves the extension exactly as it was:
    no scene layout or animation state is stored, no state is registered
    with the animation controller, no event is fired and no animation is
    started.  So a result that changes the extension comes from the latest
    call of [applyLayout]. *)
Theorem stale_layout_result_is_discarded :
  forall (attributeName : option string) (this0 this1 : VisualClustersExtension)
         (run : LayoutRun) (evs : list Event) (sceneLayout' : SceneLayout),
    0 <= layoutTimeStamp this0 < Js.MAX_SAFE_INTEGER ->
    applyLayout attributeName this0 = (Ok (Awaiting run), this1) ->
    (triggeredDuring evs this1 = true \/ inactiveDuring evs this1 = true ->
     applyLayout_resume run sceneLayout' (runEvents evs this1)
     = (Ok tt, runEvents evs this1)
     /\ step (On_layoutSettled run (Resolved sceneLayout')) (runEvents evs this1)
        = (runEvents evs this1, None))
    /\ (applyLayout_resume run sceneLayout' (runEvents evs this1)
        <> (Ok tt, runEvents evs this1) ->
        triggeredDuring evs this1 = false /\ inactiveDuring evs this1 = false).
Proof.
  intros attributeName this0 this1 run evs sceneLayout' [_ Hbound] Hstart.
  split.
  - intros Hbetween.
    pose proof (applyLayout_resume_stale run sceneLayout' _
                  (stale_after_events _ _ _ _ _ Hbound Hstart Hbetween)) as H.
    split; [exact H|].
    unfold step, handle, noLaunch, bindM. now rewrite H.
  - eapply applied_result_is_latest; eauto.
Qed.

(** C8. [setLayoutActive(v)] called while [layoutActive] is [v] returns at
    its first test: the extension is left exactly as it was and
    [applyLayout] is not called. *)
Theorem setLayoutActive_same_value_is_noop :
  forall (v : bool) (attributeName : option string)
         (this : VisualClustersExtension),
    layoutActive this = v ->
    setLayoutActive v attributeName this = (Ok None, this)
    /\ step (Call_setLayoutActive v attributeName) this = (this, None).
Proof.
  intros v attributeName this Hv.
  assert (H : setLayoutActive v attributeName this = (Ok None, this)).
  { unfold setLayoutActive, bindM, gets. cbv beta iota.
    now rewrite Hv, Bool.eqb_reflx. }
  split; [exact H|]. unfold step, handle. now rewrite H.
Qed.

(** After a call of [setLayoutActive(v)], whether it returned or threw,
    [layoutActive] is [v]. *)
Lemma setLayoutActive_sets (v : bool) (attributeName : option string)
    (this : VisualClustersExtension) :
  layoutActive (snd (setLayoutActive v attributeName this)) = v.
Proof.
  destruct (setLayoutActive v attributeName this) as [r this'] eqn:E.
  simpl. revert E. unfold setLayoutActive.
  unfold bindM at 1. unfold gets at 1. cbv beta iota.
  destruct (Bool.eqb (layoutActive this) v) eqn:Ev.
  { unfold ret. intros E. injection E as <- <-. now apply Bool.eqb_prop. }
  unfold bindM at 1. unfold assign at 1. cbv beta iota.
  unfold bindM at 1.
  destruct (updateButton_keeps (set_layoutActive v this)) as [Ha _].
  pose proof (updateButton_returns (set_layoutActive v this)) as Hr.
  destruct (updateButton (set_layoutActive v this)) as [r1 this1].
  simpl in Ha, Hr. subst r1. autorewrite with fields in Ha.
  cbv beta iota. destruct v; simpl; intros E.
  - destruct (applyLayout_effect attributeName this1) as (launch & Hl & _ & _ & Hk).
    revert E. unfold bindM, ret.
    destruct (applyLayout attributeName this1) as [r2 this2]. simpl in *.
    subst r2. intros E. injection E as <- <-. congruence.
  - assert (Hk : keepsLayoutState
                   (onTransitionStarted ;;>
                    assign (fun this =>
                      set_animController
                        (anim_animateTo None (animController this)) this) ;;>
                    assign (fun this =>
                      set_gizmoController
                        (gizmo_onLayoutChanged None (gizmoController this)) this) ;;>
                    ret (@None Launch))).
    { auto 10 with keeps. }
    destruct (Hk this1) as [Hk1 _]. rewrite E in Hk1. simpl in Hk1. congruence.
Qed.

(** An immediate second call of [setLayoutActive(v)] does nothing. *)
Lemma setLayoutActive_twice (v : bool) (a a' : option string)
    (this : VisualClustersExtension) :
  setLayoutActive v a' (snd (setLayoutActive v a this))
  = (Ok None, snd (setLayoutActive v a this)).
Proof.
  unfold setLayoutActive at 1. unfold bindM at 1. unfold gets at 1.
  cbv beta iota. now rewrite setLayoutActive_sets, Bool.eqb_reflx.
Qed.

End ExtensionFacts.

Lemma stale_layout_result_is_discarded_witness :
  applyLayout None clickedExtension = (Ok (Awaiting firstRun), awaitingExtension)
  /\ triggeredDuring attributeChosen awaitingExtension = true
  /\ layoutTimeStamp (runEvents attributeChosen awaitingExtension) = 2
  /\ applyLayout_resume firstRun [] (runEvents attributeChosen awaitingExtension)
     = (Ok tt, runEvents attributeChosen awaitingExtension).
Proof.
  split; [reflexivity|]. split; [reflexivity|]. split; [reflexivity|].
  exact (proj1 (proj1 (@stale_layout_result_is_discarded recording None
                         clickedExtension awaitingExtension firstRun
                         attributeChosen []
                         (conj (Z.le_refl 0) eq_refl) eq_refl)
                  (or_introl eq_refl))).
Defined.

Lemma setLayoutActive_same_value_is_noop_witness :
  layoutActive freshExtension = false
  /\ setLayoutActive false None freshExtension = (Ok None, freshExtension).
Proof.
  split; [reflexivity|].
  exact (proj1 (@setLayoutActive_same_value_is_noop recording false None
                  freshExtension eq_refl)).
Defined.

(** * Further properties of the code *)

(** ** Arrays without duplicates *)

Lemma setAddAll_NoDup_app (a members : list Js.value) :
  NoDup (members ++ a) -> setAddAll members a = members ++ a.
Proof.
  revert members.
  induction a as [|x rest IH]; intros members Hnd; simpl.
  - now rewrite app_nil_r.
  - assert (Hx : existsb (Js.sameValueZero x) members = false).
    { destruct (existsb (Js.sameValueZero x) members) eqn:E; [|reflexivity].
      apply existsb_sameValueZero in E. exfalso.
      apply NoDup_remove_2 in Hnd. apply Hnd, in_or_app. now left. }
    rewrite Hx, IH; rewrite <- app_assoc; [reflexivity | exact Hnd].
Qed.

(** X1. [uniq] returns an array without duplicates that has the members of its
    argument; an array without duplicates is returned as it is, so [uniq]
    applied twice is [uniq]. *)
Theorem uniq_deduplicates :
  forall a : list Js.value,
    NoDup (uniq a)
    /\ (forall x, In x (uniq a) <-> In x a)
    /\ (NoDup a -> uniq a = a)
    /\ uniq (uniq a) = uniq a.
Proof.
  intros a.
  assert (Hid : forall b, NoDup b -> uniq b = b).
  { intros b Hb. unfold uniq. now rewrite setAddAll_NoDup_app. }
  split; [apply uniq_NoDup|]. split; [intros x; apply uniq_In|].
  split; [apply Hid | apply Hid, uniq_NoDup].
Qed.

Lemma uniq_deduplicates_witness :
  NoDup (uniq [Js.Num 43; Js.Num 42; Js.Num 43])
  /\ uniq [Js.Num 43; Js.Num 42] = [Js.Num 43; Js.Num 42].
Proof.
  split.
  - exact (proj1 (uniq_deduplicates [Js.Num 43; Js.Num 42; Js.Num 43])).
  - apply (proj1 (proj2 (proj2 (uniq_deduplicates [Js.Num 43; Js.Num 42])))).
    constructor; [intros [H|[]]; discriminate|].
    constructor; [intros []|]. constructor.
Defined.

(** ** The chunks of the leaf query *)

Lemma chunksOf_concat (n fuel : nat) (a : list Z) :
  (0 < n)%nat -> (length a <= fuel)%nat -> concat (chunksOf fuel n a) = a.
Proof.
  intros Hn. revert a.
  induction fuel as [|fuel IH]; intros a Hlen; simpl.
  - destruct a; [reflexivity | simpl in Hlen; lia].
  - destruct a as [|x rest]; [reflexivity|].
    change (concat (firstn n (x :: rest)
                    :: chunksOf fuel n (skipn n (x :: rest))))
      with (firstn n (x :: rest)
            ++ concat (chunksOf fuel n (skipn n (x :: rest)))).
    rewrite IH; [apply firstn_skipn|].
    rewrite length_skipn. simpl length in *. lia.
Qed.

Lemma chunksOf_sizes (n fuel : nat) (a : list Z) :
  (0 < n)%nat ->
  Forall (fun chunk => (1 <= length chunk <= n)%nat) (chunksOf fuel n a).
Proof.
  intros Hn. revert a.
  induction fuel as [|fuel IH]; intros a; simpl; [constructor|].
  destruct a as [|x rest]; [constructor|].
  constructor; [|apply IH].
  rewrite length_firstn. simpl length. lia.
Qed.

(** X10. The chunks of [findActualLeafNodes] put end to end are the leaves, in
    their order, each leaf once; no chunk is empty and none has more than
    1000 ids. *)
Theorem chunks_cover_the_leaves :
  forall allDbIds : list Z,
    concat (chunksOf (length allDbIds) chunkSize allDbIds) = allDbIds
    /\ Forall (fun chunk => (1 <= length chunk <= 1000)%nat)
              (chunksOf (length allDbIds) chunkSize allDbIds).
Proof.
  intros allDbIds.
  assert (Hn : (0 < chunkSize)%nat) by (unfold chunkSize; lia).
  split; [now apply chunksOf_concat | now apply chunksOf_sizes].
Qed.

(** ** The cache slot *)

Lemma findActualLeafNodes_hit (model : Model) (useParallel : bool)
    (this : BaseExtension) (cached : list Js.value) :
  cachedDbIds this = Some cached ->
  findActualLeafNodes model true useParallel this = (Resolved cached, this).
Proof. intros H. unfold findActualLeafNodes, findActualLeafNodes_settle. now rewrite H. Qed.

(** An execution of [findActualLeafNodes] on a miss. *)
Lemma findActualLeafNodes_miss (model : Model) (useCache useParallel : bool)
    (this : BaseExtension) :
  (if useCache then cachedDbIds this else None) = None ->
  findActualLeafNodes model useCache useParallel this
  = match findLeafNodes model with
    | Rejected e => (Rejected e, this)
    | Pending => (Pending, this)
    | Resolved allDbIds =>
        match queryLeafProperties model useParallel allDbIds with
        | Failure e => (Rejected e, this)
        | Answer props =>
            match forEach_actualLeaf this props [] with
            | Throw e => (Rejected e, this)
            | Ok dbIds =>
                (Resolved (uniq dbIds),
                 if useCache then set_cachedDbIds (Some (uniq dbIds)) this
                 else this)
            end
        end
    end.
Proof. intros H. unfold findActualLeafNodes, findActualLeafNodes_settle. now rewrite H. Qed.

Lemma findActualLeafNodes_settle_slot (model : Model)
    (useCache useParallel : bool) (this : BaseExtension)
    (slot : option (list Js.value)) :
  fst (findActualLeafNodes_settle model useCache useParallel
         (set_cachedDbIds slot this))
  = fst (findActualLeafNodes_settle model useCache useParallel this).
Proof.
  unfold findActualLeafNodes_settle.
  destruct (findLeafNodes model) as [leaves|e|]; try reflexivity.
  destruct (queryLeafProperties model useParallel leaves) as [props|e];
    try reflexivity.
  assert (H : forall props dbIds,
             forEach_actualLeaf (set_cachedDbIds slot this) props dbIds
             = forEach_actualLeaf this props dbIds).
  { clear. induction props as [|item rest IH]; intros dbIds; [reflexivity|].
    simpl. change (actualLeaf (set_cachedDbIds slot this) item)
             with (actualLeaf this item).
    destruct (actualLeaf this item); [apply IH | reflexivity]. }
  rewrite H. now destruct (forEach_actualLeaf this props []).
Qed.

Lemma findActualLeafNodes_settle_write (model : Model)
    (useCache useParallel : bool) (this : BaseExtension) :
  match fst (findActualLeafNodes_settle model useCache useParallel this) with
  | Resolved dbIds =>
      snd (findActualLeafNodes_settle model useCache useParallel this)
      = if useCache then set_cachedDbIds (Some dbIds) this else this
  | _ => snd (findActualLeafNodes_settle model useCache useParallel this) = this
  end.
Proof.
  unfold findActualLeafNodes_settle.
  destruct (findLeafNodes model) as [leaves|e|]; try reflexivity.
  destruct (queryLeafProperties model useParallel leaves) as [props|e];
    try reflexivity.
  now destruct (forEach_actualLeaf this props []).
Qed.

(** X11. The cache slot is tested when [findActualLeafNodes] is called and
    written when a call that missed settles, without a second test.  A call
    that finds the slot filled resolves to its array and writes nothing.
    The settlement of a miss that resolves writes its array, with
    [useCache], whatever the slot holds by then; without [useCache], or
    when it does not resolve, it leaves the extension as it is.  The array
    does not depend on the slot, and [geometryNames] is never changed.  So
    when two calls with [useCache] have missed before either settles, the
    slot ends with the array of the one that settles last. *)
Theorem cache_slot_holds_the_last_settled_miss :
  forall (model : Model) (useCache useParallel : bool) (this : BaseExtension),
    (forall cached,
       useCache = true -> cachedDbIds this = Some cached ->
       findActualLeafNodes model useCache useParallel this
       = (Resolved cached, this))
    /\ (forall dbIds,
          fst (findActualLeafNodes_settle model useCache useParallel this)
          = Resolved dbIds ->
          snd (findActualLeafNodes_settle model useCache useParallel this)
          = if useCache then set_cachedDbIds (Some dbIds) this else this)
    /\ ((forall dbIds,
           fst (findActualLeafNodes_settle model useCache useParallel this)
           <> Resolved dbIds) ->
        snd (findActualLeafNodes_settle model useCache useParallel this) = this)
    /\ (forall slot,
          fst (findActualLeafNodes_settle model useCache useParallel
                 (set_cachedDbIds slot this))
          = fst (findActualLeafNodes_settle model useCache useParallel this))
    /\ geometryNames
         (snd (findActualLeafNodes_settle model useCache useParallel this))
       = geometryNames this
    /\ (forall model' useParallel' dbIds',
          fst (findActualLeafNodes_settle model' true useParallel' this)
          = Resolved dbIds' ->
          fst (findActualLeafNodes_settle model' true useParallel'
                 (snd (findActualLeafNodes_settle model true useParallel this)))
          = Resolved dbIds'
          /\ cachedDbIds
               (snd (findActualLeafNodes_settle model' true useParallel'
                       (snd (findActualLeafNodes_settle model true useParallel
                               this))))
             = Some dbIds').
Proof.
  intros model useCache useParallel this.
  pose proof (findActualLeafNodes_settle_write model useCache useParallel this)
    as Hw.
  split.
  { intros cached -> Hc. now apply findActualLeafNodes_hit. }
  split.
  { intros dbIds E. now rewrite E in Hw. }
  split.
  { intros Hn.
    destruct (fst (findActualLeafNodes_settle model useCache useParallel this))
      as [dbIds|e|]; [now destruct (Hn dbIds) | exact Hw | exact Hw]. }
  split; [intros slot; apply findActualLeafNodes_settle_slot|].
  split.
  { destruct (fst (findActualLeafNodes_settle model useCache useParallel this))
      as [dbIds|e|]; rewrite Hw; [now destruct useCache | reflexivity
                                  | reflexivity]. }
  intros model' useParallel' dbIds' E'.
  assert (Hfirst : exists slot,
             snd (findActualLeafNodes_settle model true useParallel this)
             = set_cachedDbIds slot this).
  { pose proof (findActualLeafNodes_settle_write model true useParallel this)
      as Hw1.
    destruct (fst (findActualLeafNodes_settle model true useParallel this))
      as [dbIds|e|]; rewrite Hw1; eauto;
      exists (cachedDbIds this); now destruct this. }
  destruct Hfirst as [slot ->].
  assert (E2 : fst (findActualLeafNodes_settle model' true useParallel'
                      (set_cachedDbIds slot this)) = Resolved dbIds').
  { now rewrite findActualLeafNodes_settle_slot. }
  split; [exact E2|].
  pose proof (findActualLeafNodes_settle_write model' true useParallel'
                (set_cachedDbIds slot this)) as Hw2.
  rewrite E2 in Hw2. now rewrite Hw2.
Qed.

Lemma cache_slot_holds_the_last_settled_miss_witness :
  cachedDbIds
    (snd (findActualLeafNodes_settle beamScene true true BaseExtension_new))
  = Some [Js.Num 5; Js.Num 6]
  /\ cachedDbIds
       (snd (findActualLeafNodes_settle assemblyScene true true
               (snd (findActualLeafNodes_settle beamScene true true
                       BaseExtension_new))))
     = Some [Js.Num 43; Js.Num 42].
Proof.
  split; [reflexivity|].
  exact (proj2 (proj2 (proj2 (proj2 (proj2 (proj2
           (cache_slot_holds_the_last_settled_miss beamScene true true
              BaseExtension_new)))))
           assemblyScene true [Js.Num 43; Js.Num 42] eq_refl)).
Defined.

(** ** What leaf resolution returns *)

Lemma forEach_actualLeaf_Ok (this : BaseExtension) (props : list PropResult)
    (dbIds result : list Js.value) :
  forEach_actualLeaf this props dbIds = Ok result ->
  exists values,
    result = dbIds ++ values
    /\ Forall2 (fun item v => actualLeaf this item = Ok v) props values.
Proof.
  revert dbIds.
  induction props as [|item rest IH]; intros dbIds H; simpl in H.
  - injection H as <-. exists []. split; [now rewrite app_nil_r | constructor].
  - destruct (actualLeaf this item) as [v|e] eqn:E; simpl in H; [|discriminate].
    destruct (IH _ H) as (values & -> & Hall).
    exists (v :: values). split; [now rewrite <- app_assoc | now constructor].
Qed.

Lemma forEach_actualLeaf_total (this : BaseExtension) (props : list PropResult)
    (dbIds : list Js.value) :
  Forall (fun item => exists v, actualLeaf this item = Ok v) props ->
  exists result, forEach_actualLeaf this props dbIds = Ok result.
Proof.
  revert dbIds.
  induction props as [|item rest IH]; intros dbIds H; simpl; [eauto|].
  inversion H as [|? ? [v Hv] Hrest]; subst. rewrite Hv. simpl. auto.
Qed.

Lemma Forall2_actualLeaf_In (this : BaseExtension) (props : list PropResult)
    (values : list Js.value) :
  Forall2 (fun item v => actualLeaf this item = Ok v) props values ->
  forall v,
    In v values <-> exists item, In item props /\ actualLeaf this item = Ok v.
Proof.
  intros Hall v. split.
  - intros Hin. induction Hall as [|item w ps ws Hw _ IH]; [contradiction|].
    destruct Hin as [->|Hin].
    + exists item. split; [now left | assumption].
    + destruct (IH Hin) as (it & Hit & Hv). exists it. split; [now right | auto].
  - intros (item & Hin & Hv).
    induction Hall as [|it w ps ws Hw _ IH]; [contradiction|].
    destruct Hin as [->|Hin].
    + left. congruence.
    + right. auto.
Qed.

(** X12. On a miss that resolves, the array has no duplicates and its members
    are exactly the values the loop gives for the records of the leaf
    query: the id of the record, or the value of its "parent" property. *)
Theorem resolved_leaves_come_from_the_records :
  forall (model : Model) (useCache useParallel : bool)
         (this this' : BaseExtension) (dbIds : list Js.value),
    (if useCache then cachedDbIds this else None) = None ->
    findActualLeafNodes model useCache useParallel this = (Resolved dbIds, this') ->
    exists leaves props,
      findLeafNodes model = Resolved leaves
      /\ queryLeafProperties model useParallel leaves = Answer props
      /\ NoDup dbIds
      /\ (forall v,
            In v dbIds <->
            exists item, In item props /\ actualLeaf this item = Ok v)
      /\ (forall v,
            In v dbIds ->
            exists item,
              In item props
              /\ (v = Js.Num (item_dbId item)
                  \/ exists displayProperty,
                       parentProperty item = Some displayProperty
                       /\ v = displayValue displayProperty
                       /\ Js.truthy v = true
                       /\ isGeometry this item = true)).
Proof.
  intros model useCache useParallel this this' dbIds Hmiss.
  rewrite (findActualLeafNodes_miss _ _ _ _ Hmiss).
  destruct (findLeafNodes model) as [leaves|e|] eqn:Hl; try discriminate.
  destruct (queryLeafProperties model useParallel leaves) as [props|e] eqn:Hq;
    try discriminate.
  destruct (forEach_actualLeaf this props []) as [values|e] eqn:E;
    try discriminate.
  intros H. injection H as <- _.
  destruct (forEach_actualLeaf_Ok _ _ _ _ E) as (vs & -> & Hall). simpl.
  assert (Hmem : forall v,
            In v (uniq vs) <->
            exists item, In item props /\ actualLeaf this item = Ok v).
  { intros v. rewrite uniq_In. now apply Forall2_actualLeaf_In. }
  exists leaves, props. split; [reflexivity|]. split; [exact Hq|].
  split; [apply uniq_NoDup|]. split; [exact Hmem|].
  intros v Hin. apply Hmem in Hin. destruct Hin as (item & Hin & Hv).
  exists item. split; [assumption|].
  unfold actualLeaf in Hv. unfold isGeometry, parentProperty.
  destruct (hasGeometryProperty this item || hasGeometryName this item);
    [|left; congruence].
  destruct (find _ (item_properties item)) as [p|]; [|discriminate].
  destruct (Js.truthy (displayValue p)) eqn:Et; [|left; congruence].
  right. exists p. injection Hv as <-. auto.
Qed.

Lemma resolved_leaves_come_from_the_records_witness :
  exists leaves props,
    findLeafNodes assemblyScene = Resolved leaves
    /\ queryLeafProperties assemblyScene true leaves = Answer props
    /\ NoDup [Js.Num 43; Js.Num 42]
    /\ (forall v,
          In v [Js.Num 43; Js.Num 42] <->
          exists item, In item props /\ actualLeaf BaseExtension_new item = Ok v)
    /\ (forall v,
          In v [Js.Num 43; Js.Num 42] ->
          exists item,
            In item props
            /\ (v = Js.Num (item_dbId item)
                \/ exists displayProperty,
                     parentProperty item = Some displayProperty
                     /\ v = displayValue displayProperty
                     /\ Js.truthy v = true
                     /\ isGeometry BaseExtension_new item = true)).
Proof.
  exact (resolved_leaves_come_from_the_records assemblyScene true true
           BaseExtension_new _ _ eq_refl eq_refl).
Defined.

(** X13. On a miss, with the object tree and the leaf query answered, leaf
    resolution resolves exactly when every record that is a geometry
    primitive has a "parent" property; otherwise it is rejected. *)
Theorem resolution_needs_parents_of_geometry :
  forall (model : Model) (useCache useParallel : bool) (this : BaseExtension)
         (leaves : list Z) (props : list PropResult),
    (if useCache then cachedDbIds this else None) = None ->
    findLeafNodes model = Resolved leaves ->
    queryLeafProperties model useParallel leaves = Answer props ->
    ((exists dbIds,
        fst (findActualLeafNodes model useCache useParallel this) = Resolved dbIds)
     <-> Forall (fun item =>
                   isGeometry this item = true -> parentProperty item <> None)
                props)
    /\ ((exists e,
           fst (findActualLeafNodes model useCache useParallel this) = Rejected e)
        <-> Exists (fun item =>
                      isGeometry this item = true /\ parentProperty item = None)
                   props).
Proof.
  intros model useCache useParallel this leaves props Hmiss Hleaves Hquery.
  rewrite (findActualLeafNodes_miss _ _ _ _ Hmiss), Hleaves, Hquery.
  clear Hleaves Hquery.
  assert (Hitem : forall item,
            (exists v, actualLeaf this item = Ok v)
            <-> (isGeometry this item = true -> parentProperty item <> None)).
  { intros item. unfold actualLeaf, isGeometry, parentProperty.
    destruct (hasGeometryProperty this item || hasGeometryName this item).
    - destruct (find _ (item_properties item)) as [p|].
      + split; [discriminate|]. intros _.
        destruct (Js.truthy (displayValue p)); eauto.
      + split; [intros [v Hv]; discriminate | intros H; now elim (H eq_refl)].
    - split; [discriminate | eauto]. }
  assert (Hok : (exists values, forEach_actualLeaf this props [] = Ok values)
                <-> Forall (fun item =>
                      isGeometry this item = true -> parentProperty item <> None)
                      props).
  { split.
    - intros [values Hv]. destruct (forEach_actualLeaf_Ok _ _ _ _ Hv)
        as (vs & _ & Hall).
      clear Hv. induction Hall as [|item v ps ws Hv _ IH]; constructor.
      + apply Hitem. exists v. exact Hv.
      + exact IH.
    - intros Hall. apply forEach_actualLeaf_total.
      eapply Forall_impl; [|exact Hall]. intros item. apply Hitem. }
  split.
  - rewrite <- Hok.
    destruct (forEach_actualLeaf this props []) as [values|e]; simpl; split;
      eauto; intros [x Hx]; discriminate.
  - split.
    + intros [e He].
      destruct (forEach_actualLeaf this props []) as [values|e'] eqn:E;
        [discriminate|].
      apply Exists_exists.
      destruct (Exists_dec (fun item =>
                  isGeometry this item = true /\ parentProperty item = None) props)
        as [Hex|Hnex].
      { intros item. destruct (isGeometry this item), (parentProperty item);
          [right | left | right | right]; intuition congruence. }
      * now apply Exists_exists in Hex.
      * exfalso.
        assert (Hall : Forall (fun item =>
                  isGeometry this item = true -> parentProperty item <> None)
                  props).
        { apply Forall_forall. intros item Hin Hg Hp. apply Hnex.
          apply Exists_exists. exists item. auto. }
        assert (Hall' : Forall (fun item => exists v, actualLeaf this item = Ok v)
                          props).
        { eapply Forall_impl; [|exact Hall]. intros item. apply Hitem. }
        destruct (forEach_actualLeaf_total this props [] Hall') as [r Hr].
        congruence.
    + intros Hex. apply Exists_exists in Hex.
      destruct Hex as (item & Hin & Hg & Hp).
      destruct (forEach_actualLeaf_throw this props item
                  (TypeError "displayProperty is undefined") [] Hin) as [e' He'].
      { apply actualLeaf_no_parent; assumption. }
      rewrite He'. simpl. eauto.
Qed.

Lemma resolution_needs_parents_of_geometry_witness :
  exists dbIds,
    fst (findActualLeafNodes assemblyScene true true BaseExtension_new)
    = Resolved dbIds.
Proof.
  apply (proj1 (resolution_needs_parents_of_geometry assemblyScene true true
                  BaseExtension_new [43; 44]
                  (propsOf assemblyTable [Js.Num 43; Js.Num 44])
                  eq_refl eq_refl eq_refl)).
  repeat constructor; discriminate.
Defined.

(** X14. With [useParallel] and no leaf, no chunk is made and no query is sent:
    the resolution gives the empty array whatever the property database
    would answer, and with [useCache] the empty array fills the slot and is
    returned to every later call.  Without [useParallel] the one query is
    sent for no id, and its failure rejects the resolution. *)
Theorem no_leaves_no_chunk_query :
  forall (model : Model) (useCache : bool) (this : BaseExtension),
    (if useCache then cachedDbIds this else None) = None ->
    findLeafNodes model = Resolved [] ->
    findActualLeafNodes model useCache true this
    = (Resolved [], if useCache then set_cachedDbIds (Some []) this else this)
    /\ (forall model' useParallel,
          findActualLeafNodes model' true useParallel
            (set_cachedDbIds (Some []) this)
          = (Resolved [], set_cachedDbIds (Some []) this))
    /\ (forall e,
          getBulkProperties model [] = Failure e ->
          findActualLeafNodes model useCache false this = (Rejected e, this)).
Proof.
  intros model useCache this Hmiss Hleaves. split; [|split].
  - rewrite (findActualLeafNodes_miss _ _ _ _ Hmiss), Hleaves. reflexivity.
  - intros model' useParallel. now apply findActualLeafNodes_hit.
  - intros e He.
    rewrite (findActualLeafNodes_miss _ _ _ _ Hmiss), Hleaves.
    unfold queryLeafProperties. simpl. now rewrite He.
Qed.

Lemma no_leaves_no_chunk_query_witness :
  findActualLeafNodes emptyScene true true BaseExtension_new
  = (Resolved [], set_cachedDbIds (Some []) BaseExtension_new)
  /\ findActualLeafNodes emptyScene true false BaseExtension_new
     = (Rejected (HostError "no property database"), BaseExtension_new).
Proof.
  split.
  - exact (proj1 (no_leaves_no_chunk_query emptyScene true BaseExtension_new
                    eq_refl eq_refl)).
  - exact (proj2 (proj2 (no_leaves_no_chunk_query emptyScene true
                           BaseExtension_new eq_refl eq_refl))
             (HostError "no property database") eq_refl).
Defined.

(** ** Geometry names *)

Lemma toLowerCase_empty (s : string) :
  String.eqb (Js.toLowerCase s) "" = String.eqb s "".
Proof. now destruct s. Qed.

(** X15. The test on the name of a record looks at the lower-case form of the
    name only: records that differ by the case of their names are treated
    alike, and a non-empty name whose lower-case form is one of the geometry
    names marks a geometry primitive. *)
Theorem geometry_name_match_ignores_case :
  forall (this : BaseExtension) (d : Z) (properties : list Property)
         (n1 n2 : string),
    (Js.toLowerCase n1 = Js.toLowerCase n2 ->
     actualLeaf this {| item_dbId := d; item_name := Some n1;
                        item_properties := properties |}
     = actualLeaf this {| item_dbId := d; item_name := Some n2;
                          item_properties := properties |})
    /\ (In (Js.toLowerCase n1) (geometryNames this) -> n1 <> "" ->
        isGeometry this {| item_dbId := d; item_name := Some n1;
                           item_properties := properties |} = true).
Proof.
  intros this d properties n1 n2.
  assert (Hname : forall n,
            hasGeometryName this {| item_dbId := d; item_name := Some n;
                                    item_properties := properties |}
            = negb (String.eqb (Js.toLowerCase n) "")
              && existsb (String.eqb (Js.toLowerCase n)) (geometryNames this)).
  { intros n. unfold hasGeometryName. simpl. now rewrite toLowerCase_empty. }
  split.
  - intros E. unfold actualLeaf.
    rewrite !Hname, E. reflexivity.
  - intros Hin Hne. unfold isGeometry. rewrite Hname.
    apply orb_true_iff. right. apply andb_true_iff. split.
    + rewrite toLowerCase_empty. apply negb_true_iff.
      destruct (String.eqb n1 "") eqn:E; [|reflexivity].
      apply String.eqb_eq in E. contradiction.
    + apply existsb_exists. exists (Js.toLowerCase n1).
      split; [assumption | apply String.eqb_refl].
Qed.

Lemma geometry_name_match_ignores_case_witness :
  actualLeaf BaseExtension_new
    {| item_dbId := 44; item_name := Some "MESH";
       item_properties := [prop "parent" (Js.Num 42)] |}
  = actualLeaf BaseExtension_new
      {| item_dbId := 44; item_name := Some "mesh";
         item_properties := [prop "parent" (Js.Num 42)] |}.
Proof.
  exact (proj1 (geometry_name_match_ignores_case BaseExtension_new 44
                  [prop "parent" (Js.Num 42)] "MESH" "mesh") eq_refl).
Defined.

(** ** Property names *)

Lemma names_add_In (propNames : list string) (n x : string) :
  In x (names_add propNames n) <-> In x propNames \/ x = n.
Proof.
  unfold names_add.
  destruct (existsb (String.eqb n) propNames) eqn:E.
  - apply existsb_exists in E. destruct E as (y & Hy & E).
    apply String.eqb_eq in E. subst y.
    split; [auto | intros [H| ->]; assumption].
  - rewrite in_app_iff. simpl. split; intros [H|H]; auto.
    destruct H as [H|[]]; auto.
Qed.

Lemma names_add_NoDup (propNames : list string) (n : string) :
  NoDup propNames -> NoDup (names_add propNames n).
Proof.
  intros Hnd. unfold names_add.
  destruct (existsb (String.eqb n) propNames) eqn:E; [assumption|].
  apply NoDup_app; [assumption | repeat constructor; auto | ].
  intros x Hx [Hn|[]]. subst x.
  assert (existsb (String.eqb n) propNames = true).
  { apply existsb_exists. exists n. split; [assumption | apply String.eqb_refl]. }
  congruence.
Qed.

Lemma addProperties_spec (properties : list Property) (propNames : list string) :
  NoDup propNames ->
  NoDup (addProperties properties propNames)
  /\ forall x,
       In x (addProperties properties propNames) <->
       In x propNames \/ In x (map displayName properties).
Proof.
  revert propNames.
  induction properties as [|p rest IH]; intros propNames Hnd; simpl.
  - split; [assumption | intros x; tauto].
  - destruct (IH _ (names_add_NoDup _ (displayName p) Hnd)) as [Hnd' Hin].
    split; [assumption|]. intros x. rewrite Hin, names_add_In.
    split; intros H; intuition auto.
Qed.

Lemma addResults_spec (results : list PropResult) (propNames : list string) :
  NoDup propNames ->
  NoDup (addResults results propNames)
  /\ forall x,
       In x (addResults results propNames) <->
       In x propNames \/ In x (displayNamesOf results).
Proof.
  revert propNames.
  induction results as [|r rest IH]; intros propNames Hnd; simpl.
  - split; [assumption | intros x; tauto].
  - destruct (addProperties_spec (item_properties r) propNames Hnd) as [Hnd1 Hin1].
    destruct (IH _ Hnd1) as [Hnd' Hin].
    split; [assumption|]. intros x.
    rewrite Hin, Hin1. unfold displayNamesOf. simpl. rewrite in_app_iff.
    fold (displayNamesOf rest). tauto.
Qed.



(** X17. [enumAllProperties] is never rejected: a leaf resolution that is
    rejected is caught and its model is passed over.  When it resolves, no
    name occurs twice and every name is the display name of a property that
    the query of a model with a falsy [is3D] returned.  The models with a
    truthy [is3D] are not looked at. *)
Theorem enumerated_names :
  forall (is3D : Model -> bool) (models : list Model) (this : BaseExtension),
    (forall e, fst (enumAllProperties is3D models this) <> Rejected e)
    /\ (forall names,
          fst (enumAllProperties is3D models this) = Resolved names ->
          NoDup names
          /\ forall n,
               In n names ->
               exists model dbIds results,
                 In model models
                 /\ is3D model = false
                 /\ getBulkProperties model dbIds = Answer results
                 /\ In n (displayNamesOf results))
    /\ enumAllProperties is3D models this
       = enumAllProperties is3D (filter (fun model => negb (is3D model)) models)
           this.
Proof.
  intros is3D models this. unfold enumAllProperties.
  assert (Hgen : forall models names this,
            NoDup names ->
            (forall e, fst (enumAllProperties_from is3D models names this)
                       <> Rejected e)
            /\ (forall result,
                  fst (enumAllProperties_from is3D models names this)
                  = Resolved result ->
                  NoDup result
                  /\ forall n,
                       In n result ->
                       In n names
                       \/ exists model dbIds results,
                            In model models
                            /\ is3D model = false
                            /\ getBulkProperties model dbIds = Answer results
                            /\ In n (displayNamesOf results))).
  { clear models this.
    induction models as [|model rest IH]; intros names this Hnd; simpl.
    - split; [discriminate|]. intros result H. injection H as <-. auto.
    - destruct (is3D model) eqn:E3.
      { destruct (IH names this Hnd) as [Hrej Hres]. split; [assumption|].
        intros result H. destruct (Hres result H) as [Hn Hin].
        split; [assumption|]. intros n Hn'.
        destruct (Hin n Hn') as [?|(m & ids & rs & Hm & ?)]; [now left|].
        right. exists m, ids, rs. simpl. auto. }
      destruct (findActualLeafNodes model true true this) as [[dbIds|e|] this'].
      + destruct (getBulkProperties model dbIds) as [results|e] eqn:Eq.
        * destruct (addResults_spec results names Hnd) as [Hnd1 Hin1].
          destruct (IH (addResults results names) this' Hnd1) as [Hrej Hres].
          split; [assumption|].
          intros result H. destruct (Hres result H) as [Hn Hin].
          split; [assumption|]. intros n Hn'.
          destruct (Hin n Hn') as [Hold|(m & ids & rs & Hm & ?)].
          -- apply Hin1 in Hold. destruct Hold as [?|Hnew]; [now left|].
             right. exists model, dbIds, results. simpl. auto.
          -- right. exists m, ids, rs. simpl. auto.
        * split; simpl; intros; discriminate.
      + destruct (IH names this' Hnd) as [Hrej Hres]. split; [assumption|].
        intros result H. destruct (Hres result H) as [Hn Hin].
        split; [assumption|]. intros n Hn'.
        destruct (Hin n Hn') as [?|(m & ids & rs & Hm & ?)]; [now left|].
        right. exists m, ids, rs. simpl. auto.
      + split; simpl; intros; discriminate. }
  destruct (Hgen models [] this (NoDup_nil _)) as [Hrej Hres].
  split; [assumption|]. split.
  - intros names H. destruct (Hres names H) as [Hn Hin].
    split; [assumption|]. intros n Hn'.
    destruct (Hin n Hn') as [[]|?]. assumption.
  - clear Hgen Hrej Hres. generalize (@nil string) as names. revert this.
    induction models as [|model rest IH]; intros this names; simpl;
      [reflexivity|].
    destruct (is3D model) eqn:E3; simpl; [apply IH|].
    rewrite E3.
    destruct (findActualLeafNodes model true true this) as [[dbIds|e|] this'];
      auto.
    destruct (getBulkProperties model dbIds); auto.
Qed.

Lemma enumerated_names_witness :
  (forall e,
     fst (enumAllProperties (fun _ => false) [orphanScene; assemblyScene]
            BaseExtension_new)
     <> Rejected e)
  /\ NoDup ["parent"; "Category"].
Proof.
  split.
  - exact (proj1 (enumerated_names (fun _ => false)
                    [orphanScene; assemblyScene] BaseExtension_new)).
  - exact (proj1 (proj1 (proj2 (enumerated_names (fun _ => false)
                                  [orphanScene; assemblyScene]
                                  BaseExtension_new))
                    ["parent"; "Category"] eq_refl)).
Defined.

(** What the dropdown of the example scenes would offer. *)
Example enumerated_names_of_two_scenes :
  fst (enumAllProperties (fun _ => false) [orphanScene; assemblyScene]
         BaseExtension_new)
  = Resolved ["parent"; "Category"].
Proof. reflexivity. Qed.

(** ** The clusters of a build *)

Lemma ownProperty_None (o : ClustersByName) (key : string) :
  ownProperty o key = None <-> ~ In key (map fst o).
Proof.
  induction o as [|[k c] rest IH]; simpl; [tauto|].
  destruct (String.eqb k key) eqn:E.
  - apply String.eqb_eq in E. split; [discriminate | intros H; elim H; auto].
  - apply String.eqb_neq in E. rewrite IH. tauto.
Qed.

Lemma shapeIds_push_keys (o : ClustersByName) (key : string) (shapeId : ShapeId) :
  map (fun entry => (fst entry, name (snd entry))) (shapeIds_push o key shapeId)
  = map (fun entry => (fst entry, name (snd entry))) o.
Proof.
  induction o as [|[k c] rest IH]; simpl; [reflexivity|].
  destruct (String.eqb k key); simpl; [reflexivity | now rewrite IH].
Qed.

Lemma enumNodeChildren_callback_keys (model : Model) (key : string) (own : bool)
    (children : list Z) (o o' : ClustersByName) :
  enumNodeChildren_callback model children key own o = Ok o' ->
  map (fun entry => (fst entry, name (snd entry))) o'
  = map (fun entry => (fst entry, name (snd entry))) o.
Proof.
  revert o.
  induction children as [|child rest IH]; intros o H; simpl in H.
  - now injection H as <-.
  - destruct (hasVisibleFragments model child) as [[]|]; simpl in H;
      try discriminate.
    + unfold cluster_push in H. destruct own; simpl in H; [|discriminate].
      rewrite (IH _ H). apply shapeIds_push_keys.
    + eauto.
Qed.

Lemma keyNames_fst (o : ClustersByName) : map fst (keyNames o) = map fst o.
Proof. unfold keyNames. now rewrite map_map. Qed.

Lemma keysWellFormed_same (o o' : ClustersByName) :
  map (fun entry => (fst entry, name (snd entry))) o'
  = map (fun entry => (fst entry, name (snd entry))) o ->
  keysWellFormed o -> keysWellFormed o'.
Proof. unfold keysWellFormed, keyNames. now intros ->. Qed.

Lemma keysWellFormed_inherited (o : ClustersByName) (key : string) :
  keysWellFormed o -> In key objectPrototypeKeys -> getProperty o key = Inherited.
Proof.
  intros [_ Hall] Hin. unfold getProperty.
  assert (Hnone : ownProperty o key = None).
  { apply ownProperty_None. rewrite <- keyNames_fst. intros Hk.
    apply in_map_iff in Hk. destruct Hk as (kn & <- & Hkn).
    rewrite Forall_forall in Hall. now apply (Hall kn Hkn). }
  rewrite Hnone.
  assert (E : existsb (String.eqb key) objectPrototypeKeys = true).
  { apply existsb_exists. exists key. split; [assumption | apply String.eqb_refl]. }
  now rewrite E.
Qed.

Lemma onDone_item_keys (model : Model) (searchAncestors : bool)
    (item : PropResult) (o o' : ClustersByName) :
  keysWellFormed o ->
  onDone_item model searchAncestors item o = Ok o' ->
  keysWellFormed o'.
Proof.
  intros Hwf. unfold onDone_item.
  destruct (item_properties item) as [|property0 rest]; [discriminate|].
  set (category := displayValue property0).
  set (key := Js.toPropertyKey category).
  assert (Hnew : getProperty o key = NoProperty ->
                 keysWellFormed (o ++ [(key, newCluster category)])).
  { unfold getProperty.
    destruct (ownProperty o key) eqn:Eo; [discriminate|].
    destruct (existsb (String.eqb key) objectPrototypeKeys) eqn:Ep;
      [discriminate|].
    intros _. destruct Hwf as [Hnd Hall].
    unfold keysWellFormed, keyNames in *. rewrite !map_app. simpl. split.
    - apply NoDup_app; [assumption | repeat constructor; auto|].
      intros k Hk [<-|[]]. apply ownProperty_None in Eo. apply Eo.
      now rewrite map_map in Hk.
    - apply Forall_app. split; [assumption|]. constructor; [|constructor].
      simpl. split; [reflexivity|]. intros Hin.
      assert (existsb (String.eqb key) objectPrototypeKeys = true).
      { apply existsb_exists. exists key.
        split; [assumption | apply String.eqb_refl]. }
      congruence. }
  destruct (getProperty o key); destruct searchAncestors;
    try (destruct (getInstanceTree model); [|discriminate]);
    intros H;
    try (apply enumNodeChildren_callback_keys in H);
    try (unfold cluster_push in H; simpl in H; try discriminate;
         injection H as <-;
         pose proof (shapeIds_push_keys
                       (match getProperty o key with
                        | NoProperty => o ++ [(key, newCluster category)]
                        | _ => o
                        end) key
                       (createShapeId (model_id model) (item_dbId item))) as H);
    try (eapply keysWellFormed_same; [exact H|]); auto.
  - eapply keysWellFormed_same; [apply shapeIds_push_keys | assumption].
  - eapply keysWellFormed_same; [apply shapeIds_push_keys | auto].
Qed.

Lemma onDone_keys (model : Model) (searchAncestors : bool)
    (result : list PropResult) (o o' : ClustersByName) :
  keysWellFormed o ->
  onDone model searchAncestors result o = Ok o' ->
  keysWellFormed o'.
Proof.
  revert o.
  induction result as [|item rest IH]; intros o Hwf H; simpl in H.
  - now injection H as <-.
  - destruct (onDone_item model searchAncestors item o) as [o1|] eqn:E;
      simpl in H; [|discriminate].
    eapply IH; [|exact H]. eapply onDone_item_keys; eauto.
Qed.

Lemma settleQueries_keys (attribName : string) (searchAncestors : bool)
    (queries : list (Model * list Js.value)) (o o' : ClustersByName) :
  keysWellFormed o ->
  settleQueries attribName searchAncestors queries o = Some o' ->
  keysWellFormed o'.
Proof.
  revert o.
  induction queries as [|[model dbIds] rest IH]; intros o Hwf H; simpl in H.
  - now injection H as <-.
  - destruct (getBulkProperties2 model dbIds [attribName]) as [result|];
      [|discriminate].
    destruct (onDone model searchAncestors result o) as [o1|] eqn:E;
      [|discriminate].
    eapply IH; [|exact H]. eapply onDone_keys; eauto.
Qed.

Lemma keysWellFormed_nil : keysWellFormed [].
Proof. split; constructor. Qed.

(** X3. Take a build in which the numbers among the categories that the
    attribute queries return hold integers up to [2^53] in absolute value,
    whose property key is their decimal form.  When the build completes,
    its clusters have distinct category keys: the items whose display
    values have the same property key (the same string, or a number and
    its decimal form) are in one cluster.  No cluster is keyed by a
    property of [Object.prototype]. *)
Theorem one_cluster_per_category_key :
  forall (models : list Model) (attribName : option string)
         (searchAncestors : option bool) (context context' : BaseExtension)
         (queries : list (Model * list Js.value)) (clusters : list Cluster),
    awaitLeafNodes models context = (Resolved queries, context') ->
    categoriesExact (defaultTo "Category" attribName) queries = true ->
    buildClustersFromAttribute models attribName searchAncestors context
    = (Resolved clusters, context') ->
    NoDup (map (fun c => Js.toPropertyKey (name c)) clusters)
    /\ Forall (fun c => ~ In (Js.toPropertyKey (name c)) objectPrototypeKeys)
              clusters.
Proof.
  intros models attribName searchAncestors context context' queries0 clusters
    _ _ Hbuild.
  destruct (buildClusters_resolved _ _ _ _ _ _ Hbuild)
    as (queries & o & _ & Hsettle & -> & _).
  destruct (settleQueries_keys _ _ _ _ _ keysWellFormed_nil Hsettle)
    as [Hnd Hall].
  assert (Hkeys : map (fun c => Js.toPropertyKey (name c)) (map snd o)
                  = map fst (keyNames o)).
  { unfold keyNames in *. rewrite !map_map. apply map_ext_in.
    intros entry Hin. rewrite Forall_forall in Hall.
    symmetry. apply (Hall (fst entry, name (snd entry))).
    apply in_map_iff. now exists entry. }
  split.
  - apply (Permutation_NoDup
             (Permutation_sym
                (Permutation_map (fun c => Js.toPropertyKey (name c))
                   (Object_values_perm o)))).
    now rewrite Hkeys.
  - apply Forall_forall. intros c Hc.
    apply (Permutation_in _ (Object_values_perm o)) in Hc.
    apply in_map_iff in Hc. destruct Hc as (entry & <- & Hin).
    rewrite Forall_forall in Hall.
    destruct (Hall (fst entry, name (snd entry))) as [E Hp].
    { apply in_map_iff. now exists entry. }
    simpl in E, Hp. now rewrite <- E.
Qed.

Lemma one_cluster_per_category_key_witness :
  NoDup (map (fun c => Js.toPropertyKey (name c))
           [ {| name := Js.Str "Doors"; shapeIds := [createShapeId 1 43] |};
             {| name := Js.Str "Assemblies"; shapeIds := [createShapeId 1 42] |} ]).
Proof.
  exact (proj1 (one_cluster_per_category_key [assemblyScene] (Some "Category")
                  (Some false) BaseExtension_new _ _ _ eq_refl eq_refl eq_refl)).
Defined.

Lemma shapeIds_push_nonempty (o : ClustersByName) (key : string)
    (shapeId : ShapeId) :
  Forall (fun entry => shapeIds (snd entry) <> []) o ->
  Forall (fun entry => shapeIds (snd entry) <> []) (shapeIds_push o key shapeId).
Proof.
  induction o as [|[k c] rest IH]; simpl; intros H; [constructor|].
  inversion H as [|? ? Hc Hrest]; subst.
  destruct (String.eqb k key); constructor; auto.
  simpl. intros E. now apply app_eq_nil in E.
Qed.

Lemma shapeIds_push_new (o : ClustersByName) (key : string) (c : Cluster)
    (shapeId : ShapeId) :
  ownProperty o key = None ->
  shapeIds_push (o ++ [(key, c)]) key shapeId
  = o ++ [(key, {| name := name c; shapeIds := shapeIds c ++ [shapeId] |})].
Proof.
  induction o as [|[k c'] rest IH]; simpl; intros H.
  - now rewrite String.eqb_refl.
  - destruct (String.eqb k key); [discriminate | now rewrite IH].
Qed.

Lemma onDone_nonempty (model : Model) (result : list PropResult)
    (o o' : ClustersByName) :
  Forall (fun entry => shapeIds (snd entry) <> []) o ->
  onDone model false result o = Ok o' ->
  Forall (fun entry => shapeIds (snd entry) <> []) o'.
Proof.
  revert o.
  induction result as [|item rest IH]; intros o Hne H; simpl in H.
  - now injection H as <-.
  - destruct (onDone_item model false item o) as [o1|] eqn:E;
      simpl in H; [|discriminate].
    eapply IH; [|exact H]. clear H IH.
    unfold onDone_item in E.
    destruct (item_properties item) as [|property0 more]; [discriminate|].
    unfold getProperty in E.
    destruct (ownProperty o _) eqn:Eo.
    + unfold cluster_push in E. injection E as <-.
      now apply shapeIds_push_nonempty.
    + destruct (existsb _ objectPrototypeKeys); [discriminate|].
      unfold cluster_push in E. injection E as <-.
      rewrite (shapeIds_push_new _ _ _ _ Eo).
      apply Forall_app. split; [assumption|]. constructor; [|constructor].
      simpl. discriminate.
Qed.

Lemma settleQueries_nonempty (attribName : string)
    (queries : list (Model * list Js.value)) (o o' : ClustersByName) :
  Forall (fun entry => shapeIds (snd entry) <> []) o ->
  settleQueries attribName false queries o = Some o' ->
  Forall (fun entry => shapeIds (snd entry) <> []) o'.
Proof.
  revert o.
  induction queries as [|[model dbIds] rest IH]; intros o Hne H; simpl in H.
  - now injection H as <-.
  - destruct (getBulkProperties2 model dbIds [attribName]) as [result|];
      [|discriminate].
    destruct (onDone model false result o) as [o1|] eqn:E; [|discriminate].
    eapply IH; [|exact H]. eapply onDone_nonempty; eauto.
Qed.

(** X4. Without descendant expansion every cluster of a completed build has a
    member: a cluster is created for an item and the item is put in it. *)
Theorem clusters_have_members_without_expansion :
  forall (models : list Model) (attribName : option string)
         (context context' : BaseExtension) (clusters : list Cluster),
    buildClustersFromAttribute models attribName (Some false) context
    = (Resolved clusters, context') ->
    Forall (fun c => shapeIds c <> []) clusters.
Proof.
  intros models attribName context context' clusters Hbuild.
  destruct (buildClusters_resolved _ _ _ _ _ _ Hbuild)
    as (queries & o & _ & Hsettle & -> & _). simpl in Hsettle.
  pose proof (settleQueries_nonempty _ _ _ _ (Forall_nil _) Hsettle) as Hne.
  apply Forall_forall. intros c Hc.
  apply (Permutation_in _ (Object_values_perm o)) in Hc.
  apply in_map_iff in Hc. destruct Hc as (entry & <- & Hin).
  rewrite Forall_forall in Hne. now apply Hne.
Qed.

Lemma clusters_have_members_without_expansion_witness :
  Forall (fun c => shapeIds c <> [])
    [ {| name := Js.Str "Doors"; shapeIds := [createShapeId 1 43] |};
      {| name := Js.Str "Assemblies"; shapeIds := [createShapeId 1 42] |} ].
Proof.
  exact (clusters_have_members_without_expansion [assemblyScene]
           (Some "Category") BaseExtension_new _ _ eq_refl).
Defined.

(** ** Categories named like a property of Object.prototype *)

Lemma enumNodeChildren_callback_inherited (model : Model) (tree : InstanceTree)
    (key : string) (children : list Z) (o : ClustersByName) :
  getInstanceTree model = Some tree ->
  filter (fun child =>
            existsb (fragmentVisible (getFragmentList model))
                    (enumNodeFragments tree child))
         children <> [] ->
  exists e, enumNodeChildren_callback model children key false o = Throw e.
Proof.
  intros Htree.
  induction children as [|child rest IH]; simpl; intros H; [congruence|].
  rewrite (hasVisibleFragments_existsb _ _ child Htree). simpl.
  destruct (existsb _ (enumNodeFragments tree child)); simpl; eauto.
Qed.

Lemma onDone_item_inherited (model : Model) (searchAncestors : bool)
    (item : PropResult) (o : ClustersByName) (category : Js.value) :
  keysWellFormed o ->
  categoryOf item = Some category ->
  In (Js.toPropertyKey category) objectPrototypeKeys ->
  itemShapes model searchAncestors item <> [] ->
  exists e, onDone_item model searchAncestors item o = Throw e.
Proof.
  intros Hwf Hcat Hin Hshapes. unfold onDone_item, categoryOf, itemShapes in *.
  destruct (item_properties item) as [|property0 rest]; [discriminate|].
  injection Hcat as Hcat. rewrite Hcat.
  rewrite (keysWellFormed_inherited _ _ Hwf Hin).
  destruct searchAncestors; [|simpl; eauto].
  destruct (getInstanceTree model) as [tree|] eqn:Htree; [|eauto].
  apply (enumNodeChildren_callback_inherited _ _ _ _ _ Htree).
  intros E. apply Hshapes. now rewrite E.
Qed.

Lemma onDone_inherited (model : Model) (searchAncestors : bool)
    (result : list PropResult) (o : ClustersByName) (item : PropResult)
    (category : Js.value) :
  keysWellFormed o ->
  In item result ->
  categoryOf item = Some category ->
  In (Js.toPropertyKey category) objectPrototypeKeys ->
  itemShapes model searchAncestors item <> [] ->
  exists e, onDone model searchAncestors result o = Throw e.
Proof.
  revert o.
  induction result as [|first rest IH]; intros o Hwf Hin Hcat Hkey Hshapes;
    [contradiction|].
  simpl. destruct Hin as [->|Hin].
  - destruct (onDone_item_inherited _ _ _ _ _ Hwf Hcat Hkey Hshapes) as [e ->].
    simpl. eauto.
  - destruct (onDone_item model searchAncestors first o) as [o1|] eqn:E;
      simpl; [|eauto].
    apply IH; auto. eapply onDone_item_keys; eauto.
Qed.

(** X5. A category whose property key is a property of [Object.prototype]
    ("constructor", "toString", "valueOf", ...) is not clustered: the lookup
    finds the inherited property, and adding the first member to it throws
    inside the callback.  A build that has such an item with a member to add
    is never settled. *)
Theorem inherited_category_hangs_the_build :
  forall (models : list Model) (attribName : option string)
         (searchAncestors : option bool) (context context' : BaseExtension)
         (queries : list (Model * list Js.value))
         (model : Model) (dbIds : list Js.value) (item : PropResult)
         (category : Js.value),
    awaitLeafNodes models context = (Resolved queries, context') ->
    In (model, dbIds) queries ->
    In item (queryResult (defaultTo "Category" attribName) (model, dbIds)) ->
    categoryOf item = Some category ->
    In (Js.toPropertyKey category) objectPrototypeKeys ->
    itemShapes model (defaultTo true searchAncestors) item <> [] ->
    buildClustersFromAttribute models attribName searchAncestors context
    = (Pending, context').
Proof.
  intros models attribName searchAncestors context context' queries model dbIds
    item category Hq Hin Hitem Hcat Hkey Hshapes.
  unfold buildClustersFromAttribute. rewrite Hq.
  assert (Hnone : forall o,
            keysWellFormed o ->
            settleQueries (defaultTo "Category" attribName)
              (defaultTo true searchAncestors) queries o = None).
  { clear Hq. induction queries as [|[m ids] rest IH]; intros o Hwf;
      [contradiction|].
    simpl. destruct Hin as [Hin|Hin].
    - injection Hin as -> ->. unfold queryResult in Hitem. simpl in Hitem.
      destruct (getBulkProperties2 model dbIds _) as [result|]; [|reflexivity].
      destruct (onDone_inherited _ _ _ _ _ _ Hwf Hitem Hcat Hkey Hshapes)
        as [e ->].
      reflexivity.
    - destruct (getBulkProperties2 m ids _) as [result|]; [|reflexivity].
      destruct (onDone m _ result o) as [o1|] eqn:E; [|reflexivity].
      apply IH; [assumption|]. eapply onDone_keys; eauto. }
  now rewrite (Hnone [] keysWellFormed_nil).
Qed.

Lemma inherited_category_hangs_the_build_witness :
  buildClustersFromAttribute [constructorScene] (Some "Category") (Some false)
    BaseExtension_new
  = (Pending, set_cachedDbIds (Some [Js.Num 5]) BaseExtension_new).
Proof.
  refine (inherited_category_hangs_the_build [constructorScene] (Some "Category")
            (Some false) BaseExtension_new _ _
            constructorScene [Js.Num 5]
            {| item_dbId := 5; item_name := Some "Wall";
               item_properties := [prop "Category" (Js.Str "constructor")] |}
            (Js.Str "constructor") eq_refl _ _ eq_refl _ _).
  - left. reflexivity.
  - left. reflexivity.
  - simpl. tauto.
  - discriminate.
Defined.

(** ** The leaf ids of the sources of a build *)

Lemma awaitLeafNodes_hit (models : list Model) (this : BaseExtension)
    (cached : list Js.value) :
  cachedDbIds this = Some cached ->
  awaitLeafNodes models this
  = (Resolved (map (fun model => (model, cached)) models), this).
Proof.
  intros Hc. induction models as [|model rest IH]; simpl; [reflexivity|].
  now rewrite (findActualLeafNodes_hit model true this cached Hc), IH.
Qed.

(** X6. In a build every source is asked about the same element ids: the ids
    found in the cache, or else the leaves resolved for the first source,
    which fill the cache before the second source is looked at.  After the
    loop the cache holds these ids. *)
Theorem sources_share_the_leaf_ids :
  forall (model : Model) (rest : list Model) (context context' : BaseExtension)
         (queries : list (Model * list Js.value)),
    awaitLeafNodes (model :: rest) context = (Resolved queries, context') ->
    exists dbIds,
      fst (findActualLeafNodes model true true context) = Resolved dbIds
      /\ queries = map (fun source => (source, dbIds)) (model :: rest)
      /\ cachedDbIds context' = Some dbIds.
Proof.
  intros model rest context context' queries H. simpl in H.
  destruct (findActualLeafNodes model true true context) as [[dbIds|e|] c1] eqn:E;
    try discriminate.
  assert (Hc : cachedDbIds c1 = Some dbIds).
  { revert E. unfold findActualLeafNodes, findActualLeafNodes_settle.
    destruct (cachedDbIds context) as [cached|] eqn:Ec.
    - intros E. injection E as <- <-. assumption.
    - destruct (findLeafNodes model); try discriminate.
      destruct (queryLeafProperties model true a); try discriminate.
      destruct (forEach_actualLeaf context a0 []); try discriminate.
      intros E. injection E as <- <-. reflexivity. }
  rewrite (awaitLeafNodes_hit rest c1 dbIds Hc) in H.
  injection H as <- <-. exists dbIds. auto.
Qed.

Lemma sources_share_the_leaf_ids_witness :
  exists dbIds,
    fst (findActualLeafNodes assemblyScene true true BaseExtension_new)
    = Resolved dbIds
    /\ [(assemblyScene, [Js.Num 43; Js.Num 42]);
        (beamScene, [Js.Num 43; Js.Num 42])]
       = map (fun source => (source, dbIds)) [assemblyScene; beamScene]
    /\ cachedDbIds (set_cachedDbIds (Some [Js.Num 43; Js.Num 42]) BaseExtension_new)
       = Some dbIds.
Proof.
  exact (sources_share_the_leaf_ids assemblyScene [beamScene] BaseExtension_new
           _ _ eq_refl).
Defined.

(** X7. The build is rejected exactly when leaf resolution is rejected for one
    of its sources; the attribute queries never reject it, and they leave
    the cache as the leaf resolutions left it. *)
Theorem build_rejects_with_leaf_resolution_only :
  forall (models : list Model) (attribName : option string)
         (searchAncestors : option bool) (context : BaseExtension),
    (forall e,
       fst (buildClustersFromAttribute models attribName searchAncestors context)
       = Rejected e
       <-> fst (awaitLeafNodes models context) = Rejected e)
    /\ snd (buildClustersFromAttribute models attribName searchAncestors context)
       = snd (awaitLeafNodes models context).
Proof.
  intros models attribName searchAncestors context.
  unfold buildClustersFromAttribute.
  destruct (awaitLeafNodes models context) as [[queries|e'|] c1]; simpl.
  - destruct (settleQueries _ _ queries []); simpl;
      (split; [intros e; split; discriminate | reflexivity]).
  - split; [intros e; split; intros H; injection H as <-; reflexivity
           | reflexivity].
  - split; [intros e; split; discriminate | reflexivity].
Qed.

Lemma build_rejects_with_leaf_resolution_only_witness :
  fst (buildClustersFromAttribute [orphanScene] None None BaseExtension_new)
  = Rejected (TypeError "displayProperty is undefined").
Proof.
  apply (proj1 (build_rejects_with_leaf_resolution_only
                  [orphanScene] None None BaseExtension_new)).
  reflexivity.
Defined.

(** X8. The callbacks of the sources may come in another order than the one
    of the loop: when both orders complete, the clusters hold the same
    shape ids, with the same multiplicity. *)
Theorem members_do_not_depend_on_callback_order :
  forall (attribName : string) (searchAncestors : bool)
         (queries queries' : list (Model * list Js.value))
         (o o' : ClustersByName),
    Permutation queries queries' ->
    settleQueries attribName searchAncestors queries [] = Some o ->
    settleQueries attribName searchAncestors queries' [] = Some o' ->
    Permutation (flat_map shapeIds (Object_values o))
                (flat_map shapeIds (Object_values o')).
Proof.
  intros attribName searchAncestors queries queries' o o' Hp H H'.
  rewrite !Object_values_shapeIds.
  eapply settleQueries_any_order; eauto.
Qed.

Lemma members_do_not_depend_on_callback_order_witness :
  exists o o',
    settleQueries "Category" false
      [(assemblyScene, [Js.Num 43]); (beamSceneSkipping, [Js.Num 5])] [] = Some o
    /\ settleQueries "Category" false
         [(beamSceneSkipping, [Js.Num 5]); (assemblyScene, [Js.Num 43])] []
       = Some o'
    /\ Permutation (flat_map shapeIds (Object_values o))
                   (flat_map shapeIds (Object_values o')).
Proof.
  eexists. eexists. split; [reflexivity|]. split; [reflexivity|].
  exact (members_do_not_depend_on_callback_order "Category" false
           [(assemblyScene, [Js.Num 43]); (beamSceneSkipping, [Js.Num 5])]
           [(beamSceneSkipping, [Js.Num 5]); (assemblyScene, [Js.Num 43])]
           _ _ (perm_swap _ _ []) eq_refl eq_refl).
Defined.

(** ** Unsupported models *)

(** X9. When no model is 3D with an instance tree, the default layout is the
    layout of no cluster: no leaf is resolved, no query is sent and the
    cache is left as it is. *)
Theorem default_layout_without_supported_model :
  forall (C : Collaborators) (models : list Model) (alignShapeRotation : bool)
         (attribName : option string) (searchAncestors : option bool)
         (context : BaseExtension),
    Forall (fun model => is3d model = false \/ getInstanceTree model = None)
           models ->
    createDefaultLayout models alignShapeRotation attribName searchAncestors context
    = (Resolved
         (createClusterSetLayout []
            (newShapeBoxes []
               (if alignShapeRotation then Some (newRotationAlignment [])
                else None))
            (if alignShapeRotation then Some (newRotationAlignment []) else None)),
       context).
Proof.
  intros C models alignShapeRotation attribName searchAncestors context Hall.
  assert (Hnone : filter modelSupported models = []).
  { induction Hall as [|model rest Hm _ IH]; simpl; [reflexivity|].
    assert (E : modelSupported model = false).
    { unfold modelSupported. destruct Hm as [-> | ->]; [reflexivity|].
      apply andb_false_r. }
    now rewrite E. }
  unfold createDefaultLayout. rewrite Hnone. reflexivity.
Qed.

Lemma default_layout_without_supported_model_witness :
  createDefaultLayout [sheetScene] true (Some "Category") None BaseExtension_new
  = (Resolved [], BaseExtension_new).
Proof.
  apply (default_layout_without_supported_model recording [sheetScene] true
           (Some "Category") None BaseExtension_new).
  constructor; [left; reflexivity | constructor].
Defined.

(** ** Visible fragments on any host *)

(** X2. [hasVisibleFragments] gives the same answer on a host that goes on
    calling the callback after it has returned [true]. *)
Theorem hasVisibleFragments_without_early_exit :
  forall (model : Model) (it : InstanceTree) (d : Z),
    getInstanceTree model = Some it ->
    hasVisibleFragments model d
    = Ok (negb (enumNodeFragments_noStop (getFragmentList model)
                  (enumNodeFragments it d) true)).
Proof.
  intros model it d Hit. unfold hasVisibleFragments.
  now rewrite Hit, enumNodeFragments_noStop_same.
Qed.

Lemma hasVisibleFragments_without_early_exit_witness :
  hasVisibleFragments assemblyScene 43 = Ok true.
Proof.
  exact (hasVisibleFragments_without_early_exit assemblyScene assemblyTree 43
           eq_refl).
Defined.

(** ** The extension: how the handlers run *)

Section ExtensionMore.

Context `{C : Collaborators}.

Lemma run_gets {A B} (f : VisualClustersExtension -> A) (k : A -> M B)
    (this : VisualClustersExtension) :
  bindM (gets f) k this = k (f this) this.
Proof. reflexivity. Qed.

Lemma run_assign {B} (g : VisualClustersExtension -> VisualClustersExtension)
    (k : unit -> M B) (this : VisualClustersExtension) :
  bindM (assign g) k this = k tt (g this).
Proof. reflexivity. Qed.

Lemma run_ret {A B} (a : A) (k : A -> M B) (this : VisualClustersExtension) :
  bindM (ret a) k this = k a this.
Proof. reflexivity. Qed.

(** [updateButton] returns, and changes nothing but the button. *)
Lemma updateButton_frame (this : VisualClustersExtension) :
  exists button, updateButton this = (Ok tt, set_clusterButton button this).
Proof.
  unfold updateButton. destruct (clusterButton this) as [b|] eqn:E.
  - destruct (negb (existsb is3d (getVisibleModels (viewer this)))); eauto.
  - exists None. destruct this. simpl in *. now subst.
Qed.

Lemma run_updateButton {B} (k : unit -> M B) (this : VisualClustersExtension) :
  exists button,
    bindM updateButton k this = k tt (set_clusterButton button this).
Proof.
  destruct (updateButton_frame this) as [button H]. exists button.
  unfold bindM. now rewrite H.
Qed.

Lemma step_state (ev : Event) (this : VisualClustersExtension) :
  fst (step ev this) = snd (handle ev this).
Proof. unfold step. now destruct (handle ev this) as [[launch|e] this']. Qed.

Lemma step_launch (ev : Event) (this : VisualClustersExtension) :
  snd (step ev this) = launchOf (fst (handle ev this)).
Proof. unfold step. now destruct (handle ev this) as [[launch|e] this']. Qed.

(** The payload is computed without any change of the extension. *)
Lemma transitionPayload_state (this : VisualClustersExtension) :
  snd (transitionPayload this) = this.
Proof.
  unfold transitionPayload.
  destruct (anim_states (animController this) ClusteredStateName); [|reflexivity].
  destruct (filterBoolean (scene_animStates s)); [reflexivity|].
  now destruct (0 <? length (model_animStates m))%nat.
Qed.

(** [onTransitionStarted] fires one event, or throws and changes nothing. *)
Lemma onTransitionStarted_run (this : VisualClustersExtension) :
  (exists payload,
     onTransitionStarted this
     = (Ok tt,
        set_viewer {| getVisibleModels := getVisibleModels (viewer this);
                      fired := TRANSITION_STARTED payload :: fired (viewer this) |}
                   this))
  \/ (exists e, onTransitionStarted this = (Throw e, this)).
Proof.
  unfold onTransitionStarted, bindM.
  pose proof (transitionPayload_state this) as Hs.
  destruct (transitionPayload this) as [[payload|e] this']; simpl in Hs; subst.
  - left. exists payload. reflexivity.
  - right. eauto.
Qed.

(** *** Activation *)

Lemma increment_exact (n : Z) :
  n <= Js.MAX_SAFE_INTEGER -> Js.increment n = n + 1.
Proof.
  intros H. unfold Js.increment.
  destruct (n <=? Js.MAX_SAFE_INTEGER) eqn:E;
    [reflexivity | apply Z.leb_gt in E; lia].
Qed.

(** X18. [setLayoutActive(true)] on an inactive extension without custom
    layout, whose counter is at least 0 and below [2^53]: it sets the flag,
    updates the button, advances the counter by one and suspends on the
    default layout of the visible models for the chosen attribute; it
    touches neither the controllers nor the stored layout. *)
Theorem activation_suspends_on_the_default_layout :
  forall (attributeName : option string) (this : VisualClustersExtension),
    layoutActive this = false ->
    customSceneLayout this = None ->
    0 <= layoutTimeStamp this <= Js.MAX_SAFE_INTEGER ->
    exists button,
      setLayoutActive true attributeName this
      = (Ok (Some (Awaiting
                     {| run_models := getVisibleModels (viewer this);
                        run_layoutTimeStamp := layoutTimeStamp this + 1;
                        run_attribName := chosenAttrib this;
                        run_searchAncestors := opt_searchAncestors (options this) |})),
         set_layoutTimeStamp (layoutTimeStamp this + 1)
           (set_clusterButton button (set_layoutActive true this))).
Proof.
  intros attributeName this Ha Hc [_ Hb].
  rewrite <- (increment_exact _ Hb).
  unfold setLayoutActive. rewrite run_gets, Ha. cbv beta.
  unfold Bool.eqb, negb. cbv iota.
  rewrite run_assign.
  destruct (run_updateButton
              (fun _ => launch <~ applyLayout attributeName ;; ret (Some launch))
              (set_layoutActive true this)) as [button ->].
  exists button.
  unfold applyLayout, bindM, gets, assign, ret. simpl.
  destruct this. simpl in *. subst. reflexivity.
Qed.

(** *** What the layout methods leave *)

Lemma keepsField_ret {A B} (f : VisualClustersExtension -> B) (a : A) :
  keepsField f (ret a).
Proof. intros this. reflexivity. Qed.

Lemma keepsField_throw {A B} (f : VisualClustersExtension -> B) (e : Exn) :
  keepsField f (@throw _ A e).
Proof. intros this. reflexivity. Qed.

Lemma keepsField_gets {A B} (f : VisualClustersExtension -> B)
    (g : VisualClustersExtension -> A) :
  keepsField f (gets g).
Proof. intros this. reflexivity. Qed.

Lemma keepsField_assign {B} (f : VisualClustersExtension -> B)
    (g : VisualClustersExtension -> VisualClustersExtension) :
  (forall this, f (g this) = f this) -> keepsField f (assign g).
Proof. intros H this. exact (H this). Qed.

Lemma keepsField_bind {A A' B} (f : VisualClustersExtension -> B)
    (c : M A) (k : A -> M A') :
  keepsField f c -> (forall a, keepsField f (k a)) -> keepsField f (bindM c k).
Proof.
  intros Hc Hk this. unfold bindM.
  specialize (Hc this). destruct (c this) as [[a|e] this1]; simpl in *.
  - now rewrite (Hk a this1).
  - exact Hc.
Qed.

Lemma keepsField_async {A B} (f : VisualClustersExtension -> B) (c : M A) :
  keepsField f c -> keepsField f (async c).
Proof.
  intros Hc this. unfold async. specialize (Hc this). now destruct (c this).
Qed.

Create HintDb inputs.

#[local] Hint Resolve keepsField_ret keepsField_throw keepsField_gets
  keepsField_async keepsField_bind : inputs.

#[local] Hint Extern 1 (keepsField uiInputs (assign _)) =>
  apply keepsField_assign; intros []; reflexivity : inputs.

Lemma uiInputs_updateButton : keepsField uiInputs updateButton.
Proof.
  intros this. destruct (updateButton_frame this) as [button ->].
  now destruct this.
Qed.

Lemma uiInputs_transitionPayload : keepsField uiInputs transitionPayload.
Proof. intros this. now rewrite transitionPayload_state. Qed.

Lemma uiInputs_fireEvent (ev : ViewerEvent) : keepsField uiInputs (fireEvent ev).
Proof. unfold fireEvent. auto with inputs. Qed.

#[local] Hint Resolve uiInputs_updateButton uiInputs_transitionPayload
  uiInputs_fireEvent : inputs.

Lemma uiInputs_onTransitionStarted : keepsField uiInputs onTransitionStarted.
Proof. unfold onTransitionStarted. auto with inputs. Qed.

#[local] Hint Resolve uiInputs_onTransitionStarted : inputs.

Lemma uiInputs_applyLayout_resume (run : LayoutRun) (sceneLayout' : SceneLayout) :
  keepsField uiInputs (applyLayout_resume run sceneLayout').
Proof.
  unfold applyLayout_resume.
  apply keepsField_bind; [auto with inputs|]. intros active.
  apply keepsField_bind; [auto with inputs|]. intros current.
  destruct (negb active || negb (run_layoutTimeStamp run =? current));
    auto 10 with inputs.
Qed.

#[local] Hint Resolve uiInputs_applyLayout_resume : inputs.

Lemma uiInputs_applyLayout (attributeName : option string) :
  keepsField uiInputs (applyLayout attributeName).
Proof.
  unfold applyLayout.
  apply keepsField_bind; [auto with inputs|]. intros models.
  apply keepsField_bind; [auto with inputs|]. intros _.
  apply keepsField_bind; [auto with inputs|]. intros stamp.
  apply keepsField_bind; [auto with inputs|]. intros attrib.
  apply keepsField_bind; [auto with inputs|]. intros search.
  apply keepsField_bind; [auto with inputs|]. intros [sceneLayout'|];
    auto with inputs.
Qed.

#[local] Hint Resolve uiInputs_applyLayout : inputs.

(** [setLayoutActive] leaves the dropdown, the chosen attribute, the
    options, the custom layout and the visible models. *)
Lemma uiInputs_setLayoutActive (active : bool) (attributeName : option string) :
  keepsField uiInputs (setLayoutActive active attributeName).
Proof.
  unfold setLayoutActive.
  apply keepsField_bind; [auto with inputs|]. intros current.
  destruct (Bool.eqb current active); [auto with inputs|].
  apply keepsField_bind; [auto with inputs|]. intros _.
  apply keepsField_bind; [auto with inputs|]. intros _.
  destruct (negb active); auto 10 with inputs.
Qed.

(** [applyLayout] returns the run made of what it read. *)
Lemma applyLayout_run (attributeName : option string)
    (this : VisualClustersExtension) :
  exists launch,
    fst (applyLayout attributeName this) = Ok launch
    /\ launchRun launch = runOf this.
Proof.
  unfold applyLayout, bindM, gets, assign, ret. simpl.
  destruct (customSceneLayout _) as [sceneLayout'|].
  - unfold async.
    match goal with
    | |- context [applyLayout_resume ?r ?l ?s] =>
        destruct (applyLayout_resume r l s) as [completion this2]
    end.
    simpl. eexists. split; [reflexivity|]. simpl. unfold runOf.
    now destruct this.
  - eexists. split; [reflexivity|]. simpl. unfold runOf. now destruct this.
Qed.

(** Activation calls [applyLayout] with the visible models, the chosen
    attribute and the option of the extension. *)
Lemma setLayoutActive_launches (attributeName : option string)
    (this : VisualClustersExtension) :
  layoutActive this = false ->
  exists launch,
    fst (setLayoutActive true attributeName this) = Ok (Some launch)
    /\ launchRun launch = runOf this.
Proof.
  intros Ha. unfold setLayoutActive. rewrite run_gets, Ha. cbv beta.
  unfold Bool.eqb, negb. cbv iota. rewrite run_assign.
  destruct (run_updateButton
              (fun _ => launch <~ applyLayout attributeName ;; ret (Some launch))
              (set_layoutActive true this)) as [button ->].
  destruct (applyLayout_run attributeName
              (set_clusterButton button (set_layoutActive true this)))
    as (launch & Hl & Hr).
  unfold bindM, ret.
  destruct (applyLayout attributeName _) as [r s2]. simpl in Hl. subst r.
  exists launch. split; [reflexivity|]. rewrite Hr. unfold runOf.
  now destruct this.
Qed.


(** *** Toggling *)

Lemma setLayoutActive_false_launch (attributeName : option string)
    (this : VisualClustersExtension) :
  launchOf (fst (setLayoutActive false attributeName this)) = None.
Proof.
  unfold setLayoutActive. rewrite run_gets.
  destruct (Bool.eqb (layoutActive this) false); [reflexivity|].
  rewrite run_assign.
  match goal with
  | |- context [bindM updateButton ?k ?s] =>
      destruct (run_updateButton k s) as [button ->]
  end.
  cbv beta. unfold negb. cbv iota. unfold bindM at 1.
  destruct (onTransitionStarted_run
              (set_clusterButton button (set_layoutActive false this)))
    as [[payload ->]|[e ->]]; reflexivity.
Qed.

(** [setLayoutActive(!this.layoutActive)]: the flag is negated, what the
    handlers read stays, and [applyLayout] is called, once, exactly when the
    layout was inactive. *)
Lemma setLayoutActive_toggle (attributeName : option string)
    (this : VisualClustersExtension) :
  let r := setLayoutActive (negb (layoutActive this)) attributeName this in
  layoutActive (snd r) = negb (layoutActive this)
  /\ uiInputs (snd r) = uiInputs this
  /\ layoutTimeStamp (snd r)
     = (if layoutActive this then layoutTimeStamp this
        else Js.increment (layoutTimeStamp this))
  /\ (if layoutActive this then launchOf (fst r) = None
      else exists launch,
             launchOf (fst r) = Some launch /\ launchRun launch = runOf this).
Proof.
  intros r. subst r.
  split; [apply setLayoutActive_sets|].
  split; [apply uiInputs_setLayoutActive|].
  pose proof (handlerEffect_setLayoutActive
                (negb (layoutActive this)) attributeName this) as He.
  destruct (layoutActive this) eqn:Ha; simpl negb in *.
  - pose proof (setLayoutActive_false_launch attributeName this) as Hl.
    rewrite Hl in He. destruct He as [Ht _]. split; [exact Ht|exact Hl].
  - destruct (setLayoutActive_launches attributeName this Ha)
      as (launch & Hl & Hr).
    rewrite Hl in He. simpl in He. destruct He as [Ht _].
    split; [exact Ht|]. exists launch. rewrite Hl. now split.
Qed.

(** The click handler up to its call of [setLayoutActive]. *)
Lemma onStartAnimateClick_run (this : VisualClustersExtension) :
  exists button,
    onStartAnimateClick this
    = setLayoutActive (negb (layoutActive this)) None
        (set_dropdown
           {| style_display :=
                if String.eqb (style_display (dropdown this)) "none"
                then "block" else "none";
              dropdown_options := dropdown_options (dropdown this) |}
           (set_clusterButton button this)).
Proof.
  unfold onStartAnimateClick. rewrite run_gets.
  destruct (String.eqb (style_display (dropdown this)) "none").
  - match goal with
    | |- context [bindM updateButton ?k ?s] =>
        destruct (run_updateButton k s) as [button ->]
    end.
    exists button. rewrite run_gets.
    assert (Hp : forall (b : bool) (k : unit -> M (option Launch)) s,
               bindM (if b then prepareDropdown else ret tt) k s = k tt s).
    { intros [] k s; reflexivity. }
    rewrite Hp. unfold set_display. rewrite run_assign, run_gets.
    now destruct this.
  - match goal with
    | |- context [bindM updateButton ?k ?s] =>
        destruct (run_updateButton k s) as [button ->]
    end.
    exists button. unfold set_display. rewrite run_assign, run_gets.
    now destruct this.
Qed.

Lemma onStartAnimateClick_toggle (this : VisualClustersExtension) :
  let r := onStartAnimateClick this in
  layoutActive (snd r) = negb (layoutActive this)
  /\ style_display (dropdown (snd r))
     = (if String.eqb (style_display (dropdown this)) "none"
        then "block" else "none")
  /\ dropdown_options (dropdown (snd r)) = dropdown_options (dropdown this)
  /\ chosenAttrib (snd r) = chosenAttrib this
  /\ layoutTimeStamp (snd r)
     = (if layoutActive this then layoutTimeStamp this
        else Js.increment (layoutTimeStamp this))
  /\ (if layoutActive this then launchOf (fst r) = None
      else exists launch,
             launchOf (fst r) = Some launch /\ launchRun launch = runOf this).
Proof.
  intros r. subst r.
  destruct (onStartAnimateClick_run this) as [button ->].
  set (display := if String.eqb (style_display (dropdown this)) "none"
                  then "block" else "none").
  set (this1 := set_dropdown _ _).
  assert (Ha : layoutActive this1 = layoutActive this) by now destruct this.
  assert (Ht : layoutTimeStamp this1 = layoutTimeStamp this) by now destruct this.
  assert (Hr : runOf this1 = runOf this) by now destruct this.
  assert (Hd : dropdown this1
               = {| style_display := display;
                    dropdown_options := dropdown_options (dropdown this) |})
    by now destruct this.
  assert (Hc : chosenAttrib this1 = chosenAttrib this) by now destruct this.
  rewrite <- Ha.
  destruct (setLayoutActive_toggle None this1) as (H1 & H2 & H3 & H4).
  unfold uiInputs in H2. injection H2 as Hdd Hch _ _ _.
  rewrite H1, Hdd, Hch, H3, Hd, Hc, Ht. cbn [style_display dropdown_options].
  repeat (split; [reflexivity|]).
  destruct (layoutActive this1); [exact H4|]. now rewrite <- Hr.
Qed.

(** X20. A click on the toolbar button, with the counter at least 0 and
    below [2^53]: it negates [layoutActive] and, on its own, the display of
    the dropdown ("none" becomes "block", anything else becomes "none"); the
    options of the dropdown and the chosen attribute stay.  [applyLayout] is
    called, once, exactly when the layout was inactive, for the visible
    models and the chosen attribute, and advances the counter by one.  The
    two toggles do not look at each other: the click activates an inactive
    layout whether the dropdown was shown or not. *)
Theorem click_toggles_layout_and_dropdown :
  forall (this : VisualClustersExtension),
    0 <= layoutTimeStamp this <= Js.MAX_SAFE_INTEGER ->
    let this' := fst (step On_startAnimateClick this) in
    layoutActive this' = negb (layoutActive this)
    /\ style_display (dropdown this')
       = (if String.eqb (style_display (dropdown this)) "none"
          then "block" else "none")
    /\ dropdown_options (dropdown this') = dropdown_options (dropdown this)
    /\ chosenAttrib this' = chosenAttrib this
    /\ layoutTimeStamp this'
       = layoutTimeStamp this + (if layoutActive this then 0 else 1)
    /\ (if layoutActive this then snd (step On_startAnimateClick this) = None
        else exists launch,
               snd (step On_startAnimateClick this) = Some launch
               /\ run_models (launchRun launch) = getVisibleModels (viewer this)
               /\ run_layoutTimeStamp (launchRun launch)
                  = layoutTimeStamp this + 1
               /\ run_attribName (launchRun launch) = chosenAttrib this
               /\ run_searchAncestors (launchRun launch)
                  = opt_searchAncestors (options this)).
Proof.
  intros this [_ Hb] this'. subst this'. rewrite step_state, step_launch.
  cbn [handle].
  destruct (onStartAnimateClick_toggle this) as (A & D & O & Ch & T & L).
  cbv zeta in *. rewrite (increment_exact _ Hb) in T.
  repeat (split; [assumption|]).
  split; [destruct (layoutActive this); lia|].
  destruct (layoutActive this); [exact L|].
  destruct L as (launch & Hl & Hr). exists launch. split; [exact Hl|].
  rewrite Hr. unfold runOf. cbn. now rewrite (increment_exact _ Hb).
Qed.

(** X21. Two clicks in a row, with the counter at least 0 and below [2^53]:
    they bring [layoutActive] and the display of the dropdown back, when the
    display was "none" or "block", and call [applyLayout] exactly once, so
    the counter has advanced by one. *)
Theorem two_clicks_restore_layout_and_dropdown :
  forall (this : VisualClustersExtension),
    0 <= layoutTimeStamp this <= Js.MAX_SAFE_INTEGER ->
    style_display (dropdown this) = "none"
    \/ style_display (dropdown this) = "block" ->
    let this' := runEvents [On_startAnimateClick; On_startAnimateClick] this in
    layoutActive this' = layoutActive this
    /\ dropdown this' = dropdown this
    /\ layoutTimeStamp this' = layoutTimeStamp this + 1
    /\ countTriggers [On_startAnimateClick; On_startAnimateClick] this = 1%nat.
Proof.
  intros this [_ Hb] Hd this'. subst this'. cbn [runEvents countTriggers].
  rewrite !step_state, !step_launch. cbn [handle].
  destruct (onStartAnimateClick_toggle this) as (A1 & D1 & O1 & _ & T1 & L1).
  destruct (onStartAnimateClick_toggle (snd (onStartAnimateClick this)))
    as (A2 & D2 & O2 & _ & T2 & L2).
  cbv zeta in *.
  rewrite A1 in *. rewrite Bool.negb_involutive in A2.
  split; [exact A2|].
  split.
  { destruct (dropdown (snd (onStartAnimateClick
                               (snd (onStartAnimateClick this)))))
      as [d2 o2].
    destruct (dropdown this) as [d0 o0]. simpl in *.
    rewrite D2, O2, D1, O1. f_equal.
    destruct Hd as [-> | ->]; reflexivity. }
  rewrite T2, T1.
  destruct (layoutActive this); simpl negb in *; cbv iota.
  - destruct L2 as (launch & -> & _). rewrite L1.
    split; [apply increment_exact, Hb | reflexivity].
  - destruct L1 as (launch & -> & _). rewrite L2.
    split; [apply increment_exact, Hb | reflexivity].
Qed.

(** *** Choosing an attribute *)

(** X22. A change of the dropdown, with the counter at least 0 and below
    [2^53].  Its first half sets the chosen attribute and negates
    [layoutActive].  When the first half returns, the timer is started, and
    when the timer runs out with nothing in between, [layoutActive] is back
    to what it was and [applyLayout] has been called exactly once, for the
    new attribute: after the timer when the layout was active, before it
    when the layout was inactive, in which case the timer switches the
    layout off again and the result of that call arrives at an inactive
    extension.  When the first half throws, which only the deactivation of
    an active layout does, there is no timer: the layout stays switched off
    and [applyLayout] is not called. *)
Theorem attribute_change_restarts_the_layout :
  forall (value : string) (this : VisualClustersExtension),
    0 <= layoutTimeStamp this <= Js.MAX_SAFE_INTEGER ->
    let this1 := fst (step (On_destinationChange value) this) in
    let this2 := fst (step On_destinationTimer this1) in
    chosenAttrib this1 = value
    /\ layoutActive this1 = negb (layoutActive this)
    /\ (timersArmed [On_destinationChange value; On_destinationTimer] this = true ->
        chosenAttrib this2 = value
        /\ layoutActive this2 = layoutActive this
        /\ layoutTimeStamp this2 = layoutTimeStamp this + 1
        /\ exists launch,
             run_attribName (launchRun launch) = value
             /\ run_models (launchRun launch) = getVisibleModels (viewer this)
             /\ if layoutActive this
                then snd (step (On_destinationChange value) this) = None
                     /\ snd (step On_destinationTimer this1) = Some launch
                else snd (step (On_destinationChange value) this) = Some launch
                     /\ snd (step On_destinationTimer this1) = None)
    /\ (timersArmed [On_destinationChange value; On_destinationTimer] this = false ->
        layoutActive this = true
        /\ snd (step (On_destinationChange value) this) = None
        /\ layoutTimeStamp this1 = layoutTimeStamp this).
Proof.
  intros value this [_ Hb] this1 this2. subst this1 this2.
  unfold timersArmed. cbn [timersArmedFrom].
  rewrite !step_state, !step_launch. cbn [handle].
  set (this0 := set_chosenAttrib value this).
  assert (Hrun : onDestinationChange value this
                 = setLayoutActive (negb (layoutActive this0)) None this0)
    by reflexivity.
  rewrite !Hrun. clear Hrun.
  assert (Ha : layoutActive this0 = layoutActive this) by now destruct this.
  assert (Ht : layoutTimeStamp this0 = layoutTimeStamp this) by now destruct this.
  assert (Hc : chosenAttrib this0 = value) by now destruct this.
  assert (Hm : getVisibleModels (viewer this0) = getVisibleModels (viewer this))
    by now destruct this.
  destruct (setLayoutActive_toggle None this0) as (A1 & U1 & T1 & L1).
  cbv zeta in *.
  set (r1 := setLayoutActive (negb (layoutActive this0)) None this0) in *.
  set (this1 := snd r1) in *.
  unfold onDestinationChange_resume. rewrite !run_gets.
  destruct (setLayoutActive_toggle None this1) as (A2 & U2 & T2 & L2).
  cbv zeta in *.
  set (r2 := setLayoutActive (negb (layoutActive this1)) None this1) in *.
  unfold uiInputs in U1, U2.
  injection U1 as _ Hc1 _ _ Hm1. injection U2 as _ Hc2 _ _ _.
  rewrite Ha, Ht in *.
  split; [congruence|]. split; [exact A1|].
  split.
  - intros _.
    rewrite A1 in A2, T2, L2. rewrite Bool.negb_involutive in A2.
    split; [congruence|]. split; [exact A2|].
    split.
    { rewrite T2, T1.
      destruct (layoutActive this); simpl negb; cbv iota;
        apply increment_exact, Hb. }
    destruct (layoutActive this); simpl negb in *; cbv iota in *.
    + destruct L2 as (launch & Hl & Hr). exists launch.
      rewrite Hr. unfold runOf. simpl. repeat split; congruence.
    + destruct L1 as (launch & Hl & Hr). exists launch.
      rewrite Hr. unfold runOf. simpl. repeat split; congruence.
  - intros Hthrow.
    destruct (fst r1) as [launch|e] eqn:E1; [discriminate|].
    destruct (layoutActive this); cbv iota in *.
    + now rewrite T1.
    + destruct L1 as (launch & Hl & _). discriminate.
Qed.

(** *** The counter *)

Lemma runEvents_counter (evs : list Event) (this : VisualClustersExtension) :
  layoutTimeStamp this <= Js.MAX_SAFE_INTEGER + 1 ->
  layoutTimeStamp (runEvents evs this)
  = Z.min (layoutTimeStamp this + Z.of_nat (countTriggers evs this))
          (Js.MAX_SAFE_INTEGER + 1).
Proof.
  revert this.
  induction evs as [|ev evs IH]; intros this Hle; cbn [runEvents countTriggers].
  - lia.
  - pose proof (step_effect ev this) as He.
    assert (Hi : Js.increment (layoutTimeStamp this)
                 = Z.min (layoutTimeStamp this + 1) (Js.MAX_SAFE_INTEGER + 1)).
    { unfold Js.increment.
      destruct (layoutTimeStamp this <=? Js.MAX_SAFE_INTEGER) eqn:E;
        [apply Z.leb_le in E | apply Z.leb_gt in E]; lia. }
    destruct (snd (step ev this)) as [launch|]; simpl in He;
      destruct He as [He _]; rewrite IH; rewrite He; try rewrite Hi; lia.
Qed.

(** X23. The counter counts the calls of [applyLayout] up to [2^53], where
    it stays.  From a counter between 0 and [2^53], after any sequence of
    events it is the smaller of [2^53] and the start plus the number of
    calls that the sequence made; so, as long as that sum is at most
    [2^53], it has advanced by the number of calls.  No handler sets it
    back, and none advances it without calling [applyLayout]. *)
Theorem layoutTimeStamp_counts_the_calls_of_applyLayout :
  forall (evs : list Event) (this : VisualClustersExtension),
    0 <= layoutTimeStamp this <= Js.MAX_SAFE_INTEGER + 1 ->
    layoutTimeStamp (runEvents evs this)
    = Z.min (layoutTimeStamp this + Z.of_nat (countTriggers evs this))
            (Js.MAX_SAFE_INTEGER + 1)
    /\ 0 <= layoutTimeStamp (runEvents evs this) <= Js.MAX_SAFE_INTEGER + 1
    /\ (layoutTimeStamp this + Z.of_nat (countTriggers evs this)
        <= Js.MAX_SAFE_INTEGER + 1 ->
        layoutTimeStamp (runEvents evs this)
        = layoutTimeStamp this + Z.of_nat (countTriggers evs this)).
Proof.
  intros evs this [Hlo Hhi].
  pose proof (runEvents_counter evs this Hhi) as H.
  split; [exact H|]. split; lia.
Qed.

Lemma countTriggers_counter (evs : list Event) (this : VisualClustersExtension) :
  countTriggers evs this = O ->
  layoutTimeStamp (runEvents evs this) = layoutTimeStamp this.
Proof.
  revert this. induction evs as [|ev evs IH]; intros this;
    cbn [runEvents countTriggers]; [reflexivity|].
  pose proof (step_effect ev this) as He.
  destruct (snd (step ev this)) as [launch|]; [discriminate|].
  simpl. intros H. rewrite (IH _ H). now destruct He.
Qed.

(** *** The result of the latest call *)

Lemma noLaunch_state (c : M unit) (this : VisualClustersExtension) :
  snd (noLaunch c this) = snd (c this).
Proof. unfold noLaunch, bindM. now destruct (c this) as [[[]|e] this']. Qed.

(** The continuation at an active extension whose counter is the one of the
    run. *)
Lemma applyLayout_resume_fresh (run : LayoutRun) (sceneLayout' : SceneLayout)
    (this : VisualClustersExtension) :
  layoutActive this = true ->
  run_layoutTimeStamp run = layoutTimeStamp this ->
  sceneLayout (snd (applyLayout_resume run sceneLayout' this))
  = Some sceneLayout'
  /\ sceneAnimState (snd (applyLayout_resume run sceneLayout' this))
     = Some (createSceneState sceneLayout' (run_models run))
  /\ layoutActive (snd (applyLayout_resume run sceneLayout' this)) = true
  /\ layoutTimeStamp (snd (applyLayout_resume run sceneLayout' this))
     = run_layoutTimeStamp run.
Proof.
  intros Hactive Hfresh.
  destruct (applyLayout_resume run sceneLayout' this) as [r this'] eqn:E.
  cbn [snd]. revert E. unfold applyLayout_resume.
  rewrite !run_gets, Hactive, Hfresh, Z.eqb_refl.
  cbn [negb orb]. rewrite !run_assign.
  set (this2 := set_animController _ _).
  assert (H2 : sceneLayout this2 = Some sceneLayout'
               /\ sceneAnimState this2
                  = Some (createSceneState sceneLayout' (run_models run))
               /\ layoutActive this2 = true
               /\ layoutTimeStamp this2 = layoutTimeStamp this).
  { subst this2. destruct this. simpl in *. auto. }
  destruct H2 as (S1 & S2 & S3 & S4).
  unfold bindM at 1.
  destruct (onTransitionStarted_run this2) as [[payload ->]|[e ->]].
  - rewrite !run_assign. unfold assign. intros E. injection E as _ <-.
    destruct this2; simpl in *. repeat split; congruence.
  - intros E. injection E as _ <-. repeat split; congruence.
Qed.

(** X24. The converse of the staleness check.  A step called [applyLayout],
    which suspended on the default layout; the events after it made no
    further call, and the layout is active when the default layout arrives.
    Then the continuation stores the layout and the scene state it creates
    from the layout and the models of the call.  This holds even when the
    continuation throws at the transition event. *)
Theorem latest_layout_result_is_stored :
  forall (ev : Event) (evs : list Event) (this : VisualClustersExtension)
         (run : LayoutRun) (sceneLayout' : SceneLayout),
    snd (step ev this) = Some (Awaiting run) ->
    countTriggers evs (fst (step ev this)) = O ->
    layoutActive (runEvents evs (fst (step ev this))) = true ->
    let this' :=
      fst (step (On_layoutSettled run (Resolved sceneLayout'))
             (runEvents evs (fst (step ev this)))) in
    sceneLayout this' = Some sceneLayout'
    /\ sceneAnimState this'
       = Some (createSceneState sceneLayout' (run_models run))
    /\ layoutActive this' = true
    /\ layoutTimeStamp this' = run_layoutTimeStamp run.
Proof.
  intros ev evs this run sceneLayout' Hlaunch Hnone Hactive this'. subst this'.
  pose proof (step_effect ev this) as He. rewrite Hlaunch in He.
  simpl in He. destruct He as [_ Hstamp].
  pose proof (countTriggers_counter evs _ Hnone) as Hsame.
  set (this1 := runEvents evs (fst (step ev this))) in *.
  rewrite step_state. cbn [handle]. rewrite noLaunch_state.
  apply applyLayout_resume_fresh; [exact Hactive | congruence].
Qed.

(** *** Properties kept by the handlers *)

Lemma preserves_ret {A} (P : VisualClustersExtension -> Prop) (a : A) :
  preserves P (ret a).
Proof. intros this H. exact H. Qed.

Lemma preserves_throw {A} (P : VisualClustersExtension -> Prop) (e : Exn) :
  preserves P (@throw _ A e).
Proof. intros this H. exact H. Qed.

Lemma preserves_gets {A} (P : VisualClustersExtension -> Prop)
    (f : VisualClustersExtension -> A) :
  preserves P (gets f).
Proof. intros this H. exact H. Qed.

Lemma preserves_assign (P : VisualClustersExtension -> Prop)
    (g : VisualClustersExtension -> VisualClustersExtension) :
  (forall this, P this -> P (g this)) -> preserves P (assign g).
Proof. intros Hg this H. exact (Hg this H). Qed.

Lemma preserves_bind {A B} (P : VisualClustersExtension -> Prop)
    (c : M A) (k : A -> M B) :
  preserves P c -> (forall a, preserves P (k a)) -> preserves P (bindM c k).
Proof.
  intros Hc Hk this H. unfold bindM. specialize (Hc this H).
  destruct (c this) as [[a|e] this1]; simpl in *; [now apply Hk | exact Hc].
Qed.

Lemma preserves_async {A} (P : VisualClustersExtension -> Prop) (c : M A) :
  preserves P c -> preserves P (async c).
Proof.
  intros Hc this H. unfold async. specialize (Hc this H).
  now destruct (c this).
Qed.

Lemma establishes_preserves {A} (P : VisualClustersExtension -> Prop) (c : M A) :
  establishes P c -> preserves P c.
Proof. intros Hc this _. apply Hc. Qed.

Lemma establishes_bind {A B} (P : VisualClustersExtension -> Prop)
    (c : M A) (k : A -> M B) :
  establishes P c -> (forall a, preserves P (k a)) -> establishes P (bindM c k).
Proof.
  intros Hc Hk this. unfold bindM. specialize (Hc this).
  destruct (c this) as [[a|e] this1]; simpl in *; [now apply Hk | exact Hc].
Qed.

Lemma establishes_assign_bind {B} (P : VisualClustersExtension -> Prop)
    (g : VisualClustersExtension -> VisualClustersExtension) (k : unit -> M B) :
  establishes P (k tt) -> establishes P (bindM (assign g) k).
Proof. intros Hk this. rewrite run_assign. apply Hk. Qed.

Create HintDb pres.

#[local] Hint Resolve preserves_ret preserves_throw preserves_gets
  preserves_async preserves_bind : pres.

#[local] Hint Extern 1 (preserves _ (assign _)) =>
  apply preserves_assign; intros [] H; exact H : pres.

Lemma preserves_transitionPayload (P : VisualClustersExtension -> Prop) :
  preserves P transitionPayload.
Proof. intros this H. now rewrite transitionPayload_state. Qed.

#[local] Hint Resolve preserves_transitionPayload : pres.

(** *** The button *)

Lemma updateButton_shows (this : VisualClustersExtension) :
  exists button,
    updateButton this = (Ok tt, set_clusterButton button this)
    /\ buttonOk (set_clusterButton button this).
Proof.
  unfold updateButton, buttonOk, buttonShows.
  destruct this as [b v o a t ac gc ch dd [button|] cu sl sa]; simpl.
  - destruct (existsb is3d (getVisibleModels v)); simpl.
    + eexists. split; [reflexivity|]. simpl.
      destruct (existsb propDbLoading (getVisibleModels v)
                || existsb propDbMissing (getVisibleModels v));
        [reflexivity|]. now destruct a.
    + eexists. split; [reflexivity|]. reflexivity.
  - exists None. split; reflexivity.
Qed.

Lemma updateButton_establishes : establishes buttonOk updateButton.
Proof.
  intros this. destruct (updateButton_shows this) as (button & -> & H).
  exact H.
Qed.

Lemma updateButton_noButton : preserves noButton updateButton.
Proof.
  intros this H. unfold noButton in *. unfold updateButton. now rewrite H.
Qed.

Lemma buttonOk_updateButton : preserves buttonOk updateButton.
Proof. apply establishes_preserves, updateButton_establishes. Qed.

#[local] Hint Resolve updateButton_noButton buttonOk_updateButton : pres.

Lemma preserves_fireEvent (P : VisualClustersExtension -> Prop)
    (ev : ViewerEvent) :
  (forall this v, P this -> P (set_viewer v this)) ->
  preserves P (fireEvent ev).
Proof. intros HP this H. unfold fireEvent, assign. simpl. now apply HP. Qed.

Lemma buttonOk_set_viewer (this : VisualClustersExtension) (v : Viewer) :
  buttonOk this -> buttonOk (set_viewer v this).
Proof. now destruct this. Qed.

Lemma noButton_set_viewer (this : VisualClustersExtension) (v : Viewer) :
  noButton this -> noButton (set_viewer v this).
Proof. now destruct this. Qed.

#[local] Hint Resolve preserves_fireEvent buttonOk_set_viewer
  noButton_set_viewer : pres.

Lemma buttonOk_onTransitionStarted : preserves buttonOk onTransitionStarted.
Proof. unfold onTransitionStarted. auto with pres. Qed.

Lemma noButton_onTransitionStarted : preserves noButton onTransitionStarted.
Proof. unfold onTransitionStarted. auto with pres. Qed.

Lemma buttonOk_onTransitionEnded : preserves buttonOk onTransitionEnded.
Proof. unfold onTransitionEnded. auto with pres. Qed.

#[local] Hint Resolve buttonOk_onTransitionStarted noButton_onTransitionStarted
  buttonOk_onTransitionEnded : pres.

Lemma buttonOk_applyLayout_resume (run : LayoutRun) (sceneLayout' : SceneLayout) :
  preserves buttonOk (applyLayout_resume run sceneLayout').
Proof.
  unfold applyLayout_resume.
  apply preserves_bind; [auto with pres|]. intros active.
  apply preserves_bind; [auto with pres|]. intros current.
  destruct (negb active || negb (run_layoutTimeStamp run =? current));
    auto 10 with pres.
Qed.

#[local] Hint Resolve buttonOk_applyLayout_resume : pres.

Lemma buttonOk_applyLayout (attributeName : option string) :
  preserves buttonOk (applyLayout attributeName).
Proof.
  unfold applyLayout.
  apply preserves_bind; [auto with pres|]. intros models.
  apply preserves_bind; [auto with pres|]. intros _.
  apply preserves_bind; [auto with pres|]. intros stamp.
  apply preserves_bind; [auto with pres|]. intros attrib.
  apply preserves_bind; [auto with pres|]. intros search.
  apply preserves_bind; [auto with pres|]. intros [sceneLayout'|];
    auto with pres.
Qed.

#[local] Hint Resolve buttonOk_applyLayout : pres.

Lemma buttonOk_setLayoutActive (active : bool) (attributeName : option string) :
  preserves buttonOk (setLayoutActive active attributeName).
Proof.
  unfold setLayoutActive.
  apply preserves_bind; [auto with pres|]. intros current.
  destruct (Bool.eqb current active); [auto with pres|].
  apply establishes_preserves, establishes_assign_bind.
  apply establishes_bind; [apply updateButton_establishes|]. intros _.
  destruct (negb active); auto 10 with pres.
Qed.

Lemma noButton_setLayoutActive_false (attributeName : option string) :
  preserves noButton (setLayoutActive false attributeName).
Proof.
  unfold setLayoutActive.
  apply preserves_bind; [auto with pres|]. intros current.
  destruct (Bool.eqb current false); [auto with pres|].
  cbn [negb]. auto 10 with pres.
Qed.

Lemma buttonOk_reset : establishes buttonOk reset.
Proof.
  unfold reset. do 3 apply establishes_assign_bind.
  apply updateButton_establishes.
Qed.

#[local] Hint Resolve buttonOk_setLayoutActive : pres.

Lemma buttonOk_onModelRemoved : establishes buttonOk onModelRemoved.
Proof.
  unfold onModelRemoved.
  apply establishes_bind; [apply updateButton_establishes|]. intros _.
  apply preserves_bind; [auto with pres|]. intros models.
  destruct (length models =? 0)%nat; [|auto with pres].
  apply establishes_preserves, buttonOk_reset.
Qed.

Lemma buttonOk_onStartAnimateClick : preserves buttonOk onStartAnimateClick.
Proof.
  unfold onStartAnimateClick, set_display, prepareDropdown.
  apply preserves_bind; [auto with pres|]. intros display.
  destruct (String.eqb display "none").
  - apply preserves_bind; [auto with pres|]. intros _.
    apply preserves_bind; [auto with pres|]. intros opts.
    apply preserves_bind; [destruct (length opts =? 0)%nat; auto with pres|].
    intros _. auto 10 with pres.
  - auto 10 with pres.
Qed.

Lemma buttonOk_unload : preserves buttonOk unload.
Proof.
  unfold unload, _destroyUI.
  apply preserves_bind; [auto with pres|]. intros skip.
  apply preserves_bind; [auto with pres|]. intros button.
  apply preserves_bind; [destruct skip, button; auto with pres|]. intros _.
  apply preserves_bind; [auto with pres|]. intros _.
  apply preserves_bind; [|auto with pres].
  apply preserves_assign. intros [] _. reflexivity.
Qed.

Lemma buttonOk_noLaunch (c : M unit) :
  preserves buttonOk c -> preserves buttonOk (noLaunch c).
Proof. intros H. unfold noLaunch. auto with pres. Qed.

Lemma buttonOk_handle (ev : Event) :
  isToolbarCreated ev = false -> preserves buttonOk (handle ev).
Proof.
  intros Hev.
  destruct ev; try discriminate; cbn [handle];
    try (apply buttonOk_noLaunch);
    unfold onModelAdded, onDbLoaded, set_visibleModels, dropdown_fill,
      leafNodes_resolve, onDestinationChange, onDestinationChange_resume;
    auto using buttonOk_onStartAnimateClick, buttonOk_unload with pres.
  - apply establishes_preserves, buttonOk_reset.
  - apply establishes_preserves, establishes_assign_bind,
      buttonOk_onModelRemoved.
  - destruct outcome; auto with pres.
    apply buttonOk_noLaunch. auto with pres.
Qed.

(** X25. The toolbar button keeps agreeing with [layoutActive] once it is
    there: when a shown button is neither disabled nor in contradiction
    with the flag before a sequence of events that does not create the
    toolbar, the same holds after it, whatever the events are and whether
    their handlers return or throw.  Every handler that changes the flag
    calls [updateButton] before anything that can throw.  ([onToolbarCreated]
    is the exception: it installs the new button as the toolkit made it,
    without calling [updateButton].) *)
Theorem button_keeps_showing_the_layout_state :
  forall (evs : list Event) (this : VisualClustersExtension),
    existsb isToolbarCreated evs = false ->
    buttonShows this = true ->
    buttonShows (runEvents evs this) = true.
Proof.
  induction evs as [|ev evs IH]; intros this Hevs H; cbn [runEvents];
    [exact H|].
  cbn [existsb] in Hevs. apply orb_false_iff in Hevs.
  destruct Hevs as [Hev Hevs].
  apply IH; [exact Hevs|]. rewrite step_state.
  now apply (buttonOk_handle ev Hev).
Qed.

(** *** Unloading *)

Lemma uiInputs_unload : keepsField uiInputs unload.
Proof.
  unfold unload, _destroyUI.
  apply keepsField_bind; [auto with inputs|]. intros skip.
  apply keepsField_bind; [auto with inputs|]. intros button.
  apply keepsField_bind; [destruct skip, button; auto with inputs|]. intros _.
  apply keepsField_bind; [auto with inputs|]. intros _.
  apply keepsField_bind; [auto with inputs|]. intros _.
  apply uiInputs_setLayoutActive.
Qed.

Lemma unload_noButton : establishes noButton unload.
Proof.
  intros this. unfold unload. rewrite !run_gets.
  assert (Hrest : forall s,
             noButton (snd ((assign (fun this =>
                               set_animController
                                 (anim_reset (animController this)) this) ;;>
                             _destroyUI) s))).
  { intros s. rewrite run_assign. unfold _destroyUI. rewrite run_assign.
    apply noButton_setLayoutActive_false. now destruct s. }
  destruct (skipDefaultListeners (options this)),
             (clusterButton this) as [button|] eqn:Eb;
    try (rewrite run_ret; apply Hrest).
  exact Eb.
Qed.

(** X26. Without [skipDefaultListeners], [unload] works once at most: a second
    call, straight after the first, throws when it reads the button, before
    it resets the animation controller, and leaves the extension as the
    first call left it.  The same happens at the first call when the toolbar
    button was never created. *)
Theorem unload_cannot_be_repeated :
  forall (this : VisualClustersExtension),
    skipDefaultListeners (options this) = false ->
    (clusterButton this = None ->
     unload this = (Throw (TypeError "this.clusterButton is undefined"), this))
    /\ unload (snd (unload this))
       = (Throw (TypeError "this.clusterButton is undefined"),
          snd (unload this)).
Proof.
  intros this Hskip.
  assert (Hthrow : forall s,
             skipDefaultListeners (options s) = false ->
             clusterButton s = None ->
             unload s = (Throw (TypeError "this.clusterButton is undefined"), s)).
  { intros s Hs Hb. unfold unload. now rewrite !run_gets, Hs, Hb. }
  split; [now apply Hthrow|].
  apply Hthrow.
  - pose proof (uiInputs_unload this) as Hu. unfold uiInputs in Hu.
    injection Hu as _ _ Ho _ _. now rewrite Ho.
  - apply unload_noButton.
Qed.

(** *** Removing models *)

(** X27. [MODEL_REMOVED]: the handler never calls [applyLayout], fires no event
    and leaves the counter and the stored layout.  When no model is visible
    any more it resets both controllers and switches the layout off;
    otherwise it leaves the flag and the controllers. *)
Theorem removing_the_last_model_resets :
  forall (visible : list Model) (this : VisualClustersExtension),
    let this' := fst (step (On_modelRemoved visible) this) in
    snd (step (On_modelRemoved visible) this) = None
    /\ getVisibleModels (viewer this') = visible
    /\ fired (viewer this') = fired (viewer this)
    /\ layoutTimeStamp this' = layoutTimeStamp this
    /\ sceneLayout this' = sceneLayout this
    /\ match visible with
       | [] =>
           layoutActive this' = false
           /\ animController this' = anim_reset (animController this)
           /\ gizmoController this' = gizmo_reset (gizmoController this)
       | _ :: _ =>
           layoutActive this' = layoutActive this
           /\ animController this' = animController this
           /\ gizmoController this' = gizmoController this
       end.
Proof.
  intros visible this this'. subst this'.
  rewrite step_state, step_launch. cbn [handle].
  destruct (noLaunch (set_visibleModels visible ;;> onModelRemoved) this)
    as [r this'] eqn:E.
  cbn [fst snd]. revert E.
  unfold noLaunch, set_visibleModels. unfold bindM at 1. rewrite run_assign.
  unfold onModelRemoved.
  match goal with
  | |- context [bindM updateButton ?k ?s] =>
      destruct (run_updateButton k s) as [button ->]
  end.
  rewrite run_gets.
  destruct this as [b v o a t ac gc ch dd cb cu sl sa]. cbn.
  destruct visible as [|model rest]; cbn.
  - unfold reset, bindM, assign. cbn.
    match goal with
    | |- context [updateButton ?s] =>
        destruct (updateButton_frame s) as [button' ->]
    end.
    cbn. intros E. injection E as <- <-. cbn. repeat split; reflexivity.
  - intros E. injection E as <- <-. cbn. repeat split; reflexivity.
Qed.
End ExtensionMore.

(** ** Examples on the recording collaborators *)

Lemma activation_suspends_on_the_default_layout_witness :
  exists button,
    setLayoutActive true None freshExtension
    = (Ok (Some (Awaiting
                   {| run_models := [assemblyScene];
                      run_layoutTimeStamp := 0 + 1;
                      run_attribName := "";
                      run_searchAncestors := None |})),
       set_layoutTimeStamp (0 + 1)
         (set_clusterButton button (set_layoutActive true freshExtension))).
Proof.
  exact (@activation_suspends_on_the_default_layout recording None freshExtension
           eq_refl eq_refl (conj (Z.le_refl 0) (Z.lt_le_incl 0 Js.MAX_SAFE_INTEGER eq_refl))).
Defined.



Lemma two_clicks_restore_layout_and_dropdown_witness :
  layoutActive
    (runEvents [On_startAnimateClick; On_startAnimateClick] freshExtension)
  = false
  /\ dropdown
       (runEvents [On_startAnimateClick; On_startAnimateClick] freshExtension)
     = {| style_display := "none"; dropdown_options := [] |}
  /\ layoutTimeStamp
       (runEvents [On_startAnimateClick; On_startAnimateClick] freshExtension)
     = 0 + 1
  /\ countTriggers [On_startAnimateClick; On_startAnimateClick] freshExtension
     = 1%nat.
Proof.
  exact (@two_clicks_restore_layout_and_dropdown recording freshExtension
           (conj (Z.le_refl 0) (Z.lt_le_incl 0 Js.MAX_SAFE_INTEGER eq_refl))
           (or_introl eq_refl)).
Defined.

Lemma latest_layout_result_is_stored_witness :
  let arrived :=
    fst (step (On_layoutSettled firstRun (Resolved []))
           (runEvents [On_dbLoaded] (fst (step On_startAnimateClick freshExtension))))
  in
  sceneLayout arrived = Some []
  /\ sceneAnimState arrived = Some (createSceneState [] [assemblyScene])
  /\ layoutActive arrived = true
  /\ layoutTimeStamp arrived = 1.
Proof.
  exact (@latest_layout_result_is_stored recording On_startAnimateClick
           [On_dbLoaded] freshExtension firstRun [] eq_refl eq_refl eq_refl).
Defined.

Lemma button_keeps_showing_the_layout_state_witness :
  buttonShows toolbarExtension = true
  /\ buttonShows
       (runEvents (On_startAnimateClick :: attributeChosen) toolbarExtension)
     = true.
Proof.
  split; [reflexivity|].
  exact (@button_keeps_showing_the_layout_state recording
           (On_startAnimateClick :: attributeChosen) toolbarExtension
           eq_refl eq_refl).
Defined.

Lemma unload_cannot_be_repeated_witness :
  fst (unload toolbarExtension) = Ok None
  /\ unload (snd (unload toolbarExtension))
     = (Throw (TypeError "this.clusterButton is undefined"),
        snd (unload toolbarExtension)).
Proof.
  split; [reflexivity|].
  exact (proj2 (@unload_cannot_be_repeated recording toolbarExtension eq_refl)).
Defined.

Lemma click_toggles_layout_and_dropdown_witness :
  layoutActive (fst (step On_startAnimateClick freshExtension)) = true
  /\ style_display (dropdown (fst (step On_startAnimateClick freshExtension)))
     = "block"
  /\ layoutTimeStamp (fst (step On_startAnimateClick freshExtension)) = 0 + 1.
Proof.
  destruct (@click_toggles_layout_and_dropdown recording freshExtension
              (conj (Z.le_refl 0) (Z.lt_le_incl 0 Js.MAX_SAFE_INTEGER eq_refl)))
    as (A & D & _ & _ & T & _).
  exact (conj A (conj D T)).
Defined.

Lemma attribute_change_restarts_the_layout_witness :
  timersArmed attributeChosen freshExtension = true
  /\ chosenAttrib (runEvents attributeChosen freshExtension) = "Category"
  /\ layoutActive (runEvents attributeChosen freshExtension) = false
  /\ layoutTimeStamp (runEvents attributeChosen freshExtension) = 0 + 1.
Proof.
  split; [reflexivity|].
  destruct (@attribute_change_restarts_the_layout recording "Category"
              freshExtension (conj (Z.le_refl 0) (Z.lt_le_incl 0 Js.MAX_SAFE_INTEGER eq_refl)))
    as (_ & _ & Harmed & _).
  destruct (Harmed eq_refl) as (Hc & Ha & Ht & _).
  exact (conj Hc (conj Ha Ht)).
Defined.

Lemma layoutTimeStamp_counts_the_calls_of_applyLayout_witness :
  layoutTimeStamp (runEvents (On_startAnimateClick :: attributeChosen)
                     freshExtension)
  = 0 + Z.of_nat (countTriggers (On_startAnimateClick :: attributeChosen)
                    freshExtension).
Proof.
  refine (proj2 (proj2 (@layoutTimeStamp_counts_the_calls_of_applyLayout
                          recording (On_startAnimateClick :: attributeChosen)
                          freshExtension
                          (conj (Z.le_refl 0)
                             (Z.lt_le_incl 0 (Js.MAX_SAFE_INTEGER + 1) eq_refl))))
            _).
  apply Z.lt_le_incl. reflexivity.
Defined.
